(** * godot_ai_server: message model, retry engine, dispatcher, analyzer

    A shallow embedding of [src/ai_server/godot_ai_server.py].  Each Python
    class is a module of the same name; methods keep their names.  Python
    dictionaries whose equality ignores insertion order are [gmap]s, the
    dynamically typed payloads that travel over the wire are [value]s, and
    the dispatcher's interaction with the editor (replies, generated ids,
    wall clock, sleeps) is explicit state passing against a [World].  The
    command objects handed to a batch, which [execute_command] writes to,
    live in a store and are listed by address; built-in renderings that can
    raise are parameters that return a [result]. *)

From Stdlib Require Import QArith.
From stdpp Require Import gmap strings list fin_maps functions pretty.

Set Warnings "-register-all".

(** ** Dynamically typed values

    What [json.loads] produces and what the fields of a decoded object may
    hold.  A finite float is represented by the rational it denotes (all the
    float constants of the program are small integers); NaN and the
    infinities are not represented. *)
Inductive value : Type :=
  | VNone
  | VBool (b : bool)
  | VInt (z : Z)
  | VFloat (q : Q)
  | VStr (s : string)
  | VList (l : list value)
  | VDict (d : gmap string value).

(** Python truthiness, as used by [if self.action:] and friends. *)
Definition truthy (v : value) : bool :=
  match v with
  | VNone => false
  | VBool b => b
  | VInt z => negb (z =? 0)%Z
  | VFloat q => negb (Qnum q =? 0)%Z
  | VStr s => negb (String.eqb s "")
  | VList l => match l with [] => false | _ :: _ => true end
  | VDict d => negb (bool_decide (d = ∅))
  end.

(** [v == s] for a string literal [s]: only a string can be equal to it. *)
Definition eq_str (v : value) (s : string) : bool :=
  match v with
  | VStr s' => String.eqb s' s
  | _ => false
  end.

(** [data.get(key, default)] *)
Definition get (data : gmap string value) (key : string) (dflt : value) : value :=
  default dflt (data !! key).

(** [{k: v for k, v in data.items() if k not in reserved}] *)
Definition without_keys (reserved : list string) (data : gmap string value)
  : gmap string value :=
  filter (λ kv, kv.1 ∉ reserved) data.

(** [result.update(other)]: the entries of [other] win. *)
Definition update (result other : gmap string value) : gmap string value :=
  other ∪ result.

(** ** class Command *)
Module Command.

(** The dataclass with its declared field types. *)
Record t : Type := mk {
  action : string;
  parameters : gmap string value;
  auto_run : bool;
  request_id : string
}.

(** What [from_dict] builds: the same four fields, holding whatever the
    wire mapping holds (the constructor checks no types). *)
Record decoded : Type := mk_decoded {
  d_action : value;
  d_parameters : gmap string value;
  d_auto_run : value;
  d_request_id : value
}.

(** A well-typed command seen as a decoded object; dataclass [==]
    compares the four fields. *)
Definition as_decoded (c : t) : decoded :=
  {| d_action := VStr (action c);
     d_parameters := parameters c;
     d_auto_run := VBool (auto_run c);
     d_request_id := VStr (request_id c) |}.

Definition reserved : list string := ["action"; "auto_run"; "request_id"].

Definition to_dict (self : t) : gmap string value :=
  let result : gmap string value :=
    <["auto_run" := VBool (auto_run self)]>
      (<["action" := VStr (action self)]> ∅) in
  let result := update result (parameters self) in
  if negb (String.eqb (request_id self) "")
  then <["request_id" := VStr (request_id self)]> result
  else result.

Definition from_dict (data : gmap string value) : decoded :=
  {| d_action := get data "action" (VStr "");
     d_parameters := without_keys reserved data;
     d_auto_run := get data "auto_run" (VBool false);
     d_request_id := get data "request_id" (VStr "") |}.

(** [command.request_id = request_id] *)
Definition set_request_id (self : t) (rid : string) : t :=
  {| action := action self; parameters := parameters self;
     auto_run := auto_run self; request_id := rid |}.

End Command.

(** ** class Response *)
Module Response.

(** Every field is filled from the wire by [from_dict], so every field is
    dynamically typed. *)
Record t : Type := mk {
  status : value;
  action : value;
  error : value;
  error_type : value;
  error_details : value;
  data : gmap string value;
  timestamp : value
}.

(** [Response(status=s, error=e, error_type=ty)] with the dataclass
    defaults for the remaining fields. *)
Definition make (s e ty : string) : t :=
  {| status := VStr s; action := VStr ""; error := VStr e;
     error_type := VStr ty; error_details := VDict ∅; data := ∅;
     timestamp := VFloat 0 |}.

Definition is_success (self : t) : bool := eq_str (status self) "success".

Definition is_error (self : t) : bool := eq_str (status self) "error".

Definition reserved : list string :=
  ["status"; "action"; "error"; "type"; "error_details"].

Definition put_if_truthy (key : string) (v : value)
    (result : gmap string value) : gmap string value :=
  if truthy v then <[key := v]> result else result.

Definition to_dict (self : t) : gmap string value :=
  let result : gmap string value := {["status" := status self]} in
  let result := put_if_truthy "action" (action self) result in
  let result := put_if_truthy "error" (error self) result in
  let result := put_if_truthy "error_type" (error_type self) result in
  let result := put_if_truthy "error_details" (error_details self) result in
  update result (data self).

Definition from_dict (data : gmap string value) : t :=
  {| status := get data "status" (VStr "unknown");
     action := get data "action" (VStr "");
     error := get data "error" (VStr "");
     error_type := get data "type" (VStr "");
     error_details := get data "error_details" (VDict ∅);
     data := without_keys reserved data;
     timestamp := get data "timestamp" (VFloat 0) |}.

End Response.

(** ** Exceptions

    The exceptions the modelled methods and the built-ins they call can
    raise. *)
Inductive exn : Type := OverflowError | TypeError | ValueError.

Inductive result (A : Type) : Type :=
  | Ok (a : A)
  | Raise (e : exn).
Arguments Ok {A} a.
Arguments Raise {A} e.

#[global] Instance result_ret : MRet result := λ A a, Ok a.
#[global] Instance result_bind : MBind result := λ A B f m,
  match m with
  | Ok a => f a
  | Raise e => Raise e
  end.

(** [a < b] on floats *)
Definition Qlt_bool (a b : Q) : bool := negb (Qle_bool b a).

(** ** class RetryEngine *)
Module RetryEngine.

Definition MAX_RETRIES : nat := 5.
Definition RETRY_DELAY_BASE : Q := 1.
Definition RETRY_DELAY_MAX : Q := 10.

(** One element of [retry_history]. *)
Record attempt_record : Type := mk_attempt {
  a_request_id : string;
  a_command : gmap string value;
  a_response : gmap string value;
  a_attempt : nat;
  a_timestamp : string
}.

(** The counters start at 0 and are only ever incremented, hence [nat]. *)
Record t : Type := mk {
  retry_count : gmap string nat;
  retry_history : list attempt_record
}.

(** [__init__] *)
Definition init : t := {| retry_count := ∅; retry_history := [] |}.

(** [self.retry_count.get(request_id, 0)] *)
Definition count (self : t) (request_id : string) : nat :=
  default 0 (retry_count self !! request_id).

Definition should_retry (self : t) (request_id : string) : bool :=
  bool_decide (count self request_id < MAX_RETRIES).

(** [x * (2 ** count)] for a float [x]: the integer [2 ** count] is first
    converted to a binary64 float.  The conversion is exact for a power of
    two up to [2 ** 1023] and raises OverflowError from [2 ** 1024] on; the
    product with the base 1.0 is then exact as well. *)
Definition mul_pow2 (x : Q) (count : nat) : result Q :=
  if bool_decide (count < 1024)
  then Ok (x * inject_Z (2 ^ Z.of_nat count))%Q
  else Raise OverflowError.

(** [min(a, b)]: the first argument unless the second is smaller. *)
Definition min (a b : Q) : Q := if Qlt_bool b a then b else a.

Definition get_retry_delay (self : t) (request_id : string) : result Q :=
  let count := count self request_id in
  delay ← mul_pow2 RETRY_DELAY_BASE count;
  mret (min delay RETRY_DELAY_MAX).

(** [now] is [datetime.now().isoformat()] as read by this call. *)
Definition record_attempt (self : t) (request_id : string)
    (command : Command.t) (response : Response.t) (now : string) : t :=
  let rc :=
    match retry_count self !! request_id with
    | None => <[request_id := 0]> (retry_count self)
    | Some _ => retry_count self
    end in
  let rc := <[request_id := default 0 (rc !! request_id) + 1]> rc in
  {| retry_count := rc;
     retry_history := retry_history self ++
       [ {| a_request_id := request_id;
            a_command := Command.to_dict command;
            a_response := Response.to_dict response;
            a_attempt := default 0 (rc !! request_id);
            a_timestamp := now |} ] |}.

Definition reset (self : t) (request_id : string) : t :=
  {| retry_count :=
       match retry_count self !! request_id with
       | Some _ => delete request_id (retry_count self)
       | None => retry_count self
       end;
     retry_history := retry_history self |}.

Definition can_continue (self : t) (request_id : string) : bool :=
  should_retry self request_id.

Record retry_info : Type := mk_info {
  i_request_id : string;
  current_attempt : nat;
  max_attempts : nat;
  can_retry : bool
}.

Definition get_retry_info (self : t) (request_id : string) : retry_info :=
  {| i_request_id := request_id;
     current_attempt := count self request_id;
     max_attempts := MAX_RETRIES;
     can_retry := should_retry self request_id |}.

End RetryEngine.

(** ** class PerformanceAnalyzer *)
Module PerformanceAnalyzer.

(** [THRESHOLDS]: the fps and memory bounds are floats, the others ints. *)
Definition fps_min : value := VFloat 30.
Definition fps_warning : value := VFloat 45.
Definition draw_calls_max : value := VInt 5000.
Definition draw_calls_warning : value := VInt 3000.
Definition node_count_max : value := VInt 2000.
Definition node_count_warning : value := VInt 1500.
Definition memory_max_mb : value := VFloat 512.

(** An element of [issues] or [warnings]. *)
Record finding : Type := mk_finding {
  metric : string;
  value_ : value;
  threshold : value;
  message : string
}.

Record recommendation : Type := mk_rec {
  priority : string;
  area : string;
  r_message : string
}.

(** The [analysis] dictionary. *)
Record analysis : Type := mk {
  status : string;
  issues : list finding;
  warnings : list finding;
  recommendations : list recommendation
}.

(** The number a value denotes in an ordering comparison with a number
    ([bool] is an [int] in Python); anything else makes [<] raise. *)
Definition number (v : value) : result Q :=
  match v with
  | VBool b => Ok (if b then 1%Q else 0%Q)
  | VInt z => Ok (inject_Z z)
  | VFloat q => Ok q
  | _ => Raise TypeError
  end.

(** [a < b] and [a > b] *)
Definition lt (a b : value) : result bool :=
  x ← number a; y ← number b; mret (Qlt_bool x y).
Definition gt (a b : value) : result bool := lt b a.

(** ["warning" not in status] is a substring test. *)
Definition contains (needle hay : string) : bool :=
  match String.index 0 needle hay with
  | Some _ => true
  | None => false
  end.

Section Formatting.
(** The two built-in renderings used in the messages: [f"{v:.1f}"] and
    [f"{v}"].  Either can raise: [f"{v:.1f}"] raises OverflowError on an
    integer beyond the range of a float, and the conversion of a very long
    integer to text raises ValueError. *)
Variable format_1f : value → result string.
Variable str : value → result string.

(** The second loop of [_generate_recommendations], over the warnings. *)
Fixpoint monitor (warnings : list finding) : result (list recommendation) :=
  match warnings with
  | [] => mret []
  | warning :: warnings =>
    current ← str (value_ warning);
    rest ← monitor warnings;
    mret (mk_rec "medium" (metric warning)
            ("Monitor " +:+ metric warning +:+ " - current: " +:+ current)
          :: rest)
  end.

Definition _generate_recommendations (a : analysis)
  : result (list recommendation) :=
  let recommendations :=
    flat_map (λ issue,
        if String.eqb (metric issue) "fps" then
          [ mk_rec "high" "frame_rate"
              "Reduce shader complexity, implement LOD, enable occlusion culling" ]
        else if String.eqb (metric issue) "draw_calls" then
          [ mk_rec "high" "draw_calls"
              "Use MultiMeshInstance, enable GPU instancing, combine static meshes" ]
        else if String.eqb (metric issue) "node_count" then
          [ mk_rec "high" "node_count"
              "Merge static geometry, implement object pooling" ]
        else [])
      (issues a) in
  medium ← monitor (warnings a);
  mret (recommendations ++ medium).

Definition add_issue (f : finding) (st : string) (a : analysis) : analysis :=
  {| status := st; issues := issues a ++ [f]; warnings := warnings a;
     recommendations := recommendations a |}.

Definition add_warning (f : finding) (a : analysis) : analysis :=
  {| status := status a; issues := issues a; warnings := warnings a ++ [f];
     recommendations := recommendations a |}.

Definition analyze (report : gmap string value) : result analysis :=
  let a := {| status := "ok"; issues := []; warnings := [];
              recommendations := [] |} in
  let fps := get report "fps" (VFloat 60) in
  let draw_calls := get report "draw_calls" (VInt 0) in
  let node_count := get report "node_count" (VInt 0) in
  let memory_mb := get report "memory_usage_mb" (VFloat 0) in
  (* Check FPS *)
  crit ← lt fps fps_min;
  a ← (if crit : bool then
         text ← format_1f fps;
         mret (add_issue (mk_finding "fps" fps fps_min
                            ("Critical FPS: " +:+ text))
                 "critical" a)
       else
         warn ← lt fps fps_warning;
         if warn : bool then
           text ← format_1f fps;
           mret (add_warning (mk_finding "fps" fps fps_warning
                                ("Low FPS: " +:+ text)) a)
         else mret a);
  (* Check draw calls *)
  crit ← gt draw_calls draw_calls_max;
  a ← (if crit : bool then
         text ← str draw_calls;
         mret (add_issue (mk_finding "draw_calls" draw_calls draw_calls_max
                            ("Critical draw calls: " +:+ text))
                 (if negb (String.eqb (status a) "critical")
                  then "critical" else "critical") a)
       else
         warn ← gt draw_calls draw_calls_warning;
         if warn : bool then
           if negb (contains "warning" (status a)) then
             text ← str draw_calls;
             mret (add_warning (mk_finding "draw_calls" draw_calls
                                  draw_calls_warning
                                  ("High draw calls: " +:+ text)) a)
           else mret a
         else mret a);
  (* Check node count *)
  crit ← gt node_count node_count_max;
  a ← (if crit : bool then
         text ← str node_count;
         mret (add_issue (mk_finding "node_count" node_count node_count_max
                            ("Critical node count: " +:+ text))
                 (if negb (String.eqb (status a) "critical")
                  then "critical" else "critical") a)
       else
         warn ← gt node_count node_count_warning;
         if warn : bool then
           text ← str node_count;
           mret (add_warning (mk_finding "node_count" node_count
                                node_count_warning
                                ("High node count: " +:+ text)) a)
         else mret a);
  (* Generate recommendations *)
  recommendations ← _generate_recommendations a;
  mret {| status := status a; issues := issues a; warnings := warnings a;
          recommendations := recommendations |}.

End Formatting.

End PerformanceAnalyzer.

(** ** class GodotAIClient

    The connection is the boundary of the model: what one call of
    [send_command] meets on the socket is an [exchange]. *)
Module GodotAIClient.

Inductive exchange : Type :=
  | NotConnected              (* [not self.connected or not self.websocket] *)
  | Timeout                   (* [asyncio.TimeoutError] after 30 seconds *)
  | Failure                   (* any other exception of send, recv or json *)
  | Reply (payload : value).  (* [json.loads(response_data)] *)

(** A reply that is not a JSON object makes [Response.from_dict] raise
    AttributeError, which the [except Exception] clause turns into None. *)
Definition send_command (x : exchange) : option Response.t :=
  match x with
  | NotConnected => None
  | Timeout => None
  | Failure => None
  | Reply (VDict response_dict) => Some (Response.from_dict response_dict)
  | Reply _ => None
  end.

End GodotAIClient.

(** ** The environment of a dispatcher

    [exchanges n] is what the n-th call of [send_command] meets, [fresh_id n]
    what the n-th call of [_generate_request_id] returns, and [now n] the
    n-th reading of [datetime.now().isoformat()]. *)
Record World : Type := mk_world {
  exchanges : nat → GodotAIClient.exchange;
  fresh_id : nat → string;
  now : nat → string
}.

(** ** class AICommandDispatcher *)
Module AICommandDispatcher.

(** One element of [command_history]. *)
Record history_entry : Type := mk_entry {
  h_command : gmap string value;
  h_response : gmap string value;
  h_attempts : nat;
  h_timestamp : string
}.

(** The dispatcher's own attributes, followed by the trace of its effects
    on the world: the commands handed to [send_command], the delays passed
    to [asyncio.sleep], and how many ids and clock readings were drawn. *)
Record t : Type := mk {
  retry_engine : RetryEngine.t;
  pending_commands : gmap string Command.t;
  command_history : list history_entry;
  sent : list Command.t;
  slept : list Q;
  ids_drawn : nat;
  clock_reads : nat
}.

(** [__init__] *)
Definition init : t :=
  {| retry_engine := RetryEngine.init; pending_commands := ∅;
     command_history := []; sent := []; slept := []; ids_drawn := 0;
     clock_reads := 0 |}.

Definition set_pending (self : t) (p : gmap string Command.t) : t :=
  {| retry_engine := retry_engine self; pending_commands := p;
     command_history := command_history self; sent := sent self;
     slept := slept self; ids_drawn := ids_drawn self;
     clock_reads := clock_reads self |}.

Definition set_retry_engine (self : t) (e : RetryEngine.t) : t :=
  {| retry_engine := e; pending_commands := pending_commands self;
     command_history := command_history self; sent := sent self;
     slept := slept self; ids_drawn := ids_drawn self;
     clock_reads := clock_reads self |}.

Definition set_history (self : t) (h : list history_entry) : t :=
  {| retry_engine := retry_engine self;
     pending_commands := pending_commands self;
     command_history := h; sent := sent self;
     slept := slept self; ids_drawn := ids_drawn self;
     clock_reads := clock_reads self |}.

(** [await self.client.send_command(command)] *)
Definition send (w : World) (command : Command.t) (self : t)
  : option Response.t * t :=
  (GodotAIClient.send_command (exchanges w (length (sent self))),
   {| retry_engine := retry_engine self;
      pending_commands := pending_commands self;
      command_history := command_history self;
      sent := sent self ++ [command];
      slept := slept self; ids_drawn := ids_drawn self;
      clock_reads := clock_reads self |}).

(** [await asyncio.sleep(delay)] *)
Definition sleep (delay : Q) (self : t) : t :=
  {| retry_engine := retry_engine self;
     pending_commands := pending_commands self;
     command_history := command_history self; sent := sent self;
     slept := slept self ++ [delay]; ids_drawn := ids_drawn self;
     clock_reads := clock_reads self |}.

(** [datetime.now().isoformat()] *)
Definition read_clock (w : World) (self : t) : string * t :=
  (now w (clock_reads self),
   {| retry_engine := retry_engine self;
      pending_commands := pending_commands self;
      command_history := command_history self; sent := sent self;
      slept := slept self; ids_drawn := ids_drawn self;
      clock_reads := S (clock_reads self) |}).

Definition _generate_request_id (w : World) (self : t) : string * t :=
  (fresh_id w (ids_drawn self),
   {| retry_engine := retry_engine self;
      pending_commands := pending_commands self;
      command_history := command_history self; sent := sent self;
      slept := slept self; ids_drawn := S (ids_drawn self);
      clock_reads := clock_reads self |}).

(** [history[-1000:]] *)
Definition last_1000 (history : list history_entry) : list history_entry :=
  drop (length history - 1000) history.

Definition _log_command (w : World) (command : Command.t)
    (response : Response.t) (attempts : nat) (self : t) : t :=
  let '(ts, self) := read_clock w self in
  let entry := {| h_command := Command.to_dict command;
                  h_response := Response.to_dict response;
                  h_attempts := attempts;
                  h_timestamp := ts |} in
  let self := set_history self (command_history self ++ [entry]) in
  if bool_decide (1000 < length (command_history self))
  then set_history self (last_1000 (command_history self))
  else self.

(** The entry [_log_command] appends, as a function of the state it is
    called in. *)
Definition logged_entry (w : World) (command : Command.t)
    (response : Response.t) (attempts : nat) (self : t) : history_entry :=
  {| h_command := Command.to_dict command;
     h_response := Response.to_dict response;
     h_attempts := attempts;
     h_timestamp := now w (clock_reads self) |}.

(** [self.retry_engine.record_attempt(request_id, command, response)] *)
Definition record_attempt (w : World) (request_id : string)
    (command : Command.t) (response : Response.t) (self : t) : t :=
  let '(ts, self) := read_clock w self in
  set_retry_engine self
    (RetryEngine.record_attempt (retry_engine self) request_id command
       response ts).

(** How a call ends: it returns, it raises, or the loop is still running
    when the fuel that bounds the number of iterations is used up. *)
Inductive outcome (A : Type) : Type :=
  | Returned (a : A) (self : t)
  | Raised (e : exn) (self : t)
  | OutOfFuel (self : t).
Arguments Returned {A} a self.
Arguments Raised {A} e self.
Arguments OutOfFuel {A} self.

(** The [while True] loop of [execute_command]; every iteration uses one
    unit of fuel.  All three [return]s are inside the loop. *)
Fixpoint command_loop (fuel : nat) (w : World) (request_id : string)
    (command : Command.t) (attempts : nat) (self : t) : outcome Response.t :=
  match fuel with
  | 0 => OutOfFuel self
  | S fuel =>
    let attempts := attempts + 1 in
    let '(response, self) := send w command self in
    match response with
    | None =>
      (* Communication error *)
      if RetryEngine.can_continue (retry_engine self) request_id then
        match RetryEngine.get_retry_delay (retry_engine self) request_id with
        | Ok delay =>
          command_loop fuel w request_id command attempts (sleep delay self)
        | Raise e => Raised e self
        end
      else
        Returned (Response.make "error"
                    "Failed to communicate with Godot Editor" "communication")
                 self
    | Some response =>
      (* Record the attempt *)
      let self := record_attempt w request_id command response self in
      (* Check response *)
      if Response.is_success response then
        let self := _log_command w command response attempts self in
        let self :=
          set_retry_engine self
            (RetryEngine.reset (retry_engine self) request_id) in
        Returned response self
      else if Response.is_error response then
        let error_type := Response.error_type response in
        (* Check if we should retry *)
        if existsb (eq_str error_type) ["compile"; "runtime"]
           && RetryEngine.can_continue (retry_engine self) request_id then
          match RetryEngine.get_retry_delay (retry_engine self) request_id with
          | Ok delay =>
            command_loop fuel w request_id command attempts (sleep delay self)
          | Raise e => Raised e self
          end
        else
          (* Don't retry other error types *)
          let self := _log_command w command response attempts self in
          Returned response self
      else
        command_loop fuel w request_id command attempts self
    end
  end.

(** The id the call works under, and the state after it is chosen:
    [command.request_id or self._generate_request_id()]. *)
Definition assign_request_id (w : World) (command : Command.t) (self : t)
  : string * t :=
  if negb (String.eqb (Command.request_id command) "")
  then (Command.request_id command, self)
  else _generate_request_id w self.

(** [execute_command]; the parameter [max_retries] is never read.  The
    statements after the loop ([pending_commands.pop] and the
    "Unexpected exit" response) follow a [while True] without [break] and
    are never executed. *)
Definition execute_command (fuel : nat) (w : World) (command : Command.t)
    (self : t) : outcome Response.t :=
  let '(request_id, self) := assign_request_id w command self in
  let command := Command.set_request_id command request_id in
  let self :=
    set_pending self (<[request_id := command]> (pending_commands self)) in
  command_loop fuel w request_id command 0 self.

(** Command objects live in a store and are known by their address; a list
    of commands is a list of addresses, in which the same object may occur
    more than once. *)
Definition store : Type := nat → Command.t.

(** The object after a call of [execute_command] on it: the call writes the
    id it works under into the object before it enters its loop, so the
    write is there however the call ends. *)
Definition stamped (w : World) (command : Command.t) (self : t) : Command.t :=
  Command.set_request_id command (assign_request_id w command self).1.

(** The [for] loop of [execute_batch]; [fuel] bounds each command's own
    loop.  The result comes with the store as the loop leaves it. *)
Fixpoint batch_loop (fuel : nat) (w : World) (commands : list nat)
    (results : list Response.t) (objects : store) (self : t)
  : outcome (list Response.t) * store :=
  match commands with
  | [] => (Returned results self, objects)
  | command :: commands =>
    let called := execute_command fuel w (objects command) self in
    let objects := <[command := stamped w (objects command) self]> objects in
    match called with
    | Returned response self =>
      let results := results ++ [response] in
      if Response.is_error response then
        (* Stop on first error in batch *)
        (Returned results self, objects)
      else batch_loop fuel w commands results objects self
    | Raised e self => (Raised e self, objects)
    | OutOfFuel self => (OutOfFuel self, objects)
    end
  end.

Definition execute_batch (fuel : nat) (w : World) (commands : list nat)
    (objects : store) (self : t) : outcome (list Response.t) * store :=
  batch_loop fuel w commands [] objects self.

End AICommandDispatcher.

(** ** Definitions used in the statements *)

(** The state a call leaves behind, however it ends. *)
Definition outcome_state {A : Type} (o : AICommandDispatcher.outcome A)
  : AICommandDispatcher.t :=
  match o with
  | AICommandDispatcher.Returned _ self => self
  | AICommandDispatcher.Raised _ self => self
  | AICommandDispatcher.OutOfFuel self => self
  end.

(** The id [execute_command] works under, the command as stored and sent
    (carrying that id), and the state in which the loop is entered. *)
Definition request_id_of (w : World) (command : Command.t)
    (self : AICommandDispatcher.t) : string :=
  (AICommandDispatcher.assign_request_id w command self).1.

Definition command_of (w : World) (command : Command.t)
    (self : AICommandDispatcher.t) : Command.t :=
  Command.set_request_id command (request_id_of w command self).

Definition entered (w : World) (command : Command.t)
    (self : AICommandDispatcher.t) : AICommandDispatcher.t :=
  let self' := (AICommandDispatcher.assign_request_id w command self).2 in
  AICommandDispatcher.set_pending self'
    (<[request_id_of w command self := command_of w command self]>
       (AICommandDispatcher.pending_commands self')).

(** The state after an iteration received [response] and recorded it. *)
Definition after_reply (w : World) (request_id : string)
    (command : Command.t) (response : Response.t)
    (self : AICommandDispatcher.t) : AICommandDispatcher.t :=
  AICommandDispatcher.record_attempt w request_id command response
    (AICommandDispatcher.send w command self).2.

(** The state after an iteration received nothing and slept. *)
Definition after_silence (w : World) (command : Command.t) (delay : Q)
    (self : AICommandDispatcher.t) : AICommandDispatcher.t :=
  AICommandDispatcher.sleep delay (AICommandDispatcher.send w command self).2.

(** The backoff curve: [min(1.0 * 2 ** n, 10.0)]. *)
Definition backoff (n : nat) : Q :=
  if bool_decide (n < 4) then inject_Z (2 ^ Z.of_nat n) else 10.

(** [runs fuel w commands objects self responses objects' self']: calling
    [execute_command] on each object of the list in turn, each call starting
    in the state and with the store the previous one left, returns
    [responses] and ends with the store [objects'] in the state [self']. *)
Inductive runs (fuel : nat) (w : World)
  : list nat → AICommandDispatcher.store → AICommandDispatcher.t →
    list Response.t → AICommandDispatcher.store → AICommandDispatcher.t →
    Prop :=
  | runs_nil objects self : runs fuel w [] objects self [] objects self
  | runs_cons command commands objects self response self' responses
      objects'' self'' :
      AICommandDispatcher.execute_command fuel w (objects command) self
        = AICommandDispatcher.Returned response self' →
      runs fuel w commands
        (<[command := AICommandDispatcher.stamped w (objects command) self]>
           objects)
        self' responses objects'' self'' →
      runs fuel w (command :: commands) objects self (response :: responses)
        objects'' self''.

(** Every response but the last is not an error. *)
Definition errors_only_last (responses : list Response.t) : Prop :=
  ∀ i r, responses !! i = Some r → S i < length responses →
         Response.is_error r = false.

(** Either no command is left over, or the last response is an error. *)
Definition stopped_by_error (post : list nat)
    (responses : list Response.t) : Prop :=
  post = [] ∨ ∃ r, last responses = Some r ∧ Response.is_error r = true.

(** ** Sample inputs *)

Definition sample_add_node : Command.t :=
  Command.mk "add_node" {["node_type" := VStr "Sprite2D"]} true "req_1".

(** A retry engine on which [record_attempt] ran [n] times for one id. *)
Fixpoint engine_after (n : nat) (request_id : string) (command : Command.t)
    (response : Response.t) : RetryEngine.t :=
  match n with
  | 0 => RetryEngine.init
  | S n =>
    RetryEngine.record_attempt (engine_after n request_id command response)
      request_id command response "2024-01-01T00:00:00"
  end.

Definition sample_syntax_error : Response.t :=
  Response.from_dict
    (<["status" := VStr "error"]> {["type" := VStr "invalid_syntax"]}).

Definition engine_1024 : RetryEngine.t :=
  engine_after 1024 "req_1" sample_add_node sample_syntax_error.

Definition sample_entry : AICommandDispatcher.history_entry :=
  {| AICommandDispatcher.h_command := Command.to_dict sample_add_node;
     AICommandDispatcher.h_response := Response.to_dict sample_syntax_error;
     AICommandDispatcher.h_attempts := 1;
     AICommandDispatcher.h_timestamp := "2024-01-01T00:00:00" |}.

(** Reply [n] of the editor is taken from a list; once the list is used up
    every exchange times out. *)
Definition scripted (replies : list GodotAIClient.exchange) : World :=
  {| exchanges := λ n, default GodotAIClient.Timeout (replies !! n);
     fresh_id := λ n, "req_" +:+ pretty n;
     now := λ n, "2024-01-01T00:00:" +:+ pretty n |}.

Definition sample_world : World := scripted [].

(** An editor that answers every command alike. *)
Definition replying (x : GodotAIClient.exchange) : World :=
  {| exchanges := λ _, x;
     fresh_id := λ n, "req_" +:+ pretty n;
     now := λ n, "2024-01-01T00:00:" +:+ pretty n |}.

Definition success_reply : GodotAIClient.exchange :=
  GodotAIClient.Reply (VDict {["status" := VStr "success"]}).

Definition compile_error_reply : GodotAIClient.exchange :=
  GodotAIClient.Reply
    (VDict (<["status" := VStr "error"]> {["type" := VStr "compile"]})).

Definition syntax_error_reply : GodotAIClient.exchange :=
  GodotAIClient.Reply
    (VDict (<["status" := VStr "error"]> {["type" := VStr "invalid_syntax"]})).

Definition sample_run_scene : Command.t :=
  Command.mk "run_scene" ∅ false "".

Definition sample_save_scene : Command.t :=
  Command.mk "save_scene" ∅ false "req_2".

(** Three command objects at the addresses 0, 1 and 2; every other address
    holds the third command too. *)
Definition sample_objects : AICommandDispatcher.store :=
  <[0 := sample_add_node]> (<[1 := sample_save_scene]> (λ _, sample_run_scene)).

(** The store in which the commands of a list are objects of their own:
    the address of a command is its position; addresses beyond the list
    hold [sample_run_scene]. *)
Definition allocated (commands : list Command.t) : AICommandDispatcher.store :=
  λ a, default sample_run_scene (commands !! a).

(** A successful reply that carries data. *)
Definition snapshot_reply : GodotAIClient.exchange :=
  GodotAIClient.Reply
    (VDict (<["status" := VStr "success"]>
              (<["action" := VStr "get_snapshot"]> {["nodes" := VInt 3]}))).

Definition sample_response : Response.t :=
  {| Response.status := VStr "error"; Response.action := VStr "add_node";
     Response.error := VStr "Parse error"; Response.error_type := VStr "compile";
     Response.error_details := VDict ∅;
     Response.data := {["line" := VInt 3]};
     Response.timestamp := VFloat 0 |}.

Definition sample_wire_command : gmap string value :=
  <["action" := VStr "set_property"]>
    (<["auto_run" := VBool false]>
       (<["request_id" := VStr "req_7"]> {["property" := VStr "visible"]})).

Definition runtime_error_reply : GodotAIClient.exchange :=
  GodotAIClient.Reply
    (VDict (<["status" := VStr "error"]> {["type" := VStr "runtime"]})).

Definition pending_reply : GodotAIClient.exchange :=
  GodotAIClient.Reply (VDict {["status" := VStr "pending"]}).

(** A dispatcher whose engine has five attempts on record for ["req_1"]. *)
Definition exhausted_dispatcher : AICommandDispatcher.t :=
  AICommandDispatcher.set_retry_engine AICommandDispatcher.init
    (engine_after 5 "req_1" sample_add_node sample_syntax_error).

(** ** class GodotAIClient: the connection state

    The attributes of the client and its methods other than [send_command].
    A socket and a registered callable are known by their identity, a
    number; [reconnect_task] is set to None by [__init__] and never used.
    The last four fields trace the effects on the world: the calls of
    [websockets.connect], the sockets closed, the delays slept, and the
    handler calls made by [receive_messages]. *)
Module Connection.

Definition DEFAULT_PORT : Z := 8765.
Definition RECONNECT_DELAY : Q := 2.
Definition PING_INTERVAL : Q := 5.
Definition PING_TIMEOUT : Q := 10.

Record t : Type := mk {
  host : string;
  port : Z;
  websocket : option nat;
  connected : bool;
  message_handlers : list nat;
  connect_calls : nat;
  closed : list nat;
  slept : list Q;
  calls : list (nat * value)
}.

(** [__init__]: [port or self.DEFAULT_PORT] replaces None and 0 alike. *)
Definition init (host : string) (port : option Z) : t :=
  {| host := host;
     port := match port with
             | Some p => if (p =? 0)%Z then DEFAULT_PORT else p
             | None => DEFAULT_PORT
             end;
     websocket := None; connected := false; message_handlers := [];
     connect_calls := 0; closed := []; slept := []; calls := [] |}.

(** [network n] is what the n-th call of [websockets.connect] gives: a new
    socket, or None when it raises. *)
Definition connect (network : nat → option nat) (self : t) : bool * t :=
  match network (connect_calls self) with
  | Some ws =>
    (true,
     {| host := host self; port := port self; websocket := Some ws;
        connected := true; message_handlers := message_handlers self;
        connect_calls := S (connect_calls self); closed := closed self;
        slept := slept self; calls := calls self |})
  | None =>
    (false,
     {| host := host self; port := port self; websocket := websocket self;
        connected := false; message_handlers := message_handlers self;
        connect_calls := S (connect_calls self); closed := closed self;
        slept := slept self; calls := calls self |})
  end.

Definition disconnect (self : t) : t :=
  {| host := host self; port := port self; websocket := None;
     connected := false; message_handlers := message_handlers self;
     connect_calls := connect_calls self;
     closed := match websocket self with
               | Some ws => closed self ++ [ws]
               | None => closed self
               end;
     slept := slept self; calls := calls self |}.

Definition set_handlers (self : t) (handlers : list nat) : t :=
  {| host := host self; port := port self; websocket := websocket self;
     connected := connected self; message_handlers := handlers;
     connect_calls := connect_calls self; closed := closed self;
     slept := slept self; calls := calls self |}.

Definition add_message_handler (self : t) (handler : nat) : t :=
  set_handlers self (message_handlers self ++ [handler]).

(** [list.remove(x)]: drops the first occurrence. *)
Fixpoint remove_first (x : nat) (l : list nat) : list nat :=
  match l with
  | [] => []
  | y :: l => if bool_decide (y = x) then l else y :: remove_first x l
  end.

Definition remove_message_handler (self : t) (handler : nat) : t :=
  if bool_decide (handler ∈ message_handlers self)
  then set_handlers self (remove_first handler (message_handlers self))
  else self.

(** [await asyncio.sleep(delay)] *)
Definition sleep (delay : Q) (self : t) : t :=
  {| host := host self; port := port self; websocket := websocket self;
     connected := connected self; message_handlers := message_handlers self;
     connect_calls := connect_calls self; closed := closed self;
     slept := slept self ++ [delay]; calls := calls self |}.

(** [reconnect_loop]: the test of [while not self.connected] costs no fuel,
    every pass through the body costs one; None means the loop is still
    running when the fuel is used up. *)
Fixpoint reconnect_loop (fuel : nat) (network : nat → option nat) (self : t)
  : option t :=
  if connected self then Some self
  else
    match fuel with
    | 0 => None
    | S fuel =>
      let '(ok, self) := connect network self in
      if ok : bool then Some self
      else reconnect_loop fuel network (sleep RECONNECT_DELAY self)
    end.

(** What [json.loads(message)] makes of an inbound frame: a value, or None
    when it raises JSONDecodeError. *)
Definition frame : Type := option value.

(** How the iteration over the socket ends: the peer closed the connection
    normally and the iterator stops, or ConnectionClosed is raised. *)
Inductive stream_end : Type := EndOfStream | ConnectionClosed.

(** How a call of a handler ends.  A JSONDecodeError raised by a handler is
    caught by the same clause as one raised by [json.loads]; any other
    exception leaves [receive_messages]. *)
Inductive call_end : Type := Returns | RaisesDecodeError | RaisesOther.

(** How [receive_messages] ends: it returns, or an exception leaves it. *)
Inductive received : Type :=
  | Finished (self : t)
  | Escaped (self : t).

Definition log_call (handler : nat) (data : value) (self : t) : t :=
  {| host := host self; port := port self; websocket := websocket self;
     connected := connected self; message_handlers := message_handlers self;
     connect_calls := connect_calls self; closed := closed self;
     slept := slept self; calls := calls self ++ [(handler, data)] |}.

(** [for handler in self.message_handlers: handler(data)]; the result says
    how the loop ended: all handlers returned, or one raised. *)
Fixpoint dispatch (behaviour : nat → value → call_end) (data : value)
    (handlers : list nat) (self : t) : call_end * t :=
  match handlers with
  | [] => (Returns, self)
  | handler :: handlers =>
    let self := log_call handler data self in
    match behaviour handler data with
    | Returns => dispatch behaviour data handlers self
    | RaisesDecodeError => (RaisesDecodeError, self)
    | RaisesOther => (RaisesOther, self)
    end
  end.

(** The body of [async for message in self.websocket], for handlers that
    leave the client's attributes alone. *)
Fixpoint receive_loop (behaviour : nat → value → call_end)
    (frames : list frame) (ending : stream_end) (self : t) : received :=
  match frames with
  | [] =>
    match ending with
    | EndOfStream => Finished self
    | ConnectionClosed =>
      Finished
        {| host := host self; port := port self; websocket := websocket self;
           connected := false; message_handlers := message_handlers self;
           connect_calls := connect_calls self; closed := closed self;
           slept := slept self; calls := calls self |}
    end
  | None :: frames => receive_loop behaviour frames ending self
  | Some data :: frames =>
    match dispatch behaviour data (message_handlers self) self with
    | (RaisesOther, self) => Escaped self
    | (_, self) => receive_loop behaviour frames ending self
    end
  end.

(** [receive_messages]: iterating over a socket that is None raises
    TypeError, which the method does not catch; [frames] and [ending] are
    what the socket delivers otherwise. *)
Definition receive_messages (behaviour : nat → value → call_end)
    (frames : list frame) (ending : stream_end) (self : t) : received :=
  match websocket self with
  | None => Escaped self
  | Some _ => receive_loop behaviour frames ending self
  end.

End Connection.

(** ** class GameBuilder

    Its methods use the dispatcher only, so they are functions of the
    dispatcher's state. *)
Module GameBuilder.

Section Builtins.
(** [str.lower] and [Path(p).stem] *)
Variable lower : string → string.
Variable stem : string → string.

Definition position (x y z : Z) : value := VList [VInt x; VInt y; VInt z].

Definition _parse_game_description (description : string) : list Command.t :=
  let commands : list Command.t := [] in
  let description := lower description in
  (* Detect game type *)
  let commands :=
    if PerformanceAnalyzer.contains "third-person" description then
      if PerformanceAnalyzer.contains "survival" description then
        commands ++
        [ Command.mk "create_scene"
            (<["name" := VStr "MainScene"]>
               (<["scene_type" := VStr "Node3D"]>
                  {["save_path" := VStr "res://scenes/main.tscn"]}))
            true "";
          (* Add player character *)
          Command.mk "add_node"
            (<["node_type" := VStr "CharacterBody3D"]>
               (<["parent_path" := VStr "/root/MainScene"]>
                  (<["name" := VStr "Player"]>
                     {["position" := position 0 1 0]})))
            false "";
          (* Add camera *)
          Command.mk "add_node"
            (<["node_type" := VStr "Camera3D"]>
               (<["parent_path" := VStr "/root/MainScene/Player"]>
                  (<["name" := VStr "Camera3D"]>
                     {["position" := position 0 2 3]})))
            false "";
          (* Add inventory system (placeholder script) *)
          Command.mk "create_script"
            (<["path" := VStr "res://scripts/inventory.gd"]>
               (<["name" := VStr "Inventory"]>
                  {["base_class" := VStr "Node"]}))
            false "" ]
      else commands
    else commands in
  (* Add scene runner *)
  commands ++
  [ Command.mk "run_scene" {["scene_path" := VStr "res://scenes/main.tscn"]}
      false "" ].

(** The dictionary [create_game] returns. *)
Record creation : Type := mk_creation {
  c_description : string;
  success : bool;
  actions : list (gmap string value * gmap string value);
  errors : list (gmap string value * value)
}.

(** The [for] loop of [create_game].  The commands are the objects
    [_parse_game_description] has just made, each listed once, so a call
    finds its object as it was made.  [execute_command] stores the id it
    works under in the object, so the [command.to_dict()] that follows the
    call is that of [command_of]. *)
Fixpoint create_loop (fuel : nat) (w : World) (commands : list Command.t)
    (result : creation) (self : AICommandDispatcher.t)
  : AICommandDispatcher.outcome creation :=
  match commands with
  | [] => AICommandDispatcher.Returned result self
  | command :: commands =>
    match AICommandDispatcher.execute_command fuel w command self with
    | AICommandDispatcher.Returned response self' =>
      let command := command_of w command self in
      let result :=
        {| c_description := c_description result; success := success result;
           actions := actions result ++
             [(Command.to_dict command, Response.to_dict response)];
           errors := errors result |} in
      if Response.is_error response then
        AICommandDispatcher.Returned
          {| c_description := c_description result; success := success result;
             actions := actions result;
             errors := errors result ++
               [(Command.to_dict command, Response.error response)] |}
          self'
      else create_loop fuel w commands result self'
    | AICommandDispatcher.Raised e self' => AICommandDispatcher.Raised e self'
    | AICommandDispatcher.OutOfFuel self' => AICommandDispatcher.OutOfFuel self'
    end
  end.

Definition create_game (fuel : nat) (w : World) (description : string)
    (self : AICommandDispatcher.t) : AICommandDispatcher.outcome creation :=
  let result := {| c_description := description; success := false;
                   actions := []; errors := [] |} in
  (* Parse the description into commands *)
  let commands := _parse_game_description description in
  (* Execute commands *)
  match create_loop fuel w commands result self with
  | AICommandDispatcher.Returned result self' =>
    AICommandDispatcher.Returned
      {| c_description := c_description result;
         success := bool_decide (length (errors result) = 0);
         actions := actions result; errors := errors result |}
      self'
  | AICommandDispatcher.Raised e self' => AICommandDispatcher.Raised e self'
  | AICommandDispatcher.OutOfFuel self' => AICommandDispatcher.OutOfFuel self'
  end.

(** [add_player_character]; [position] is the argument, a list. *)
Definition add_player_character (fuel : nat) (w : World)
    (scene_path : string) (position : value) (self : AICommandDispatcher.t)
  : AICommandDispatcher.outcome Response.t :=
  AICommandDispatcher.execute_command fuel w
    (Command.mk "add_node"
       (<["node_type" := VStr "CharacterBody3D"]>
          (<["parent_path" := VStr ("/root/" +:+ stem scene_path)]>
             (<["name" := VStr "Player"]> {["position" := position]})))
       false "")
    self.

Definition add_camera (fuel : nat) (w : World) (parent_path : string)
    (position : value) (self : AICommandDispatcher.t)
  : AICommandDispatcher.outcome Response.t :=
  AICommandDispatcher.execute_command fuel w
    (Command.mk "add_node"
       (<["node_type" := VStr "Camera3D"]>
          (<["parent_path" := VStr parent_path]>
             (<["name" := VStr "Camera3D"]> {["position" := position]})))
       false "")
    self.

Definition add_light (fuel : nat) (w : World) (parent_path : string)
    (light_type : string) (self : AICommandDispatcher.t)
  : AICommandDispatcher.outcome Response.t :=
  AICommandDispatcher.execute_command fuel w
    (Command.mk "add_node"
       (<["node_type" := VStr light_type]>
          (<["parent_path" := VStr parent_path]>
             (<["name" := VStr "Light"]>
                {["rotation" := position (-45) 45 0]})))
       false "")
    self.

(** [get_scene_snapshot] and [get_performance_report] differ in the action
    only; a [Response] object is always truthy. *)
Definition query (action : string) (fuel : nat) (w : World)
    (self : AICommandDispatcher.t)
  : AICommandDispatcher.outcome (gmap string value) :=
  match AICommandDispatcher.execute_command fuel w
          (Command.mk action ∅ false "") self with
  | AICommandDispatcher.Returned response self' =>
    AICommandDispatcher.Returned
      (if Response.is_success response then Response.data response else ∅)
      self'
  | AICommandDispatcher.Raised e self' => AICommandDispatcher.Raised e self'
  | AICommandDispatcher.OutOfFuel self' => AICommandDispatcher.OutOfFuel self'
  end.

Definition get_scene_snapshot := query "get_snapshot".
Definition get_performance_report := query "get_performance".

End Builtins.

End GameBuilder.

(** ** class AICommandDispatcher: the remaining methods *)

(** [analyze_performance] hands the report to the analyzer. *)
Definition analyze_performance (format_1f str : value → result string)
    (report : gmap string value) : result PerformanceAnalyzer.analysis :=
  PerformanceAnalyzer.analyze format_1f str report.

(** [get_retry_info] of the dispatcher asks its retry engine. *)
Definition get_retry_info (self : AICommandDispatcher.t)
    (request_id : string) : RetryEngine.retry_info :=
  RetryEngine.get_retry_info (AICommandDispatcher.retry_engine self)
    request_id.

(** The keys [to_dict] writes before it merges the data. *)
Definition response_head (r : Response.t) : gmap string value :=
  Response.put_if_truthy "error_details" (Response.error_details r)
    (Response.put_if_truthy "error_type" (Response.error_type r)
       (Response.put_if_truthy "error" (Response.error r)
          (Response.put_if_truthy "action" (Response.action r)
             {["status" := Response.status r]}))).

(** The retry engines a program can build: a new one, and what
    [record_attempt] and [reset] make of one. *)
Inductive engine_reachable : RetryEngine.t → Prop :=
  | reach_init : engine_reachable RetryEngine.init
  | reach_record self request_id command response now :
      engine_reachable self →
      engine_reachable
        (RetryEngine.record_attempt self request_id command response now)
  | reach_reset self request_id :
      engine_reachable self →
      engine_reachable (RetryEngine.reset self request_id).

(** The entries of the retry history recorded for an id. *)
Definition history_of (self : RetryEngine.t) (request_id : string)
  : list RetryEngine.attempt_record :=
  filter (λ a, RetryEngine.a_request_id a = request_id)
    (RetryEngine.retry_history self).

(** ** The threshold table of the analyzer

    A second reading of [PerformanceAnalyzer.analyze] to compare the code
    with: the metrics are the rows of a table, every row is graded by the
    same function, the findings of the rows are collected in the order of
    the table, and the status is critical exactly when there is an issue. *)
Module Table.

Inductive level : Type := Critical | Warning | Fine.

(** Grading a metric that must stay above its thresholds (fps). *)
Definition below (critical warning q : Q) : level :=
  if Qlt_bool q critical then Critical
  else if Qlt_bool q warning then Warning else Fine.

(** Grading a metric that must stay below its thresholds. *)
Definition above (critical warning q : Q) : level :=
  if Qlt_bool critical q then Critical
  else if Qlt_bool warning q then Warning else Fine.

Record row : Type := mk_row {
  r_metric : string;
  r_default : value;
  r_grade : Q → level;
  r_critical : value;
  r_warning : value;
  r_critical_text : string;
  r_warning_text : string;
  r_render : value → result string
}.

Section Formatting.
Variable format_1f : value → result string.
Variable str : value → result string.

Definition rows : list row :=
  [ mk_row "fps" (VFloat 60) (below 30 45)
      PerformanceAnalyzer.fps_min PerformanceAnalyzer.fps_warning
      "Critical FPS: " "Low FPS: " format_1f;
    mk_row "draw_calls" (VInt 0) (above 5000 3000)
      PerformanceAnalyzer.draw_calls_max PerformanceAnalyzer.draw_calls_warning
      "Critical draw calls: " "High draw calls: " str;
    mk_row "node_count" (VInt 0) (above 2000 1500)
      PerformanceAnalyzer.node_count_max PerformanceAnalyzer.node_count_warning
      "Critical node count: " "High node count: " str ].

(** One row applied to a report: the issues and the warnings it adds.  The
    metric must be a number; its value is rendered only for a finding. *)
Definition grade (report : gmap string value) (r : row)
  : result (list PerformanceAnalyzer.finding
            * list PerformanceAnalyzer.finding) :=
  let v := get report (r_metric r) (r_default r) in
  q ← PerformanceAnalyzer.number v;
  match r_grade r q with
  | Critical =>
    text ← r_render r v;
    mret ([PerformanceAnalyzer.mk_finding (r_metric r) v (r_critical r)
             (r_critical_text r +:+ text)], [])
  | Warning =>
    text ← r_render r v;
    mret ([], [PerformanceAnalyzer.mk_finding (r_metric r) v (r_warning r)
                 (r_warning_text r +:+ text)])
  | Fine => mret ([], [])
  end.

(** The rows in order; the first exception ends the walk. *)
Fixpoint walk (report : gmap string value) (table : list row)
  : result (list PerformanceAnalyzer.finding
            * list PerformanceAnalyzer.finding) :=
  match table with
  | [] => mret ([], [])
  | r :: table =>
    found ← grade report r;
    rest ← walk report table;
    mret (found.1 ++ rest.1, found.2 ++ rest.2)
  end.

Definition analyze (report : gmap string value)
  : result PerformanceAnalyzer.analysis :=
  found ← walk report rows;
  let a :=
    {| PerformanceAnalyzer.status :=
         match found.1 with [] => "ok" | _ :: _ => "critical" end;
       PerformanceAnalyzer.issues := found.1;
       PerformanceAnalyzer.warnings := found.2;
       PerformanceAnalyzer.recommendations := [] |} in
  recommendations ← PerformanceAnalyzer._generate_recommendations str a;
  mret {| PerformanceAnalyzer.status := PerformanceAnalyzer.status a;
          PerformanceAnalyzer.issues := found.1;
          PerformanceAnalyzer.warnings := found.2;
          PerformanceAnalyzer.recommendations := recommendations |}.

End Formatting.

End Table.

(** A client that reports itself connected holds a socket. *)
Definition socket_when_connected (self : Connection.t) : Prop :=
  Connection.connected self = true → is_Some (Connection.websocket self).

(** The state in which a success is returned: the outcome is logged, then
    the retry counter of the id is reset. *)
Definition after_success (w : World) (request_id : string)
    (command : Command.t) (response : Response.t) (attempts : nat)
    (self : AICommandDispatcher.t) : AICommandDispatcher.t :=
  let logged :=
    AICommandDispatcher._log_command w command response attempts
      (after_reply w request_id command response self) in
  AICommandDispatcher.set_retry_engine logged
    (RetryEngine.reset (AICommandDispatcher.retry_engine logged) request_id).

(** * The message model *)

Section CommandWire.
Variable c : Command.t.

Let base : gmap string value :=
  <["auto_run" := VBool (Command.auto_run c)]>
    (<["action" := VStr (Command.action c)]> ∅).

Lemma to_dict_unfold :
  Command.to_dict c =
    if negb (String.eqb (Command.request_id c) "")
    then <["request_id" := VStr (Command.request_id c)]>
           (Command.parameters c ∪ base)
    else Command.parameters c ∪ base.
Proof. reflexivity. Qed.

(** A key outside the reserved set is looked up in the parameters. *)
Lemma to_dict_lookup_parameter (k : string) :
  k ∉ Command.reserved →
  Command.to_dict c !! k = Command.parameters c !! k.
Proof.
  intros Hk. rewrite to_dict_unfold.
  assert (k ≠ "action" ∧ k ≠ "auto_run" ∧ k ≠ "request_id") as (Ha & Hb & Hc).
  { unfold Command.reserved in Hk.
    repeat split; intros ->; apply Hk; repeat constructor. }
  assert ((Command.parameters c ∪ base) !! k = Command.parameters c !! k) as Hu.
  { rewrite lookup_union. unfold base. rewrite !lookup_insert_ne by done.
    rewrite lookup_empty. by destruct (Command.parameters c !! k). }
  destruct (negb _); [rewrite lookup_insert_ne by done|]; exact Hu.
Qed.

Lemma to_dict_lookup_action :
  Command.parameters c !! "action" = None →
  Command.to_dict c !! "action" = Some (VStr (Command.action c)).
Proof.
  intros Hp. rewrite to_dict_unfold.
  assert ((Command.parameters c ∪ base) !! "action"
          = Some (VStr (Command.action c))) as Hu.
  { rewrite lookup_union, Hp. unfold base.
    rewrite lookup_insert_ne by done. by rewrite lookup_insert_eq. }
  destruct (negb _); [rewrite lookup_insert_ne by done|]; exact Hu.
Qed.

Lemma to_dict_lookup_auto_run :
  Command.parameters c !! "auto_run" = None →
  Command.to_dict c !! "auto_run" = Some (VBool (Command.auto_run c)).
Proof.
  intros Hp. rewrite to_dict_unfold.
  assert ((Command.parameters c ∪ base) !! "auto_run"
          = Some (VBool (Command.auto_run c))) as Hu.
  { rewrite lookup_union, Hp. unfold base. by rewrite lookup_insert_eq. }
  destruct (negb _); [rewrite lookup_insert_ne by done|]; exact Hu.
Qed.

(** The id is on the wire exactly when it is not empty. *)
Lemma to_dict_lookup_request_id :
  Command.parameters c !! "request_id" = None →
  Command.to_dict c !! "request_id" =
    if negb (String.eqb (Command.request_id c) "")
    then Some (VStr (Command.request_id c)) else None.
Proof.
  intros Hp. rewrite to_dict_unfold.
  destruct (negb _).
  - by rewrite lookup_insert_eq.
  - rewrite lookup_union, Hp. unfold base.
    rewrite !lookup_insert_ne by done. by rewrite lookup_empty.
Qed.

Lemma without_reserved_to_dict :
  Command.parameters c !! "action" = None →
  Command.parameters c !! "auto_run" = None →
  Command.parameters c !! "request_id" = None →
  without_keys Command.reserved (Command.to_dict c) = Command.parameters c.
Proof.
  intros Ha Hb Hc. apply map_eq. intros k. unfold without_keys.
  destruct (decide (k ∈ Command.reserved)) as [Hin|Hout].
  - transitivity (@None value).
    + apply map_lookup_filter_None. right. intros x _ Hx. by apply Hx.
    + unfold Command.reserved in Hin.
      repeat (apply elem_of_cons in Hin as [->|Hin]; [congruence|]).
      by apply elem_of_nil in Hin.
  - rewrite <- (to_dict_lookup_parameter k Hout).
    destruct (Command.to_dict c !! k) as [x|] eqn:E.
    + by apply map_lookup_filter_Some.
    + apply map_lookup_filter_None. by left.
Qed.

End CommandWire.

(** C5.  Decoding the encoding of a command gives the command back, provided
    none of its parameter keys is one of [action], [auto_run], [request_id]. *)
Theorem command_round_trip (c : Command.t) :
  Command.parameters c !! "action" = None →
  Command.parameters c !! "auto_run" = None →
  Command.parameters c !! "request_id" = None →
  Command.from_dict (Command.to_dict c) = Command.as_decoded c.
Proof.
  intros Ha Hb Hc. unfold Command.from_dict, Command.as_decoded, get.
  rewrite (to_dict_lookup_action c Ha), (to_dict_lookup_auto_run c Hb),
    (to_dict_lookup_request_id c Hc), (without_reserved_to_dict c Ha Hb Hc).
  simpl. f_equal.
  destruct (String.eqb_spec (Command.request_id c) "") as [->|]; done.
Qed.

Lemma command_round_trip_witness :
  Command.from_dict (Command.to_dict sample_add_node)
  = Command.as_decoded sample_add_node.
Proof. apply (command_round_trip sample_add_node); reflexivity. Defined.

(** Without the side condition the round trip fails: a parameter named
    [action] overwrites the command's own action on the wire. *)
Example command_round_trip_collision :
  let c := Command.mk "add_node" {["action" := VStr "other"]} false "" in
  Command.from_dict (Command.to_dict c) ≠ Command.as_decoded c.
Proof. vm_compute. discriminate. Qed.

(** C4 (as amended).  [Response.from_dict] is total, a missing [status] key
    decodes to ["unknown"], and a status that is present is kept verbatim,
    whatever it is. *)
Theorem from_dict_status (d : gmap string value) :
  Response.status (Response.from_dict d) =
    match d !! "status" with
    | Some v => v
    | None => VStr "unknown"
    end.
Proof. unfold Response.from_dict, get. simpl. by destruct (d !! "status"). Qed.

(** C4 as stated does not hold: a status other than ["success"] and
    ["error"] is not mapped to ["unknown"]. *)
Lemma from_dict_other_status_not_unknown :
  ¬ (∀ d : gmap string value,
       (d !! "status" = None ∨
        ∃ v, d !! "status" = Some v ∧ v ≠ VStr "success" ∧ v ≠ VStr "error") →
       Response.status (Response.from_dict d) = VStr "unknown").
Proof.
  intros H.
  specialize (H {["status" := VStr "pending"]}).
  assert (Response.status (Response.from_dict {["status" := VStr "pending"]})
          = VStr "pending") as E by reflexivity.
  rewrite E in H. discriminate H.
  right. exists (VStr "pending"). repeat split; done.
Qed.

(** Such a response is neither a success nor an error. *)
Lemma from_dict_other_status_unclassified (d : gmap string value) (v : value) :
  d !! "status" = Some v → v ≠ VStr "success" → v ≠ VStr "error" →
  Response.is_success (Response.from_dict d) = false ∧
  Response.is_error (Response.from_dict d) = false.
Proof.
  intros Hd Hs He.
  unfold Response.is_success, Response.is_error, Response.from_dict, get.
  simpl. rewrite Hd. simpl.
  destruct v as [| | | |s| |]; simpl; try done.
  split; apply String.eqb_neq; congruence.
Qed.


(** * The retry engine *)

Section RetryDelay.
Import RetryEngine.

Lemma count_absent (self : t) (request_id : string) :
  retry_count self !! request_id = None → count self request_id = 0.
Proof. unfold count. by intros ->. Qed.

(** [1.0 * 2 ** n] below the overflow threshold. *)
Lemma mul_pow2_base (n : nat) :
  n < 1024 → mul_pow2 RETRY_DELAY_BASE n = Ok (inject_Z (2 ^ Z.of_nat n)).
Proof.
  intros Hn. unfold mul_pow2. rewrite bool_decide_eq_true_2 by done.
  f_equal. unfold RETRY_DELAY_BASE, Qmult, inject_Z. simpl.
  by destruct (2 ^ Z.of_nat n)%Z.
Qed.

(** The backoff curve on the counts for which the power fits a float: the
    power of two up to 8.0, the cap 10.0 from count 4 on. *)
Lemma get_retry_delay_small (self : t) (request_id : string) (n : nat) :
  count self request_id = n → n < 1024 →
  get_retry_delay self request_id =
    Ok (if bool_decide (n < 4) then inject_Z (2 ^ Z.of_nat n) else 10%Q).
Proof.
  intros Hc Hn. unfold get_retry_delay. rewrite Hc, mul_pow2_base by done.
  simpl. f_equal. unfold min, Qlt_bool, RETRY_DELAY_MAX.
  case_bool_decide as Hlt.
  - assert (Qle_bool (inject_Z (2 ^ Z.of_nat n)) 10 = true) as ->; [|done].
    apply Qle_bool_iff. unfold Qle, inject_Z. simpl.
    assert (2 ^ Z.of_nat n ≤ 2 ^ 3)%Z by (apply Z.pow_le_mono_r; lia). lia.
  - assert (Qle_bool (inject_Z (2 ^ Z.of_nat n)) 10 = false) as ->; [|done].
    apply not_true_is_false. rewrite Qle_bool_iff. unfold Qle, inject_Z. simpl.
    assert (2 ^ 4 ≤ 2 ^ Z.of_nat n)%Z by (apply Z.pow_le_mono_r; lia). lia.
Qed.

(** The values at counts 0 to 5 (an absent id counts as 0). *)
Lemma get_retry_delay_values (self : t) (request_id : string) :
  (count self request_id = 0 → get_retry_delay self request_id = Ok 1%Q) ∧
  (count self request_id = 1 → get_retry_delay self request_id = Ok 2%Q) ∧
  (count self request_id = 2 → get_retry_delay self request_id = Ok 4%Q) ∧
  (count self request_id = 3 → get_retry_delay self request_id = Ok 8%Q) ∧
  (count self request_id = 4 → get_retry_delay self request_id = Ok 10%Q) ∧
  (count self request_id = 5 → get_retry_delay self request_id = Ok 10%Q).
Proof.
  repeat split; intros E; rewrite (get_retry_delay_small _ _ _ E) by lia; done.
Qed.

(** From count 1024 on the call raises instead of returning the cap. *)
Lemma get_retry_delay_large (self : t) (request_id : string) :
  1024 ≤ count self request_id →
  get_retry_delay self request_id = Raise OverflowError.
Proof.
  intros Hc. unfold get_retry_delay, mul_pow2.
  rewrite bool_decide_eq_false_2 by lia. reflexivity.
Qed.

(** [record_attempt] adds one to the count of its id. *)
Lemma count_record_attempt (self : t) (request_id : string)
    (command : Command.t) (response : Response.t) (ts : string) :
  count (record_attempt self request_id command response ts) request_id
  = count self request_id + 1.
Proof.
  unfold count, record_attempt. simpl.
  destruct (retry_count self !! request_id) as [n|] eqn:E.
  - by rewrite lookup_insert_eq, E.
  - by rewrite !lookup_insert_eq.
Qed.

(** After [reset] the id counts as 0 again and may be retried. *)
Lemma count_reset (self : t) (request_id : string) :
  count (reset self request_id) request_id = 0 ∧
  should_retry (reset self request_id) request_id = true.
Proof.
  assert (count (reset self request_id) request_id = 0) as E.
  { unfold count, reset. simpl.
    destruct (retry_count self !! request_id) eqn:E.
    - by rewrite lookup_delete_eq.
    - by rewrite E. }
  split; [done|]. unfold should_retry. rewrite E. done.
Qed.

(** [n] recorded attempts give a count of [n]. *)
Lemma count_engine_after (n : nat) (request_id : string) (command : Command.t)
    (response : Response.t) :
  count (engine_after n request_id command response) request_id = n.
Proof.
  induction n as [|n IH]; [done|].
  simpl. rewrite count_record_attempt, IH. lia.
Qed.

End RetryDelay.

(** C8 fails on the code at a count of 1024: [1.0 * (2 ** 1024)] raises
    OverflowError before [min] can apply the cap.  The count is the one
    reached by 1024 calls of [record_attempt] for the id. *)
Theorem get_retry_delay_overflow :
  RetryEngine.count engine_1024 "req_1" = 1024 ∧
  RetryEngine.get_retry_delay engine_1024 "req_1" = Raise OverflowError.
Proof.
  assert (RetryEngine.count engine_1024 "req_1" = 1024) as E
    by apply count_engine_after.
  split; [exact E|]. apply get_retry_delay_large. rewrite E. done.
Qed.


(** * The command history *)

Section History.
Import AICommandDispatcher.

(** [_log_command] changes the history and the clock, nothing else. *)
Lemma _log_command_history (w : World) (command : Command.t)
    (response : Response.t) (attempts : nat) (self : t) :
  command_history (_log_command w command response attempts self) =
    let h := command_history self ++
               [AICommandDispatcher.logged_entry w command response attempts self] in
    if bool_decide (1000 < length h) then last_1000 h else h.
Proof.
  unfold _log_command, read_clock, logged_entry. simpl.
  by case_bool_decide.
Qed.

Lemma _log_command_frame (w : World) (command : Command.t)
    (response : Response.t) (attempts : nat) (self : t) :
  let self' := _log_command w command response attempts self in
  retry_engine self' = retry_engine self ∧
  pending_commands self' = pending_commands self ∧
  sent self' = sent self ∧ slept self' = slept self ∧
  ids_drawn self' = ids_drawn self ∧
  clock_reads self' = S (clock_reads self).
Proof.
  unfold _log_command, read_clock. simpl. by case_bool_decide.
Qed.

(** The new entry is the last one of the history. *)
Lemma _log_command_last (w : World) (command : Command.t)
    (response : Response.t) (attempts : nat) (self : t) :
  last (command_history (_log_command w command response attempts self))
  = Some (logged_entry w command response attempts self).
Proof.
  rewrite _log_command_history. cbv zeta.
  case_bool_decide as Hbig; [|apply last_snoc].
  unfold last_1000. rewrite length_app in *. simpl in Hbig.
  rewrite drop_app_le by (simpl; lia). apply last_snoc.
Qed.

(** Whatever the length, the new history is the old one with the new entry
    at its end, cut to its last 1000 entries. *)
Lemma _log_command_history_cut (w : World) (command : Command.t)
    (response : Response.t) (attempts : nat) (self : t) :
  command_history (_log_command w command response attempts self)
  = last_1000
      (command_history self ++
         [logged_entry w command response attempts self]).
Proof.
  rewrite _log_command_history. cbv zeta.
  case_bool_decide as Hbig; [done|].
  unfold last_1000.
  replace (length _ - 1000) with 0 by lia. done.
Qed.

Lemma last_1000_length (h : list history_entry) :
  length (last_1000 h) = Nat.min (length h) 1000.
Proof. unfold last_1000. rewrite length_drop. lia. Qed.

End History.

(** C10.  After [_log_command] the history holds at most 1000 entries and
    ends with the new entry; when it held 1000 before, the result is the old
    history without its first entry, in the old order, followed by the new
    one (and below 1000 nothing is evicted). *)
Theorem command_history_bounded (w : World) (command : Command.t)
    (response : Response.t) (attempts : nat) (self : AICommandDispatcher.t) :
  let h := AICommandDispatcher.command_history self in
  let e := AICommandDispatcher.logged_entry w command response attempts self in
  let h' := AICommandDispatcher.command_history
              (AICommandDispatcher._log_command w command response attempts
                 self) in
  length h' ≤ 1000 ∧
  last h' = Some e ∧
  (length h < 1000 → h' = h ++ [e]) ∧
  (length h = 1000 → h' = drop 1 h ++ [e]).
Proof.
  intros h e h'. subst h'. rewrite _log_command_history. fold h e. simpl.
  assert (length (h ++ [e]) = S (length h)) as Hlen
    by (rewrite length_app; simpl; lia).
  case_bool_decide as Hbig.
  - repeat split.
    + rewrite last_1000_length. lia.
    + unfold AICommandDispatcher.last_1000. rewrite Hlen.
      rewrite drop_app_le by lia. apply last_snoc.
    + lia.
    + intros H1000. unfold AICommandDispatcher.last_1000.
      rewrite Hlen, H1000. by rewrite drop_app_le by lia.
  - repeat split.
    + lia.
    + apply last_snoc.
    + lia.
Qed.

Lemma command_history_bounded_witness :
  let self := AICommandDispatcher.set_history AICommandDispatcher.init
                (replicate 1000 sample_entry) in
  AICommandDispatcher.command_history
    (AICommandDispatcher._log_command sample_world sample_add_node
       sample_syntax_error 1 self)
  = drop 1 (replicate 1000 sample_entry)
      ++ [AICommandDispatcher.logged_entry sample_world sample_add_node sample_syntax_error 1 self].
Proof.
  intros self.
  apply (command_history_bounded sample_world sample_add_node
           sample_syntax_error 1 self).
  vm_compute. reflexivity.
Defined.


(** * The performance analyzer *)

Section Analyzer.
Import PerformanceAnalyzer.
Variable format_1f : value → result string.
Variable str : value → result string.

(** [analyze] reads the report through four [get]s only. *)
Lemma analyze_ext (r1 r2 : gmap string value) :
  get r1 "fps" (VFloat 60) = get r2 "fps" (VFloat 60) →
  get r1 "draw_calls" (VInt 0) = get r2 "draw_calls" (VInt 0) →
  get r1 "node_count" (VInt 0) = get r2 "node_count" (VInt 0) →
  analyze format_1f str r1 = analyze format_1f str r2.
Proof. intros H1 H2 H3. unfold analyze. by rewrite H1, H2, H3. Qed.

Lemma analyze_default_fps (r : gmap string value) :
  analyze format_1f str (delete "fps" r)
  = analyze format_1f str (<["fps" := VFloat 60]> r).
Proof.
  apply analyze_ext; unfold get.
  - by rewrite lookup_delete_eq, lookup_insert_eq.
  - by rewrite lookup_delete_ne, lookup_insert_ne.
  - by rewrite lookup_delete_ne, lookup_insert_ne.
Qed.

Lemma analyze_default_draw_calls (r : gmap string value) :
  analyze format_1f str (delete "draw_calls" r)
  = analyze format_1f str (<["draw_calls" := VInt 0]> r).
Proof.
  apply analyze_ext; unfold get.
  - by rewrite lookup_delete_ne, lookup_insert_ne.
  - by rewrite lookup_delete_eq, lookup_insert_eq.
  - by rewrite lookup_delete_ne, lookup_insert_ne.
Qed.

Lemma analyze_default_node_count (r : gmap string value) :
  analyze format_1f str (delete "node_count" r)
  = analyze format_1f str (<["node_count" := VInt 0]> r).
Proof.
  apply analyze_ext; unfold get.
  - by rewrite lookup_delete_ne, lookup_insert_ne.
  - by rewrite lookup_delete_ne, lookup_insert_ne.
  - by rewrite lookup_delete_eq, lookup_insert_eq.
Qed.

(** A metric that is not a number makes the comparison raise. *)
Example analyze_fps_string :
  analyze format_1f str {["fps" := VStr "fast"]} = Raise TypeError.
Proof. reflexivity. Qed.

End Analyzer.

(** C9.  The three sample reports are classified as stated, each provided
    the renderings of its figures return, and a report without a metric is
    analysed as the report with that metric at its default: fps 60.0,
    draw_calls 0, node_count 0. *)
Theorem analyze_examples (format_1f str : value → result string) :
  let analyze := PerformanceAnalyzer.analyze format_1f str in
  let metrics := map PerformanceAnalyzer.metric in
  (∀ text, format_1f (VInt 20) = Ok text →
   ∃ a, analyze {["fps" := VInt 20]} = Ok a ∧
        PerformanceAnalyzer.status a = "critical" ∧
        metrics (PerformanceAnalyzer.issues a) = ["fps"] ∧
        metrics (PerformanceAnalyzer.warnings a) = []) ∧
  (∀ text current,
   format_1f (VInt 40) = Ok text → str (VInt 40) = Ok current →
   ∃ a, analyze {["fps" := VInt 40]} = Ok a ∧
        PerformanceAnalyzer.status a = "ok" ∧
        metrics (PerformanceAnalyzer.issues a) = [] ∧
        metrics (PerformanceAnalyzer.warnings a) = ["fps"]) ∧
  (∀ text, str (VInt 6000) = Ok text →
   ∃ a, analyze (<["draw_calls" := VInt 6000]> {["fps" := VInt 60]}) = Ok a ∧
        PerformanceAnalyzer.status a = "critical" ∧
        metrics (PerformanceAnalyzer.issues a) = ["draw_calls"] ∧
        metrics (PerformanceAnalyzer.warnings a) = []) ∧
  (∃ a, analyze ∅ = Ok a ∧
        PerformanceAnalyzer.status a = "ok" ∧
        PerformanceAnalyzer.issues a = [] ∧
        PerformanceAnalyzer.warnings a = []) ∧
  (∀ r, analyze (delete "fps" r) = analyze (<["fps" := VFloat 60]> r)) ∧
  (∀ r, analyze (delete "draw_calls" r)
        = analyze (<["draw_calls" := VInt 0]> r)) ∧
  (∀ r, analyze (delete "node_count" r)
        = analyze (<["node_count" := VInt 0]> r)).
Proof.
  intros analyze metrics. subst analyze metrics.
  split.
  { intros text E.
    destruct (PerformanceAnalyzer.analyze format_1f str {["fps" := VInt 20]})
      as [a|e] eqn:Ea; pose proof Ea as Run; vm_compute in Run;
      rewrite E in Run; vm_compute in Run; [|discriminate Run].
    exists a. split; [reflexivity|]. by injection Run as <-. }
  split.
  { intros text current E1 E2.
    destruct (PerformanceAnalyzer.analyze format_1f str {["fps" := VInt 40]})
      as [a|e] eqn:Ea; pose proof Ea as Run; vm_compute in Run;
      rewrite E1 in Run; vm_compute in Run;
      rewrite E2 in Run; vm_compute in Run; [|discriminate Run].
    exists a. split; [reflexivity|]. by injection Run as <-. }
  split.
  { intros text E.
    destruct (PerformanceAnalyzer.analyze format_1f str
                (<["draw_calls" := VInt 6000]> {["fps" := VInt 60]}))
      as [a|e] eqn:Ea; pose proof Ea as Run; vm_compute in Run;
      rewrite E in Run; vm_compute in Run; [|discriminate Run].
    exists a. split; [reflexivity|]. by injection Run as <-. }
  split; [eexists; split; [reflexivity|by vm_compute]|].
  split; [apply analyze_default_fps|].
  split; [apply analyze_default_draw_calls|apply analyze_default_node_count].
Qed.

Lemma analyze_examples_witness :
  ∃ a, PerformanceAnalyzer.analyze (λ _, Ok "20.0") (λ _, Ok "20")
         {["fps" := VInt 20]} = Ok a ∧
       PerformanceAnalyzer.status a = "critical" ∧
       map PerformanceAnalyzer.metric (PerformanceAnalyzer.issues a)
       = ["fps"] ∧
       map PerformanceAnalyzer.metric (PerformanceAnalyzer.warnings a) = [].
Proof.
  exact (proj1 (analyze_examples (λ _, Ok "20.0") (λ _, Ok "20"))
           "20.0" eq_refl).
Defined.


(** * The dispatcher's loop *)

Section Loop.
Import AICommandDispatcher.
Variable w : World.
Variable request_id : string.
Variable command : Command.t.

(** Replace the state [_log_command] returns by a variable that satisfies
    its frame lemma. *)
Ltac forget_log :=
  match goal with
  | |- context [_log_command ?w' ?c ?r ?a ?s] =>
    let H := fresh "Hlog" in
    pose proof (_log_command_frame w' c r a s) as H; cbv zeta in H;
    revert H; generalize (_log_command w' c r a s); intros ? H
  end.

(** One iteration of the loop, with the intermediate states named. *)
Lemma command_loop_S (fuel attempts : nat) (self : t) :
  command_loop (S fuel) w request_id command attempts self =
  match GodotAIClient.send_command (exchanges w (length (sent self))) with
  | None =>
    let self := (send w command self).2 in
    if RetryEngine.can_continue (retry_engine self) request_id then
      match RetryEngine.get_retry_delay (retry_engine self) request_id with
      | Ok delay =>
        command_loop fuel w request_id command (attempts + 1)
          (sleep delay self)
      | Raise e => Raised e self
      end
    else
      Returned (Response.make "error"
                  "Failed to communicate with Godot Editor" "communication")
               self
  | Some response =>
    let self := after_reply w request_id command response self in
    if Response.is_success response then
      let self := _log_command w command response (attempts + 1) self in
      Returned response
        (set_retry_engine self
           (RetryEngine.reset (retry_engine self) request_id))
    else if Response.is_error response then
      if existsb (eq_str (Response.error_type response)) ["compile"; "runtime"]
         && RetryEngine.can_continue (retry_engine self) request_id then
        match RetryEngine.get_retry_delay (retry_engine self) request_id with
        | Ok delay =>
          command_loop fuel w request_id command (attempts + 1)
            (sleep delay self)
        | Raise e => Raised e self
        end
      else
        Returned response (_log_command w command response (attempts + 1) self)
    else
      command_loop fuel w request_id command (attempts + 1) self
  end.
Proof. reflexivity. Qed.

(** No response, and the engine permits another attempt: sleep and go on. *)
Lemma loop_silence (fuel attempts : nat) (self : t) (delay : Q) :
  GodotAIClient.send_command (exchanges w (length (sent self))) = None →
  RetryEngine.should_retry (retry_engine self) request_id = true →
  RetryEngine.get_retry_delay (retry_engine self) request_id = Ok delay →
  command_loop (S fuel) w request_id command attempts self
  = command_loop fuel w request_id command (attempts + 1)
      (after_silence w command delay self).
Proof.
  intros Hs Hr Hd. rewrite command_loop_S, Hs. cbv zeta.
  change (retry_engine (send w command self).2) with (retry_engine self).
  unfold RetryEngine.can_continue. rewrite Hr, Hd. reflexivity.
Qed.

(** No response, and the engine refuses (five attempts are on record for
    the id): the synthesized communication error is returned. *)
Lemma loop_silence_refused (fuel attempts : nat) (self : t) :
  GodotAIClient.send_command (exchanges w (length (sent self))) = None →
  RetryEngine.should_retry (retry_engine self) request_id = false →
  command_loop (S fuel) w request_id command attempts self
  = Returned (Response.make "error" "Failed to communicate with Godot Editor"
                "communication")
      (send w command self).2.
Proof.
  intros Hs Hr. rewrite command_loop_S, Hs. cbv zeta.
  change (retry_engine (send w command self).2) with (retry_engine self).
  unfold RetryEngine.can_continue. by rewrite Hr.
Qed.

(** What an iteration that recorded a reply changed. *)
Lemma after_reply_frame (r : Response.t) (self : t) :
  let self' := after_reply w request_id command r self in
  sent self' = sent self ++ [command] ∧
  slept self' = slept self ∧
  pending_commands self' = pending_commands self ∧
  command_history self' = command_history self ∧
  clock_reads self' = S (clock_reads self) ∧
  RetryEngine.count (retry_engine self') request_id
    = RetryEngine.count (retry_engine self) request_id + 1.
Proof.
  unfold after_reply, record_attempt, read_clock, send.
  cbn [snd retry_engine set_retry_engine sent slept pending_commands
       command_history clock_reads].
  repeat split. apply count_record_attempt.
Qed.

(** A success is logged, the counter reset, the response returned. *)
Lemma loop_success (fuel attempts : nat) (self : t) (r : Response.t) :
  GodotAIClient.send_command (exchanges w (length (sent self))) = Some r →
  Response.status r = VStr "success" →
  ∃ self',
    command_loop (S fuel) w request_id command attempts self = Returned r self'
    ∧ sent self' = sent self ++ [command]
    ∧ slept self' = slept self
    ∧ pending_commands self' = pending_commands self.
Proof.
  intros Hs Hst. rewrite command_loop_S, Hs. cbv zeta.
  unfold Response.is_success. rewrite Hst.
  change (eq_str (VStr "success") "success") with true. cbv iota.
  eexists. split; [reflexivity|].
  forget_log. destruct Hlog as (_ & Hp & Hs' & Hsl & _).
  destruct (after_reply_frame r self) as (E1 & E2 & E3 & _).
  cbn [set_retry_engine sent slept pending_commands].
  by rewrite Hp, Hs', Hsl, E1, E2, E3.
Qed.

(** A retryable error while the engine permits: sleep and go on. *)
Lemma loop_retry (fuel attempts : nat) (self : t) (r : Response.t) (delay : Q) :
  GodotAIClient.send_command (exchanges w (length (sent self))) = Some r →
  Response.status r = VStr "error" →
  Response.error_type r = VStr "compile"
    ∨ Response.error_type r = VStr "runtime" →
  RetryEngine.should_retry
    (retry_engine (after_reply w request_id command r self)) request_id = true →
  RetryEngine.get_retry_delay
    (retry_engine (after_reply w request_id command r self)) request_id
    = Ok delay →
  command_loop (S fuel) w request_id command attempts self
  = command_loop fuel w request_id command (attempts + 1)
      (sleep delay (after_reply w request_id command r self)).
Proof.
  intros Hs Hst Hty Hr Hd. rewrite command_loop_S, Hs. cbv zeta.
  unfold Response.is_success, Response.is_error, RetryEngine.can_continue.
  rewrite Hst, Hr, Hd.
  change (eq_str (VStr "error") "success") with false.
  change (eq_str (VStr "error") "error") with true. cbv iota.
  by destruct Hty as [-> | ->].
Qed.

(** Any other error, or an error once the engine refuses: log and return. *)
Lemma loop_terminal_error (fuel attempts : nat) (self : t) (r : Response.t) :
  GodotAIClient.send_command (exchanges w (length (sent self))) = Some r →
  Response.status r = VStr "error" →
  (Response.error_type r ≠ VStr "compile"
     ∧ Response.error_type r ≠ VStr "runtime")
  ∨ RetryEngine.should_retry
      (retry_engine (after_reply w request_id command r self)) request_id
    = false →
  command_loop (S fuel) w request_id command attempts self
  = Returned r (_log_command w command r (attempts + 1)
                  (after_reply w request_id command r self)).
Proof.
  intros Hs Hst Hty. rewrite command_loop_S, Hs. cbv zeta.
  unfold Response.is_success, Response.is_error, RetryEngine.can_continue.
  rewrite Hst.
  change (eq_str (VStr "error") "success") with false.
  change (eq_str (VStr "error") "error") with true. cbv iota.
  destruct Hty as [[H1 H2] | ->].
  - assert (existsb (eq_str (Response.error_type r)) ["compile"; "runtime"]
            = false) as ->; [|done].
    destruct (Response.error_type r) as [| | | |s| |]; try done. simpl.
    rewrite orb_false_r. apply orb_false_intro; apply String.eqb_neq; congruence.
  - by rewrite andb_false_r.
Qed.

(** The loop never touches [pending_commands], however it ends. *)
Lemma command_loop_pending (fuel attempts : nat) (self : t) :
  pending_commands
    (outcome_state (command_loop fuel w request_id command attempts self))
  = pending_commands self.
Proof.
  revert attempts self. induction fuel as [|fuel IH]; intros attempts self.
  { reflexivity. }
  rewrite command_loop_S.
  destruct (GodotAIClient.send_command _) as [r|]; cbv zeta.
  - assert (pending_commands (after_reply w request_id command r self)
            = pending_commands self) as Hp
      by apply after_reply_frame.
    destruct (Response.is_success r).
    { forget_log. destruct Hlog as (_ & Hq & _).
      cbn [outcome_state set_retry_engine pending_commands]. by rewrite Hq. }
    destruct (Response.is_error r).
    + destruct (_ && _).
      * destruct (RetryEngine.get_retry_delay _ _); [by rewrite IH|exact Hp].
      * forget_log. destruct Hlog as (_ & Hq & _).
      cbn [outcome_state set_retry_engine pending_commands]. by rewrite Hq.
    + by rewrite IH.
  - destruct (RetryEngine.can_continue _ _); [|done].
    destruct (RetryEngine.get_retry_delay _ _); [by rewrite IH|done].
Qed.

(** A call that returns with some fuel returns the same with more. *)
Lemma command_loop_fuel_mono (fuel extra attempts : nat) (self : t)
    (r : Response.t) (self' : t) :
  command_loop fuel w request_id command attempts self = Returned r self' →
  command_loop (fuel + extra) w request_id command attempts self
  = Returned r self'.
Proof.
  revert attempts self. induction fuel as [|fuel IH]; intros attempts self.
  { discriminate. }
  change (S fuel + extra) with (S (fuel + extra)).
  rewrite !command_loop_S.
  destruct (GodotAIClient.send_command _) as [r0|]; cbv zeta.
  - destruct (Response.is_success r0); [done|].
    destruct (Response.is_error r0); [|apply IH].
    destruct (_ && _); [|done].
    destruct (RetryEngine.get_retry_delay _ _); [apply IH|done].
  - destruct (RetryEngine.can_continue _ _); [|done].
    destruct (RetryEngine.get_retry_delay _ _); [apply IH|done].
Qed.

End Loop.

(** [execute_command] is its loop, entered with the id assigned and the
    command registered. *)
Lemma execute_command_unfold (fuel : nat) (w : World) (command : Command.t)
    (self : AICommandDispatcher.t) :
  AICommandDispatcher.execute_command fuel w command self
  = AICommandDispatcher.command_loop fuel w (request_id_of w command self)
      (command_of w command self) 0 (entered w command self).
Proof.
  unfold AICommandDispatcher.execute_command, entered, command_of,
    request_id_of.
  by destruct (AICommandDispatcher.assign_request_id w command self).
Qed.

Lemma entered_frame (w : World) (command : Command.t)
    (self : AICommandDispatcher.t) :
  let self' := entered w command self in
  AICommandDispatcher.retry_engine self' = AICommandDispatcher.retry_engine self ∧
  AICommandDispatcher.sent self' = AICommandDispatcher.sent self ∧
  AICommandDispatcher.slept self' = AICommandDispatcher.slept self ∧
  AICommandDispatcher.command_history self'
    = AICommandDispatcher.command_history self ∧
  AICommandDispatcher.pending_commands self' !! request_id_of w command self
    = Some (command_of w command self).
Proof.
  unfold entered, AICommandDispatcher.assign_request_id,
    AICommandDispatcher._generate_request_id.
  destruct (negb _); simpl; repeat split; apply lookup_insert_eq.
Qed.


(** * Communication failures *)

Section Silence.
Import AICommandDispatcher.
Variable w : World.
Variable request_id : string.
Variable command : Command.t.
Hypothesis silent : ∀ n, GodotAIClient.send_command (exchanges w n) = None.

(** While the engine permits a retry before a silent iteration, it permits
    one after it as well: nothing on that path records the attempt.  Hence
    the loop uses up any fuel. *)
Lemma silent_loop_runs_out (fuel attempts : nat) (self : t) :
  RetryEngine.should_retry (retry_engine self) request_id = true →
  ∃ self',
    command_loop fuel w request_id command attempts self = OutOfFuel self' ∧
    retry_engine self' = retry_engine self ∧
    sent self' = sent self ++ replicate fuel command ∧
    slept self' = slept self ++
      replicate fuel (backoff (RetryEngine.count (retry_engine self) request_id)) ∧
    command_history self' = command_history self ∧
    pending_commands self' = pending_commands self.
Proof.
  revert attempts self. induction fuel as [|fuel IH]; intros attempts self Hr.
  { exists self. simpl. by rewrite !app_nil_r. }
  assert (RetryEngine.count (retry_engine self) request_id < 5) as Hc.
  { unfold RetryEngine.should_retry in Hr.
    by apply bool_decide_eq_true_1 in Hr. }
  rewrite (loop_silence w request_id command fuel attempts self
             (backoff (RetryEngine.count (retry_engine self) request_id)));
    [|apply silent|exact Hr|apply get_retry_delay_small; [done|lia]].
  destruct (IH (attempts + 1)
              (after_silence w command
                 (backoff (RetryEngine.count (retry_engine self) request_id))
                 self) Hr)
    as (self' & -> & He & Hs & Hsl & Hh & Hp).
  exists self'. split; [done|].
  rewrite He, Hs, Hsl, Hh, Hp. unfold after_silence, sleep, send. simpl.
  by rewrite <- !app_assoc.
Qed.

End Silence.

(** C1 fails on the code.  When every send fails and the engine permits a
    retry on entry (as it does for every id without five recorded attempts),
    [execute_command] is still looping after any number of iterations: each
    of them sends once and sleeps once, nothing is returned and nothing is
    logged. *)
Theorem communication_failure_never_returns (fuel : nat) (w : World)
    (command : Command.t) (self : AICommandDispatcher.t) :
  (∀ n, GodotAIClient.send_command (exchanges w n) = None) →
  RetryEngine.should_retry (AICommandDispatcher.retry_engine self)
    (request_id_of w command self) = true →
  ∃ self',
    AICommandDispatcher.execute_command fuel w command self
      = AICommandDispatcher.OutOfFuel self' ∧
    length (AICommandDispatcher.sent self')
      = length (AICommandDispatcher.sent self) + fuel ∧
    length (AICommandDispatcher.slept self')
      = length (AICommandDispatcher.slept self) + fuel ∧
    AICommandDispatcher.command_history self'
      = AICommandDispatcher.command_history self.
Proof.
  intros Hsilent Hr. rewrite execute_command_unfold.
  destruct (entered_frame w command self) as (He & Hs & Hsl & Hh & _).
  destruct (silent_loop_runs_out w (request_id_of w command self)
              (command_of w command self) Hsilent fuel 0
              (entered w command self))
    as (self' & -> & _ & Hs' & Hsl' & Hh' & _).
  { by rewrite He. }
  exists self'. split; [done|].
  rewrite Hs', Hsl', Hh', Hs, Hsl, Hh, !length_app, !length_replicate. done.
Qed.

Lemma communication_failure_never_returns_witness :
  ∃ self',
    AICommandDispatcher.execute_command 1000 (replying GodotAIClient.Timeout)
      sample_run_scene AICommandDispatcher.init
      = AICommandDispatcher.OutOfFuel self' ∧
    length (AICommandDispatcher.sent self') = 0 + 1000 ∧
    length (AICommandDispatcher.slept self') = 0 + 1000 ∧
    AICommandDispatcher.command_history self' = [].
Proof.
  apply (communication_failure_never_returns 1000
           (replying GodotAIClient.Timeout) sample_run_scene
           AICommandDispatcher.init).
  - intros n. reflexivity.
  - vm_compute. reflexivity.
Defined.


(** * Error replies *)

Section Errors.
Import AICommandDispatcher.
Variable w : World.
Variable request_id : string.
Variable command : Command.t.

(** The state in which a terminal error is returned. *)
Lemma terminal_error_frame (r : Response.t) (attempts : nat) (self : t) :
  let self' := _log_command w command r attempts
                 (after_reply w request_id command r self) in
  sent self' = sent self ++ [command] ∧
  slept self' = slept self ∧
  pending_commands self' = pending_commands self ∧
  RetryEngine.count (retry_engine self') request_id
    = RetryEngine.count (retry_engine self) request_id + 1 ∧
  last (command_history self')
    = Some {| h_command := Command.to_dict command;
              h_response := Response.to_dict r;
              h_attempts := attempts;
              h_timestamp := now w (S (clock_reads self)) |}.
Proof.
  cbv zeta.
  pose proof (_log_command_last w command r attempts
                (after_reply w request_id command r self)) as Hlast.
  pose proof (_log_command_frame w command r attempts
                (after_reply w request_id command r self)) as Hlog.
  cbv zeta in Hlog. revert Hlast Hlog.
  generalize (_log_command w command r attempts
                (after_reply w request_id command r self)).
  intros self' Hlast (He & Hp & Hs & Hsl & _).
  destruct (after_reply_frame w request_id command r self)
    as (E1 & E2 & E3 & _ & E5 & E6).
  rewrite Hs, Hsl, Hp, He, Hlast, E1, E2, E3, E6.
  unfold logged_entry. by rewrite E5.
Qed.

(** The history in that state: the one before, the entry of this outcome
    behind it, cut to the last 1000. *)
Lemma terminal_error_history (r : Response.t) (attempts : nat) (self : t) :
  command_history (_log_command w command r attempts
                     (after_reply w request_id command r self))
  = last_1000
      (command_history self ++
         [ {| h_command := Command.to_dict command;
              h_response := Response.to_dict r;
              h_attempts := attempts;
              h_timestamp := now w (S (clock_reads self)) |} ]).
Proof.
  rewrite _log_command_history_cut.
  destruct (after_reply_frame w request_id command r self)
    as (_ & _ & _ & E4 & E5 & _).
  unfold logged_entry. by rewrite E4, E5.
Qed.

Hypothesis retryable_errors : ∀ n, ∃ r,
  GodotAIClient.send_command (exchanges w n) = Some r ∧
  Response.status r = VStr "error" ∧
  Response.error_type r = VStr "compile".

(** With [k] retries left before the count reaches 5, the loop sends
    [k + 1] times, sleeps [k] times along the backoff curve, and returns the
    reply to its last send. *)
Lemma retryable_errors_exhaust (k fuel attempts : nat) (self : t) :
  RetryEngine.count (retry_engine self) request_id + 1 + k = 5 →
  ∃ r self',
    command_loop (S k + fuel) w request_id command attempts self
      = Returned r self' ∧
    GodotAIClient.send_command (exchanges w (length (sent self) + k)) = Some r ∧
    sent self' = sent self ++ replicate (S k) command ∧
    slept self' = slept self ++
      map backoff (seq (RetryEngine.count (retry_engine self) request_id + 1) k) ∧
    pending_commands self' = pending_commands self.
Proof.
  revert attempts self. induction k as [|k IH]; intros attempts self Hc.
  - destruct (retryable_errors (length (sent self))) as (r & Hs & Hst & Hty).
    destruct (after_reply_frame w request_id command r self)
      as (_ & _ & _ & _ & _ & E6).
    change (1 + fuel) with (S fuel).
    rewrite (loop_terminal_error w request_id command fuel attempts self r Hs Hst).
    2:{ right. unfold RetryEngine.should_retry.
        apply bool_decide_eq_false_2. rewrite E6. unfold RetryEngine.MAX_RETRIES. lia. }
    destruct (terminal_error_frame r (attempts + 1) self)
      as (F1 & F2 & F3 & _).
    eexists _, _. split; [reflexivity|].
    rewrite Nat.add_0_r, F1, F2, F3. simpl. by rewrite app_nil_r.
  - destruct (retryable_errors (length (sent self))) as (r & Hs & Hst & Hty).
    destruct (after_reply_frame w request_id command r self)
      as (E1 & E2 & E3 & _ & _ & E6).
    set (c := RetryEngine.count (retry_engine self) request_id) in *.
    change (S (S k) + fuel) with (S (S k + fuel)).
    rewrite (loop_retry w request_id command (S k + fuel) attempts self r
               (backoff (c + 1)) Hs Hst (or_introl Hty)).
    2:{ unfold RetryEngine.should_retry. apply bool_decide_eq_true_2.
        rewrite E6. unfold RetryEngine.MAX_RETRIES. lia. }
    2:{ apply get_retry_delay_small; [exact E6|lia]. }
    destruct (IH (attempts + 1)
                (sleep (backoff (c + 1))
                   (after_reply w request_id command r self)))
      as (r' & self' & -> & Hs' & Hsent & Hslept & Hpend).
    { change (retry_engine (sleep _ ?s)) with (retry_engine s).
      rewrite E6. lia. }
    exists r', self'. split; [done|].
    change (retry_engine (sleep _ ?s)) with (retry_engine s) in Hslept.
    change (sent (sleep _ ?s)) with (sent s) in Hs', Hsent.
    change (slept (sleep ?d ?s)) with (slept s ++ [d]) in Hslept.
    change (pending_commands (sleep _ ?s)) with (pending_commands s) in Hpend.
    rewrite E1 in Hs', Hsent. rewrite E2, E6 in Hslept. rewrite E3 in Hpend.
    rewrite length_app in Hs'. simpl in Hs'.
    replace (length (sent self) + S k) with (length (sent self) + 1 + k) by lia.
    split; [done|]. rewrite Hsent, Hslept, Hpend.
    rewrite <- !app_assoc.
    replace (c + 1 + 1) with (S (c + 1)) by lia. done.
Qed.

End Errors.

(** C2 (as amended).  When every reply is an error of type [compile] and the
    command's id has no recorded attempt, [execute_command] makes exactly 5
    send attempts (the first and 4 retries, after sleeping 2, 4, 8 and 10
    seconds) and returns the reply to the fifth, unchanged. *)
Theorem compile_errors_five_attempts (fuel : nat) (w : World)
    (command : Command.t) (self : AICommandDispatcher.t) :
  (∀ n, ∃ r,
     GodotAIClient.send_command (exchanges w n) = Some r ∧
     Response.status r = VStr "error" ∧
     Response.error_type r = VStr "compile") →
  RetryEngine.count (AICommandDispatcher.retry_engine self)
    (request_id_of w command self) = 0 →
  ∃ r self',
    AICommandDispatcher.execute_command (5 + fuel) w command self
      = AICommandDispatcher.Returned r self' ∧
    GodotAIClient.send_command
      (exchanges w (length (AICommandDispatcher.sent self) + 4)) = Some r ∧
    AICommandDispatcher.sent self'
      = AICommandDispatcher.sent self
          ++ replicate 5 (command_of w command self) ∧
    AICommandDispatcher.slept self'
      = AICommandDispatcher.slept self ++ [2; 4; 8; 10]%Q.
Proof.
  intros Hall Hc. rewrite execute_command_unfold.
  destruct (entered_frame w command self) as (He & Hs & Hsl & _).
  destruct (retryable_errors_exhaust w (request_id_of w command self)
              (command_of w command self) Hall 4 fuel 0
              (entered w command self))
    as (r & self' & Hrun & Hr & Hsent & Hslept & _).
  { rewrite He, Hc. done. }
  exists r, self'. rewrite Hs in Hr, Hsent. rewrite Hsl, He, Hc in Hslept.
  done.
Qed.

Lemma compile_errors_five_attempts_witness :
  ∃ r self',
    AICommandDispatcher.execute_command (5 + 0) (replying compile_error_reply)
      sample_run_scene AICommandDispatcher.init
      = AICommandDispatcher.Returned r self' ∧
    GodotAIClient.send_command
      (exchanges (replying compile_error_reply) (0 + 4)) = Some r ∧
    AICommandDispatcher.sent self'
      = replicate 5 (Command.mk "run_scene" ∅ false "req_0") ∧
    AICommandDispatcher.slept self' = [2; 4; 8; 10]%Q.
Proof.
  apply (compile_errors_five_attempts 0 (replying compile_error_reply)
           sample_run_scene AICommandDispatcher.init).
  - intros n. eexists. split; [reflexivity|]. split; reflexivity.
  - reflexivity.
Defined.

(** C2 as stated does not hold: on a fresh dispatcher whose editor answers
    every command with a compile error, no run of [execute_command] returns
    after 6 send attempts. *)
Lemma compile_errors_not_six_attempts :
  ¬ ∃ fuel r self',
      AICommandDispatcher.execute_command fuel (replying compile_error_reply)
        sample_run_scene AICommandDispatcher.init
        = AICommandDispatcher.Returned r self' ∧
      length (AICommandDispatcher.sent self') = 6.
Proof.
  intros (fuel & r & self' & Hrun & Hlen).
  rewrite execute_command_unfold in Hrun.
  apply (command_loop_fuel_mono _ _ _ _ 5) in Hrun.
  destruct (retryable_errors_exhaust (replying compile_error_reply)
              (request_id_of (replying compile_error_reply) sample_run_scene
                 AICommandDispatcher.init)
              (command_of (replying compile_error_reply) sample_run_scene
                 AICommandDispatcher.init)
              (λ n, ex_intro _ _ (conj eq_refl (conj eq_refl eq_refl)))
              4 fuel 0
              (entered (replying compile_error_reply) sample_run_scene
                 AICommandDispatcher.init) eq_refl)
    as (r0 & self0 & Hrun0 & _ & Hsent & _).
  replace (5 + fuel) with (fuel + 5) in Hrun0 by lia.
  rewrite Hrun0 in Hrun. injection Hrun as _ <-.
  rewrite Hsent, length_app, length_replicate in Hlen.
  simpl in Hlen. discriminate Hlen.
Qed.

(** C7.  When the first reply is an error whose type is neither [compile]
    nor [runtime], [execute_command] returns that reply unchanged on its
    first iteration: one send, no sleep, and the outcome is logged with an
    attempt count of 1, that is, [command_history] is afterwards the history
    before with the entry of this outcome behind it, cut to its last 1000
    entries; so the entry is the newest one. *)
Theorem non_retryable_error_returns_at_once (fuel : nat) (w : World)
    (command : Command.t) (self : AICommandDispatcher.t) (r : Response.t) :
  GodotAIClient.send_command
    (exchanges w (length (AICommandDispatcher.sent self))) = Some r →
  Response.status r = VStr "error" →
  Response.error_type r ≠ VStr "compile" →
  Response.error_type r ≠ VStr "runtime" →
  ∃ self',
    AICommandDispatcher.execute_command (S fuel) w command self
      = AICommandDispatcher.Returned r self' ∧
    AICommandDispatcher.sent self'
      = AICommandDispatcher.sent self ++ [command_of w command self] ∧
    AICommandDispatcher.slept self' = AICommandDispatcher.slept self ∧
    last (AICommandDispatcher.command_history self')
      = Some {| AICommandDispatcher.h_command :=
                  Command.to_dict (command_of w command self);
                AICommandDispatcher.h_response := Response.to_dict r;
                AICommandDispatcher.h_attempts := 1;
                AICommandDispatcher.h_timestamp :=
                  now w (S (AICommandDispatcher.clock_reads self)) |} ∧
    AICommandDispatcher.command_history self'
      = AICommandDispatcher.last_1000
          (AICommandDispatcher.command_history self ++
             [ {| AICommandDispatcher.h_command :=
                    Command.to_dict (command_of w command self);
                  AICommandDispatcher.h_response := Response.to_dict r;
                  AICommandDispatcher.h_attempts := 1;
                  AICommandDispatcher.h_timestamp :=
                    now w (S (AICommandDispatcher.clock_reads self)) |} ]).
Proof.
  intros Hs Hst Hc Hr. rewrite execute_command_unfold.
  destruct (entered_frame w command self) as (_ & Es & Esl & _).
  assert (AICommandDispatcher.clock_reads (entered w command self)
          = AICommandDispatcher.clock_reads self) as Ec.
  { unfold entered, AICommandDispatcher.assign_request_id.
    by destruct (negb _). }
  rewrite <- Es in Hs.
  rewrite (loop_terminal_error w (request_id_of w command self)
             (command_of w command self) fuel 0 (entered w command self) r
             Hs Hst (or_introl (conj Hc Hr))).
  destruct (terminal_error_frame w (request_id_of w command self)
              (command_of w command self) r (0 + 1)
              (entered w command self))
    as (F1 & F2 & _ & _ & F5).
  pose proof (terminal_error_history w (request_id_of w command self)
                (command_of w command self) r (0 + 1)
                (entered w command self)) as F6.
  assert (AICommandDispatcher.command_history (entered w command self)
          = AICommandDispatcher.command_history self) as Eh.
  { unfold entered, AICommandDispatcher.assign_request_id.
    by destruct (negb _). }
  eexists. split; [reflexivity|].
  by rewrite F1, F2, F5, F6, Es, Esl, Ec, Eh.
Qed.

Lemma non_retryable_error_returns_at_once_witness :
  ∃ self',
    AICommandDispatcher.execute_command 1 (replying syntax_error_reply)
      sample_add_node AICommandDispatcher.init
      = AICommandDispatcher.Returned sample_syntax_error self' ∧
    AICommandDispatcher.sent self' = [] ++ [sample_add_node] ∧
    AICommandDispatcher.slept self' = [] ∧
    last (AICommandDispatcher.command_history self')
      = Some {| AICommandDispatcher.h_command :=
                  Command.to_dict sample_add_node;
                AICommandDispatcher.h_response :=
                  Response.to_dict sample_syntax_error;
                AICommandDispatcher.h_attempts := 1;
                AICommandDispatcher.h_timestamp :=
                  now (replying syntax_error_reply) 1 |} ∧
    AICommandDispatcher.command_history self'
      = AICommandDispatcher.last_1000
          ([] ++
             [ {| AICommandDispatcher.h_command :=
                    Command.to_dict sample_add_node;
                  AICommandDispatcher.h_response :=
                    Response.to_dict sample_syntax_error;
                  AICommandDispatcher.h_attempts := 1;
                  AICommandDispatcher.h_timestamp :=
                    now (replying syntax_error_reply) 1 |} ]).
Proof.
  apply (non_retryable_error_returns_at_once 0 (replying syntax_error_reply)
           sample_add_node AICommandDispatcher.init sample_syntax_error).
  - reflexivity.
  - reflexivity.
  - vm_compute. discriminate.
  - vm_compute. discriminate.
Defined.

(** * Pending commands *)

(** C3 fails on the code.  However a call of [execute_command] ends, the
    command is still registered under its id in [pending_commands]: the only
    [pop] follows the [while True] loop and is never reached.  On a fresh
    dispatcher whose editor answers with a success, the call returns that
    success after one send and the id is still a key. *)
Theorem pending_entry_survives_return :
  (∀ (fuel : nat) (w : World) (command : Command.t)
     (self : AICommandDispatcher.t),
     AICommandDispatcher.pending_commands
       (outcome_state
          (AICommandDispatcher.execute_command fuel w command self))
     !! request_id_of w command self
     = Some (command_of w command self)) ∧
  (∃ r self',
     AICommandDispatcher.execute_command 1 (replying success_reply)
       sample_add_node AICommandDispatcher.init
       = AICommandDispatcher.Returned r self' ∧
     Response.is_success r = true ∧
     AICommandDispatcher.pending_commands self' !! "req_1"
       = Some sample_add_node).
Proof.
  assert (∀ fuel w command self,
            AICommandDispatcher.pending_commands
              (outcome_state
                 (AICommandDispatcher.execute_command fuel w command self))
            !! request_id_of w command self
            = Some (command_of w command self)) as Hall.
  { intros fuel w command self.
    rewrite execute_command_unfold, command_loop_pending.
    apply entered_frame. }
  split; [exact Hall|].
  destruct (loop_success (replying success_reply) "req_1" sample_add_node 0 0
              (entered (replying success_reply) sample_add_node
                 AICommandDispatcher.init)
              (Response.from_dict {["status" := VStr "success"]})
              eq_refl eq_refl)
    as (self' & Hrun & _ & _ & Hp).
  exists (Response.from_dict {["status" := VStr "success"]}), self'.
  split; [by rewrite execute_command_unfold|].
  split; [reflexivity|]. rewrite Hp. reflexivity.
Qed.
(** * Batches *)

Section Batch.
Import AICommandDispatcher.
Variable fuel : nat.
Variable w : World.

Lemma runs_nil_inv (commands : list nat) (objects objects' : store)
    (self self' : t) :
  runs fuel w commands objects self [] objects' self' →
  commands = [] ∧ objects' = objects ∧ self' = self.
Proof. by inversion 1. Qed.

Lemma batch_loop_sound (commands : list nat) :
  ∀ (results : list Response.t) (objects : store) (self : t)
    (rs : list Response.t) (objects' : store) (self' : t),
    batch_loop fuel w commands results objects self
      = (Returned rs self', objects') →
    ∃ pre post rs',
      commands = pre ++ post ∧ rs = results ++ rs' ∧
      runs fuel w pre objects self rs' objects' self' ∧
      errors_only_last rs' ∧ stopped_by_error post rs'.
Proof.
  induction commands as [|c cs IH];
    intros results objects self rs objects' self' Hrun.
  - injection Hrun as <- <- <-. exists [], [], [].
    split; [done|]. split; [by rewrite app_nil_r|].
    split; [constructor|]. split; [|by left].
    intros i r Hi. by rewrite lookup_nil in Hi.
  - cbn [batch_loop] in Hrun. cbv zeta in Hrun.
    destruct (execute_command fuel w (objects c) self) as [r s1| |] eqn:Hc;
      [|discriminate..].
    destruct (Response.is_error r) eqn:He.
    + injection Hrun as <- <- <-. exists [c], cs, [r].
      split; [done|]. split; [done|].
      split; [by econstructor; [|constructor]|].
      split; [|right; by exists r].
      intros i r' _ Hi. simpl in Hi. lia.
    + destruct (IH _ _ _ _ _ _ Hrun)
        as (pre & post & rs' & -> & -> & Hr & Ho & Hs).
      exists (c :: pre), post, (r :: rs').
      split; [done|]. split; [by rewrite <- app_assoc|].
      split; [by econstructor|]. split.
      * intros [|i] r' Hi Hlen; simpl in Hi, Hlen.
        { by injection Hi as <-. }
        apply (Ho i r' Hi). lia.
      * destruct Hs as [->|(r' & Hl & He')]; [by left|right].
        exists r'. split; [|done].
        destruct rs' as [|r0 rs']; [done|exact Hl].
Qed.

Lemma batch_loop_complete (pre : list nat) :
  ∀ (post : list nat) (results : list Response.t) (objects : store)
    (self : t) (rs' : list Response.t) (objects' : store) (self' : t),
    runs fuel w pre objects self rs' objects' self' →
    errors_only_last rs' → stopped_by_error post rs' →
    batch_loop fuel w (pre ++ post) results objects self
    = (Returned (results ++ rs') self', objects').
Proof.
  induction pre as [|c pre IH];
    intros post results objects self rs' objects' self' Hr Ho Hs.
  - inversion Hr; subst. rewrite app_nil_r.
    destruct Hs as [->|(r & Hl & _)]; [done|discriminate Hl].
  - inversion Hr as [|? ? ? ? r s1 rs'' ? ? Hc Hr']; subst.
    cbn [batch_loop app]. cbv zeta. rewrite Hc.
    destruct (Response.is_error r) eqn:He.
    + destruct rs'' as [|r0 rs''].
      * apply runs_nil_inv in Hr' as (-> & -> & ->). done.
      * specialize (Ho 0 r eq_refl). simpl in Ho.
        rewrite Ho in He by lia. discriminate He.
    + replace (results ++ r :: rs'') with ((results ++ [r]) ++ rs'')
        by (by rewrite <- app_assoc).
      apply IH.
      * exact Hr'.
      * intros i r' Hi Hlen. apply (Ho (S i) r' Hi). simpl. lia.
      * destruct Hs as [->|(r' & Hl & He')]; [by left|].
        destruct rs'' as [|r0 rs''].
        { injection Hl as <-. rewrite He in He'. discriminate He'. }
        right. by exists r'.
Qed.

End Batch.

(** C6.  [execute_batch] returns [rs] in state [self'], leaving the command
    objects as [objects'], exactly when the list of commands splits into a
    prefix and a rest such that [rs], [objects'] and [self'] are what
    calling [execute_command] on the objects of the prefix, in order,
    returns and leaves; no response before the last is an error; and the
    rest is empty unless the last response is an error.  The final state,
    and with it the trace of sends, is that of the prefix alone. *)
Theorem execute_batch_stops_at_first_error (fuel : nat) (w : World)
    (commands : list nat) (objects : AICommandDispatcher.store)
    (self : AICommandDispatcher.t) (rs : list Response.t)
    (objects' : AICommandDispatcher.store) (self' : AICommandDispatcher.t) :
  AICommandDispatcher.execute_batch fuel w commands objects self
    = (AICommandDispatcher.Returned rs self', objects')
  ↔ ∃ pre post,
      commands = pre ++ post ∧
      runs fuel w pre objects self rs objects' self' ∧
      errors_only_last rs ∧
      stopped_by_error post rs.
Proof.
  unfold AICommandDispatcher.execute_batch. split.
  - intros Hrun.
    destruct (batch_loop_sound fuel w commands [] objects self rs objects'
                self' Hrun)
      as (pre & post & rs' & -> & -> & Hr & Ho & Hs).
    by exists pre, post.
  - intros (pre & post & -> & Hr & Ho & Hs).
    by rewrite (batch_loop_complete fuel w pre post [] objects self rs
                  objects' self').
Qed.

(** The batch of the specification: an accepted command, a command the
    editor rejects with a non-retryable error, and a third command.  Two
    responses come back and the third command is never sent. *)
Example execute_batch_ok_fail_ok :
  ∃ r_ok r_fail self' objects',
    AICommandDispatcher.execute_batch 1
      (scripted [success_reply; syntax_error_reply; success_reply])
      [0; 1; 2] sample_objects AICommandDispatcher.init
    = (AICommandDispatcher.Returned [r_ok; r_fail] self', objects') ∧
    Response.is_success r_ok = true ∧
    Response.is_error r_fail = true ∧
    AICommandDispatcher.sent self' = [sample_add_node; sample_save_scene].
Proof.
  eexists _, _, _, _. split; [vm_compute; reflexivity|]. by vm_compute.
Qed.

(** A batch that lists one object twice.  The first call draws an id and
    writes it into the object, so the second call finds the id there: the
    same id is sent twice, one id is drawn, and [pending_commands] holds one
    entry. *)
Example execute_batch_same_object_twice :
  ∃ r1 r2 self' objects',
    AICommandDispatcher.execute_batch 1
      (scripted [success_reply; success_reply])
      [2; 2] sample_objects AICommandDispatcher.init
    = (AICommandDispatcher.Returned [r1; r2] self', objects') ∧
    map Command.request_id (AICommandDispatcher.sent self')
      = ["req_0"; "req_0"] ∧
    AICommandDispatcher.ids_drawn self' = 1 ∧
    Command.request_id (objects' 2) = "req_0" ∧
    AICommandDispatcher.pending_commands self' = {["req_0" := objects' 2]}.
Proof.
  eexists _, _, _, _. split; [vm_compute; reflexivity|].
  split; [by vm_compute|]. split; [by vm_compute|]. split; by vm_compute.
Qed.


(** * More on the message model *)

(** X1.  The wire form of a command, key by key: a parameter named [action]
    or [auto_run] replaces the command's own field, a non-empty request id
    replaces a parameter named [request_id], an empty one leaves that
    parameter in place, and every other key is looked up in the
    parameters. *)
Theorem to_dict_by_key (c : Command.t) :
  Command.to_dict c !! "action"
    = Some (default (VStr (Command.action c))
              (Command.parameters c !! "action")) ∧
  Command.to_dict c !! "auto_run"
    = Some (default (VBool (Command.auto_run c))
              (Command.parameters c !! "auto_run")) ∧
  Command.to_dict c !! "request_id"
    = (if String.eqb (Command.request_id c) ""
       then Command.parameters c !! "request_id"
       else Some (VStr (Command.request_id c))) ∧
  (∀ k, k ∉ Command.reserved →
        Command.to_dict c !! k = Command.parameters c !! k).
Proof.
  rewrite !to_dict_unfold.
  split; [|split; [|split]].
  - destruct (negb _); rewrite ?lookup_insert_ne by done;
      rewrite lookup_union, lookup_insert_ne, lookup_insert_eq by done;
      by destruct (Command.parameters c !! "action").
  - destruct (negb _); rewrite ?lookup_insert_ne by done;
      rewrite lookup_union, lookup_insert_eq;
      by destruct (Command.parameters c !! "auto_run").
  - destruct (String.eqb _ _); simpl.
    + rewrite lookup_union, !lookup_insert_ne, lookup_empty by done.
      by destruct (Command.parameters c !! "request_id").
    + by rewrite lookup_insert_eq.
  - intros k Hk. rewrite <- to_dict_unfold. by apply to_dict_lookup_parameter.
Qed.

Section ResponseWire.

Lemma response_to_dict_unfold (r : Response.t) :
  Response.to_dict r = Response.data r ∪ response_head r.
Proof. reflexivity. Qed.

Lemma put_if_truthy_lookup (key k : string) (v : value)
    (m : gmap string value) :
  Response.put_if_truthy key v m !! k
  = if bool_decide (key = k) && truthy v then Some v else m !! k.
Proof.
  unfold Response.put_if_truthy. destruct (truthy v).
  - rewrite lookup_insert. case_decide; by case_bool_decide.
  - by rewrite andb_false_r.
Qed.

Lemma response_head_status (r : Response.t) :
  response_head r !! "status" = Some (Response.status r).
Proof.
  unfold response_head. rewrite !put_if_truthy_lookup.
  rewrite !bool_decide_eq_false_2 by done. apply lookup_singleton_eq.
Qed.

Lemma response_head_error_type (r : Response.t) :
  response_head r !! "error_type"
  = if truthy (Response.error_type r) then Some (Response.error_type r)
    else None.
Proof.
  unfold response_head. rewrite !put_if_truthy_lookup.
  rewrite (bool_decide_eq_false_2 ("error_details" = "error_type")) by done.
  rewrite (bool_decide_eq_true_2 ("error_type" = "error_type")) by done.
  rewrite (bool_decide_eq_false_2 ("error" = "error_type")) by done.
  rewrite (bool_decide_eq_false_2 ("action" = "error_type")) by done.
  rewrite lookup_singleton_ne by done.
  cbn [andb]. by destruct (truthy (Response.error_type r)).
Qed.

Lemma response_head_other (r : Response.t) (k : string) :
  k ∉ ["status"; "action"; "error"; "error_type"; "error_details"] →
  response_head r !! k = None.
Proof.
  intros Hk. unfold response_head. rewrite !put_if_truthy_lookup.
  assert (∀ key, key ∈ ["status"; "action"; "error"; "error_type";
                         "error_details"] → bool_decide (key = k) = false)
    as Hne.
  { intros key Hin. apply bool_decide_eq_false_2. by intros ->. }
  rewrite !Hne by (repeat constructor). cbn [andb].
  apply lookup_singleton_ne. intros <-. apply Hk. constructor.
Qed.

Lemma without_keys_lookup (reserved : list string) (d : gmap string value)
    (k : string) :
  without_keys reserved d !! k
  = if bool_decide (k ∈ reserved) then None else d !! k.
Proof.
  unfold without_keys. case_bool_decide as Hin.
  - apply map_lookup_filter_None. right. intros x _ Hx. by apply Hx.
  - destruct (d !! k) as [x|] eqn:E.
    + by apply map_lookup_filter_Some.
    + apply map_lookup_filter_None. by left.
Qed.

End ResponseWire.

(** X2.  Encoding a decoded response: every wire field outside the reserved
    set (and other than [error_type]) comes back as it was, the status comes
    back (["unknown"] if it was missing), and the key [type] never does: the
    encoder writes the error type under [error_type]. *)
Theorem response_reencode (d : gmap string value) :
  Response.to_dict (Response.from_dict d) !! "status"
    = Some (get d "status" (VStr "unknown")) ∧
  Response.to_dict (Response.from_dict d) !! "type" = None ∧
  (∀ k, k ∉ Response.reserved → k ≠ "error_type" →
        Response.to_dict (Response.from_dict d) !! k = d !! k).
Proof.
  rewrite !response_to_dict_unfold. cbn [Response.data Response.from_dict].
  split; [|split].
  - rewrite lookup_union, without_keys_lookup.
    rewrite bool_decide_eq_true_2 by (unfold Response.reserved; constructor).
    rewrite response_head_status. reflexivity.
  - rewrite lookup_union, without_keys_lookup.
    rewrite bool_decide_eq_true_2
      by (unfold Response.reserved; repeat constructor).
    rewrite response_head_other; [done|].
    intros Hin. repeat (apply elem_of_cons in Hin as [Hin|Hin]; [done|]).
    by apply elem_of_nil in Hin.
  - intros k Hk Hne.
    rewrite lookup_union, without_keys_lookup.
    rewrite bool_decide_eq_false_2 by done.
    rewrite response_head_other; [by destruct (d !! k)|].
    intros Hin. unfold Response.reserved in Hk.
    repeat (apply elem_of_cons in Hin as [->|Hin];
            [first [done | apply Hk; repeat constructor]|]).
    by apply elem_of_nil in Hin.
Qed.

(** X3.  Decoding an encoded response does not give the response back: the
    encoder writes the error type under [error_type] and the decoder reads
    it from [type], so the field comes back empty and its value, when it is
    truthy, lands in the data.  The status survives.  (For a response whose
    data has none of the keys [status], [type], [error_type].) *)
Theorem response_decode_encode (r : Response.t) :
  Response.data r !! "status" = None →
  Response.data r !! "type" = None →
  Response.data r !! "error_type" = None →
  Response.status (Response.from_dict (Response.to_dict r))
    = Response.status r ∧
  Response.error_type (Response.from_dict (Response.to_dict r)) = VStr "" ∧
  Response.data (Response.from_dict (Response.to_dict r)) !! "error_type"
    = (if truthy (Response.error_type r)
       then Some (Response.error_type r) else None).
Proof.
  intros Hs Ht He. unfold Response.from_dict, get.
  cbn [Response.status Response.error_type Response.data].
  rewrite without_keys_lookup.
  rewrite bool_decide_eq_false_2.
  2:{ unfold Response.reserved. intros Hin.
      repeat (apply elem_of_cons in Hin as [Hin|Hin]; [done|]).
      by apply elem_of_nil in Hin. }
  rewrite !response_to_dict_unfold, !lookup_union, Hs, Ht, He.
  rewrite response_head_status, response_head_error_type.
  rewrite response_head_other.
  2:{ intros Hin.
      repeat (apply elem_of_cons in Hin as [Hin|Hin]; [done|]).
      by apply elem_of_nil in Hin. }
  split; [done|]. split; [done|].
  by destruct (truthy (Response.error_type r)).
Qed.

Lemma response_decode_encode_witness :
  Response.status (Response.from_dict (Response.to_dict sample_response))
    = VStr "error" ∧
  Response.error_type (Response.from_dict (Response.to_dict sample_response))
    = VStr "" ∧
  Response.data (Response.from_dict (Response.to_dict sample_response))
    !! "error_type" = Some (VStr "compile").
Proof. apply (response_decode_encode sample_response); reflexivity. Defined.

(** X4.  The round trip in the other direction: a wire mapping that decodes
    to a well-typed command, carries the keys [action] and [auto_run], and
    carries no empty request id, is what encoding that command gives. *)
Theorem command_encode_decode (d : gmap string value) (c : Command.t) :
  Command.from_dict d = Command.as_decoded c →
  is_Some (d !! "action") →
  is_Some (d !! "auto_run") →
  (Command.request_id c = "" → d !! "request_id" = None) →
  Command.to_dict c = d.
Proof.
  intros Hdec [a Ha] [b Hb] Hid.
  unfold Command.from_dict, Command.as_decoded, get in Hdec.
  rewrite Ha, Hb in Hdec. simpl in Hdec.
  injection Hdec as -> Hp -> Hr.
  assert (∀ k, k ∈ Command.reserved → Command.parameters c !! k = None)
    as Hfree.
  { intros k Hk. rewrite <- Hp, without_keys_lookup.
    by rewrite bool_decide_eq_true_2. }
  apply map_eq. intros k.
  destruct (decide (k ∈ Command.reserved)) as [Hin|Hout].
  - unfold Command.reserved in Hin.
    apply elem_of_cons in Hin as [->|Hin];
      [|apply elem_of_cons in Hin as [->|Hin];
        [|apply elem_of_cons in Hin as [->|Hin];
          [|by apply elem_of_nil in Hin]]].
    + rewrite to_dict_lookup_action, Ha; [done|].
      apply Hfree. repeat constructor.
    + rewrite to_dict_lookup_auto_run, Hb; [done|].
      apply Hfree. repeat constructor.
    + rewrite to_dict_lookup_request_id by (apply Hfree; repeat constructor).
      destruct (String.eqb_spec (Command.request_id c) "") as [E|E]; simpl.
      * symmetry. by apply Hid.
      * destruct (d !! "request_id") as [v|]; simpl in Hr; [by subst|].
        injection Hr as Hr. by rewrite <- Hr in E.
  - rewrite to_dict_lookup_parameter by done.
    rewrite <- Hp, without_keys_lookup. by rewrite bool_decide_eq_false_2.
Qed.

Lemma command_encode_decode_witness :
  Command.to_dict
    (Command.mk "set_property" {["property" := VStr "visible"]} false "req_7")
  = sample_wire_command.
Proof.
  apply (command_encode_decode sample_wire_command
           (Command.mk "set_property" {["property" := VStr "visible"]}
              false "req_7")).
  - vm_compute. reflexivity.
  - by eexists.
  - by eexists.
  - discriminate.
Defined.


(** * More on the retry engine *)

Section RetryMore.
Import RetryEngine.

Lemma count_record_attempt_ne (self : t) (request_id other : string)
    (command : Command.t) (response : Response.t) (ts : string) :
  other ≠ request_id →
  count (record_attempt self request_id command response ts) other
  = count self other.
Proof.
  intros Hne. unfold count, record_attempt. simpl.
  destruct (retry_count self !! request_id) as [n|] eqn:E.
  - by rewrite lookup_insert_ne.
  - by rewrite !lookup_insert_ne.
Qed.

Lemma retry_history_record_attempt (self : t) (request_id : string)
    (command : Command.t) (response : Response.t) (ts : string) :
  retry_history (record_attempt self request_id command response ts)
  = retry_history self ++
      [ {| a_request_id := request_id;
           a_command := Command.to_dict command;
           a_response := Response.to_dict response;
           a_attempt := count self request_id + 1;
           a_timestamp := ts |} ].
Proof.
  unfold count, record_attempt. simpl. do 3 f_equal.
  destruct (retry_count self !! request_id) as [n|] eqn:E.
  - by rewrite lookup_insert_eq, E.
  - by rewrite !lookup_insert_eq.
Qed.

Lemma count_reset_ne (self : t) (request_id other : string) :
  other ≠ request_id → count (reset self request_id) other = count self other.
Proof.
  intros Hne. unfold count, reset. simpl.
  destruct (retry_count self !! request_id); [|done].
  by rewrite lookup_delete_ne.
Qed.

Lemma count_reset_eq (self : t) (request_id : string) :
  count (reset self request_id) request_id = 0.
Proof.
  unfold count, reset. simpl.
  destruct (retry_count self !! request_id) eqn:E.
  - by rewrite lookup_delete_eq.
  - by rewrite E.
Qed.

Lemma backoff_bounds (n : nat) : (1 <= backoff n)%Q ∧ (backoff n <= 10)%Q.
Proof.
  unfold backoff. case_bool_decide as Hn; [|split; done].
  unfold Qle, inject_Z. simpl.
  assert (2 ^ 0 ≤ 2 ^ Z.of_nat n)%Z by (apply Z.pow_le_mono_r; lia).
  assert (2 ^ Z.of_nat n ≤ 2 ^ 3)%Z by (apply Z.pow_le_mono_r; lia).
  lia.
Qed.

Lemma backoff_mono (n m : nat) : n ≤ m → (backoff n <= backoff m)%Q.
Proof.
  intros Hnm. unfold backoff. repeat case_bool_decide; try lia.
  - unfold Qle, inject_Z. simpl.
    assert (2 ^ Z.of_nat n ≤ 2 ^ Z.of_nat m)%Z
      by (apply Z.pow_le_mono_r; lia).
    lia.
  - unfold Qle, inject_Z. simpl.
    assert (2 ^ Z.of_nat n ≤ 2 ^ 3)%Z by (apply Z.pow_le_mono_r; lia).
    lia.
  - done.
Qed.

End RetryMore.

(** X5.  [record_attempt] adds one to the count of its id and leaves every
    other count alone; the history grows by one entry, which carries the id,
    the wire forms of the command and the response, and the new count. *)
Theorem record_attempt_effect (self : RetryEngine.t)
    (request_id other : string) (command : Command.t) (response : Response.t)
    (now : string) :
  let self' :=
    RetryEngine.record_attempt self request_id command response now in
  RetryEngine.count self' request_id = RetryEngine.count self request_id + 1 ∧
  (other ≠ request_id →
   RetryEngine.count self' other = RetryEngine.count self other) ∧
  RetryEngine.retry_history self'
  = RetryEngine.retry_history self ++
      [ {| RetryEngine.a_request_id := request_id;
           RetryEngine.a_command := Command.to_dict command;
           RetryEngine.a_response := Response.to_dict response;
           RetryEngine.a_attempt := RetryEngine.count self request_id + 1;
           RetryEngine.a_timestamp := now |} ].
Proof.
  cbv zeta. split; [apply count_record_attempt|].
  split; [apply count_record_attempt_ne|apply retry_history_record_attempt].
Qed.

(** X6.  [reset] makes its id count as 0 again, whatever was recorded: the
    id may be retried, the next recorded attempt is attempt 1 and the delay
    after it is 2.0 again.  Other ids keep their counts and the history is
    not touched. *)
Theorem reset_starts_over (self : RetryEngine.t) (request_id other : string)
    (command : Command.t) (response : Response.t) (now : string) :
  let self' := RetryEngine.reset self request_id in
  let self'' :=
    RetryEngine.record_attempt self' request_id command response now in
  RetryEngine.count self' request_id = 0 ∧
  RetryEngine.should_retry self' request_id = true ∧
  RetryEngine.get_retry_delay self' request_id = Ok 1%Q ∧
  (other ≠ request_id →
   RetryEngine.count self' other = RetryEngine.count self other) ∧
  RetryEngine.retry_history self' = RetryEngine.retry_history self ∧
  RetryEngine.count self'' request_id = 1 ∧
  RetryEngine.get_retry_delay self'' request_id = Ok 2%Q.
Proof.
  cbv zeta.
  pose proof (count_reset_eq self request_id) as E0.
  assert (RetryEngine.count
            (RetryEngine.record_attempt (RetryEngine.reset self request_id)
               request_id command response now) request_id = 1) as E1
    by (by rewrite count_record_attempt, E0).
  split; [done|].
  split; [unfold RetryEngine.should_retry; by rewrite E0|].
  split; [by rewrite (get_retry_delay_small _ _ 0 E0) by lia|].
  split; [apply count_reset_ne|].
  split; [done|]. split; [done|].
  by rewrite (get_retry_delay_small _ _ 1 E1) by lia.
Qed.

(** X7.  Below the overflow threshold the delay is a number between 1.0 and
    10.0 that never decreases as the count grows. *)
Theorem get_retry_delay_bounds (e1 e2 : RetryEngine.t) (id1 id2 : string) :
  RetryEngine.count e1 id1 ≤ RetryEngine.count e2 id2 →
  RetryEngine.count e2 id2 < 1024 →
  ∃ d1 d2,
    RetryEngine.get_retry_delay e1 id1 = Ok d1 ∧
    RetryEngine.get_retry_delay e2 id2 = Ok d2 ∧
    (1 <= d1)%Q ∧ (d1 <= d2)%Q ∧ (d2 <= 10)%Q.
Proof.
  intros Hle Hlt.
  exists (backoff (RetryEngine.count e1 id1)),
         (backoff (RetryEngine.count e2 id2)).
  split; [apply get_retry_delay_small; [done|lia]|].
  split; [by apply get_retry_delay_small|].
  split; [apply backoff_bounds|].
  split; [by apply backoff_mono|apply backoff_bounds].
Qed.

Lemma get_retry_delay_bounds_witness :
  ∃ d1 d2,
    RetryEngine.get_retry_delay RetryEngine.init "a" = Ok d1 ∧
    RetryEngine.get_retry_delay
      (engine_after 7 "b" sample_add_node sample_syntax_error) "b" = Ok d2 ∧
    (1 <= d1)%Q ∧ (d1 <= d2)%Q ∧ (d2 <= 10)%Q.
Proof.
  apply (get_retry_delay_bounds RetryEngine.init
           (engine_after 7 "b" sample_add_node sample_syntax_error) "a" "b").
  - vm_compute. lia.
  - vm_compute. lia.
Defined.

(** X8.  In every engine built from a new one by [record_attempt] and
    [reset], a stored count is at least 1 and at most the number of history
    entries recorded for its id: no count is ever stored as 0, and the
    history, which [reset] leaves alone, accounts for every counted
    attempt. *)
Theorem stored_counts_positive (self : RetryEngine.t) (request_id : string)
    (n : nat) :
  engine_reachable self →
  RetryEngine.retry_count self !! request_id = Some n →
  1 ≤ n ≤ length (history_of self request_id).
Proof.
  intros Hreach. revert n.
  induction Hreach as [|self rid command response now Hreach IH
                       |self rid Hreach IH]; intros n Hn.
  - unfold RetryEngine.init in Hn. simpl in Hn.
    by rewrite lookup_empty in Hn.
  - unfold history_of in *. rewrite retry_history_record_attempt.
    rewrite filter_app, length_app.
    unfold RetryEngine.record_attempt in Hn. simpl in Hn.
    destruct (decide (request_id = rid)) as [->|Hne].
    + rewrite filter_cons_True, length_cons by done. simpl.
      destruct (RetryEngine.retry_count self !! rid) as [m|] eqn:E.
      * rewrite lookup_insert_eq, E in Hn. injection Hn as <-.
        specialize (IH m eq_refl). simpl. lia.
      * rewrite !lookup_insert_eq in Hn. injection Hn as <-. simpl. lia.
    + rewrite filter_cons_False by (simpl; congruence). simpl.
      rewrite Nat.add_0_r. apply IH.
      destruct (RetryEngine.retry_count self !! rid);
        by rewrite ?lookup_insert_ne in Hn.
  - unfold history_of in *. unfold RetryEngine.reset in Hn. simpl in *.
    apply IH. destruct (RetryEngine.retry_count self !! rid) eqn:E; [|done].
    destruct (decide (request_id = rid)) as [->|Hne].
    + by rewrite lookup_delete_eq in Hn.
    + by rewrite lookup_delete_ne in Hn.
Qed.

Lemma stored_counts_positive_witness :
  1 ≤ 3 ≤ length
    (history_of (engine_after 3 "req_1" sample_add_node sample_syntax_error)
       "req_1").
Proof.
  apply (stored_counts_positive
           (engine_after 3 "req_1" sample_add_node sample_syntax_error)
           "req_1" 3).
  - repeat constructor.
  - vm_compute. reflexivity.
Defined.
(** * More on the performance analyzer *)

Section AnalyzerMore.
Variable format_1f : value → result string.
Variable str : value → result string.

(** A case analysis that follows the control flow of [analyze]: the next
    test or call to be evaluated is found at the head of the term; what is
    known of a call is reused, anything else is split. *)
Ltac known_or_split t :=
  lazymatch goal with
  | H : t = _ |- _ => rewrite H
  | _ => destruct t eqn:?
  end.

Ltac head_case t :=
  lazymatch t with
  | mbind _ ?x => head_case x
  | (if ?c then _ else _) => head_case c
  | negb ?c => head_case c
  | Qlt_bool ?a ?b => destruct (Qlt_bool a b)
  | format_1f ?v => known_or_split (format_1f v)
  | str ?v => known_or_split (str v)
  | PerformanceAnalyzer.number ?v =>
    known_or_split (PerformanceAnalyzer.number v)
  | String.eqb ?a ?b =>
    let v := eval vm_compute in (String.eqb a b) in
    change (String.eqb a b) with v
  | PerformanceAnalyzer.contains ?a ?b =>
    let v := eval vm_compute in (PerformanceAnalyzer.contains a b) in
    change (PerformanceAnalyzer.contains a b) with v
  end.

Ltac split_cases :=
  repeat (cbn [mbind result_bind mret result_ret PerformanceAnalyzer.number
               PerformanceAnalyzer.monitor
               PerformanceAnalyzer._generate_recommendations
               PerformanceAnalyzer.add_issue PerformanceAnalyzer.add_warning
               PerformanceAnalyzer.status PerformanceAnalyzer.issues
               PerformanceAnalyzer.warnings PerformanceAnalyzer.value_
               PerformanceAnalyzer.metric fst snd app negb];
          lazymatch goal with
          | |- match ?l with Ok _ => _ | Raise _ => _ end => head_case l
          | |- Ok _ = ?r => head_case r
          | |- Raise _ = ?r => head_case r
          | |- ?l = _ => head_case l
          end).

Ltac finish_cases :=
  cbn; repeat (match goal with H : _ = _ |- _ => rewrite H end; cbn).

Lemma number_raises (v : value) (e : exn) :
  PerformanceAnalyzer.number v = Raise e → e = TypeError.
Proof. destruct v; simpl; congruence. Qed.

(** The code and the table agree on every report. *)
Lemma analyze_table (report : gmap string value) :
  PerformanceAnalyzer.analyze format_1f str report
  = Table.analyze format_1f str report.
Proof.
  unfold PerformanceAnalyzer.analyze, Table.analyze, Table.walk, Table.rows,
    Table.grade, PerformanceAnalyzer.gt, PerformanceAnalyzer.lt.
  cbn [Table.r_metric Table.r_default Table.r_grade Table.r_critical
       Table.r_warning Table.r_critical_text Table.r_warning_text
       Table.r_render].
  generalize (get report "fps" (VFloat 60)),
    (get report "draw_calls" (VInt 0)), (get report "node_count" (VInt 0)).
  intros fps draw_calls node_count.
  cbn [PerformanceAnalyzer.number
         PerformanceAnalyzer.fps_min PerformanceAnalyzer.fps_warning
         PerformanceAnalyzer.draw_calls_max
         PerformanceAnalyzer.draw_calls_warning
         PerformanceAnalyzer.node_count_max
         PerformanceAnalyzer.node_count_warning].
  unfold Table.below, Table.above, inject_Z.
  split_cases.
  all: try reflexivity.
  all: finish_cases; reflexivity.
Qed.

(** How a call of [analyze] can end.  When it returns, the three metrics are
    numbers and the result has the shape below; when it raises, either a
    metric is not a number and the exception is TypeError, or the exception
    is that of a rendering of a metric that is a number. *)
Lemma analyze_cases (report : gmap string value) :
  let fps := get report "fps" (VFloat 60) in
  let draw_calls := get report "draw_calls" (VInt 0) in
  let node_count := get report "node_count" (VInt 0) in
  match PerformanceAnalyzer.analyze format_1f str report with
  | Ok a =>
    (∃ q1 q2 q3,
       PerformanceAnalyzer.number fps = Ok q1 ∧
       PerformanceAnalyzer.number draw_calls = Ok q2 ∧
       PerformanceAnalyzer.number node_count = Ok q3) ∧
    (PerformanceAnalyzer.status a = "critical"
     ↔ PerformanceAnalyzer.issues a ≠ []) ∧
    (PerformanceAnalyzer.status a = "ok"
     ↔ PerformanceAnalyzer.issues a = []) ∧
    NoDup (map PerformanceAnalyzer.metric
             (PerformanceAnalyzer.issues a ++ PerformanceAnalyzer.warnings a)) ∧
    length (PerformanceAnalyzer.issues a ++ PerformanceAnalyzer.warnings a)
      ≤ 3 ∧
    map PerformanceAnalyzer.priority (PerformanceAnalyzer.recommendations a)
    = replicate (length (PerformanceAnalyzer.issues a)) "high"
      ++ replicate (length (PerformanceAnalyzer.warnings a)) "medium"
  | Raise e =>
    (e = TypeError ∧
     (PerformanceAnalyzer.number fps = Raise TypeError
      ∨ PerformanceAnalyzer.number draw_calls = Raise TypeError
      ∨ PerformanceAnalyzer.number node_count = Raise TypeError))
    ∨ (∃ v q, v ∈ [fps; draw_calls; node_count] ∧
              PerformanceAnalyzer.number v = Ok q ∧
              (format_1f v = Raise e ∨ str v = Raise e))
  end.
Proof.
  cbv zeta.
  unfold PerformanceAnalyzer.analyze, PerformanceAnalyzer.gt,
    PerformanceAnalyzer.lt.
  generalize (get report "fps" (VFloat 60)),
    (get report "draw_calls" (VInt 0)), (get report "node_count" (VInt 0)).
  intros fps draw_calls node_count.
  cbn [PerformanceAnalyzer.number
         PerformanceAnalyzer.fps_min PerformanceAnalyzer.fps_warning
         PerformanceAnalyzer.draw_calls_max
         PerformanceAnalyzer.draw_calls_warning
         PerformanceAnalyzer.node_count_max
         PerformanceAnalyzer.node_count_warning].
  unfold inject_Z.
  split_cases.
  all: finish_cases.
  all: repeat match goal with
       | H : PerformanceAnalyzer.number _ = Raise _ |- _ =>
         apply number_raises in H as ?; subst; revert H
       end; intros.
  all: try (left; split; [reflexivity|]; by eauto).
  all: try match goal with
       | H : format_1f ?v = Raise ?e, N : PerformanceAnalyzer.number ?v = Ok ?q
         |- (?e = TypeError ∧ _) ∨ _ =>
         right; exists v, q; split; [set_solver|split; [exact N|by left]]
       | H : str ?v = Raise ?e, N : PerformanceAnalyzer.number ?v = Ok ?q
         |- (?e = TypeError ∧ _) ∨ _ =>
         right; exists v, q; split; [set_solver|split; [exact N|by right]]
       end.
  all: split; [by eexists _, _, _|].
  all: split; [split; [intros; discriminate || done
                      |intros; congruence || done]|].
  all: split; [split; [intros; discriminate || done
                      |intros; discriminate || done]|].
  all: split; [by apply (bool_decide_unpack _)|].
  all: split; [simpl; lia|reflexivity].
Qed.

End AnalyzerMore.

(** X9.  [analyze] is the threshold table: on every report it does what
    grading fps (below 30 critical, below 45 warning), draw_calls (above
    5000, above 3000) and node_count (above 2000, above 1500) one by one
    does, with strict comparisons, renderings included.  It returns only if
    the three metrics, read with their defaults, are numbers; an fps that is
    not a number raises TypeError, and a critical fps whose rendering raises
    makes [analyze] raise the same exception, whatever the other metrics
    are.  On a report whose numeric metrics both renderings return on,
    [analyze] raises TypeError exactly when one of the three metrics is not
    a number. *)
Theorem analyze_is_threshold_table (format_1f str : value → result string)
    (report : gmap string value) :
  let fps := get report "fps" (VFloat 60) in
  let draw_calls := get report "draw_calls" (VInt 0) in
  let node_count := get report "node_count" (VInt 0) in
  let not_a_number :=
    PerformanceAnalyzer.number fps = Raise TypeError
    ∨ PerformanceAnalyzer.number draw_calls = Raise TypeError
    ∨ PerformanceAnalyzer.number node_count = Raise TypeError in
  PerformanceAnalyzer.analyze format_1f str report
    = Table.analyze format_1f str report ∧
  (∀ a, PerformanceAnalyzer.analyze format_1f str report = Ok a →
        ¬ not_a_number) ∧
  (PerformanceAnalyzer.number fps = Raise TypeError →
   PerformanceAnalyzer.analyze format_1f str report = Raise TypeError) ∧
  (∀ q e, PerformanceAnalyzer.number fps = Ok q → Qlt_bool q 30 = true →
          format_1f fps = Raise e →
          PerformanceAnalyzer.analyze format_1f str report = Raise e) ∧
  ((∀ v q, v ∈ [fps; draw_calls; node_count] →
           PerformanceAnalyzer.number v = Ok q →
           (∃ text, format_1f v = Ok text) ∧ (∃ text, str v = Ok text)) →
   (PerformanceAnalyzer.analyze format_1f str report = Raise TypeError
    ↔ not_a_number)).
Proof.
  intros fps draw_calls node_count not_a_number.
  pose proof (analyze_cases format_1f str report) as Hcases.
  cbv zeta in Hcases. fold fps draw_calls node_count in Hcases.
  split; [apply analyze_table|]. split; [|split; [|split]].
  - intros a Ha. rewrite Ha in Hcases.
    destruct Hcases as [(q1 & q2 & q3 & E1 & E2 & E3) _].
    subst not_a_number. rewrite E1, E2, E3. intros [H|[H|H]]; discriminate H.
  - intros Hfps. unfold PerformanceAnalyzer.analyze, PerformanceAnalyzer.lt.
    fold fps. by rewrite Hfps.
  - intros q e Hq Hlt He.
    unfold PerformanceAnalyzer.analyze, PerformanceAnalyzer.lt.
    fold fps. rewrite Hq.
    cbn [mbind result_bind mret result_ret PerformanceAnalyzer.number
         PerformanceAnalyzer.fps_min].
    by rewrite Hlt, He.
  - intros Hrender.
    destruct (PerformanceAnalyzer.analyze format_1f str report) as [a|e].
    + destruct Hcases as [(q1 & q2 & q3 & E1 & E2 & E3) _].
      subst not_a_number. rewrite E1, E2, E3.
      split; [discriminate|]. intros [H|[H|H]]; discriminate H.
    + destruct Hcases as [[-> Hnum]|(v & q & Hv & Hq & Hr)]; [done|].
      destruct (Hrender v q Hv Hq) as [[t1 Ht1] [t2 Ht2]].
      destruct Hr as [Hr|Hr]; congruence.
Qed.

Lemma analyze_is_threshold_table_witness :
  PerformanceAnalyzer.analyze (λ _, Ok "20.0") (λ _, Ok "20")
    (<["node_count" := VStr "many"]> {["fps" := VInt 20]})
  = Raise TypeError.
Proof.
  refine (proj2
            (proj2 (proj2 (proj2 (proj2
               (analyze_is_threshold_table (λ _, Ok "20.0") (λ _, Ok "20")
                  (<["node_count" := VStr "many"]> {["fps" := VInt 20]})))))
             _) _).
  - intros v q _ _. split; eexists; reflexivity.
  - right. right. reflexivity.
Defined.

(** The rendering [f"{fps:.1f}"] of an integer beyond the range of a float
    raises OverflowError; [analyze] then raises it too. *)
Example analyze_fps_overflow (format_1f str : value → result string) :
  format_1f (VInt (- 10 ^ 400)) = Raise OverflowError →
  PerformanceAnalyzer.analyze format_1f str {["fps" := VInt (- 10 ^ 400)]}
  = Raise OverflowError.
Proof.
  intros He.
  unfold PerformanceAnalyzer.analyze, PerformanceAnalyzer.lt.
  change (get {["fps" := VInt (- 10 ^ 400)]} "fps" (VFloat 60))
    with (VInt (- 10 ^ 400)).
  cbn [mbind result_bind mret result_ret PerformanceAnalyzer.number
       PerformanceAnalyzer.fps_min].
  assert (Qlt_bool (inject_Z (- 10 ^ 400)) 30 = true) as ->
    by (vm_compute; reflexivity).
  by rewrite He.
Qed.

(** X10.  The memory figure of a report plays no part: whatever is stored
    under [memory_usage_mb], a number or not, and whether it is there at
    all, the analysis is the same. *)
Theorem analyze_ignores_memory (format_1f str : value → result string)
    (report : gmap string value) (v : value) :
  PerformanceAnalyzer.analyze format_1f str (<["memory_usage_mb" := v]> report)
    = PerformanceAnalyzer.analyze format_1f str report ∧
  PerformanceAnalyzer.analyze format_1f str (delete "memory_usage_mb" report)
    = PerformanceAnalyzer.analyze format_1f str report.
Proof.
  split; apply analyze_ext; unfold get;
    by rewrite ?lookup_insert_ne, ?lookup_delete_ne.
Qed.

(** X11.  Whenever [analyze] returns: the status is critical exactly when
    there is an issue and ok otherwise (warnings never change it); no metric
    is reported twice, be it as issue or as warning, so there are at most
    three findings; and there is one recommendation per finding, the
    high-priority ones for the issues first, then the medium-priority ones
    for the warnings. *)
Theorem analysis_shape (format_1f str : value → result string)
    (report : gmap string value) (a : PerformanceAnalyzer.analysis) :
  PerformanceAnalyzer.analyze format_1f str report = Ok a →
  (PerformanceAnalyzer.status a = "critical"
   ↔ PerformanceAnalyzer.issues a ≠ []) ∧
  (PerformanceAnalyzer.status a = "ok"
   ↔ PerformanceAnalyzer.issues a = []) ∧
  NoDup (map PerformanceAnalyzer.metric
           (PerformanceAnalyzer.issues a ++ PerformanceAnalyzer.warnings a)) ∧
  length (PerformanceAnalyzer.issues a ++ PerformanceAnalyzer.warnings a) ≤ 3 ∧
  map PerformanceAnalyzer.priority (PerformanceAnalyzer.recommendations a)
  = replicate (length (PerformanceAnalyzer.issues a)) "high"
    ++ replicate (length (PerformanceAnalyzer.warnings a)) "medium".
Proof.
  intros Ha. pose proof (analyze_cases format_1f str report) as Hcases.
  cbv zeta in Hcases. rewrite Ha in Hcases. apply Hcases.
Qed.

Lemma analysis_shape_witness :
  ∃ a,
    PerformanceAnalyzer.analyze (λ _, Ok "20.0") (λ _, Ok "4000")
      (<["draw_calls" := VInt 4000]> {["fps" := VInt 20]}) = Ok a ∧
    PerformanceAnalyzer.status a = "critical" ∧
    map PerformanceAnalyzer.priority (PerformanceAnalyzer.recommendations a)
    = ["high"; "medium"].
Proof.
  eexists. split; [reflexivity|].
  pose proof (analysis_shape (λ _, Ok "20.0") (λ _, Ok "4000")
                (<["draw_calls" := VInt 4000]> {["fps" := VInt 20]}) _
                eq_refl) as (H1 & _ & _ & _ & H5).
  split; [by apply H1|exact H5].
Defined.


(** * The connection *)

Section ConnectionFacts.
Import Connection.

Lemma remove_first_absent (x : nat) (l : list nat) :
  x ∉ l → remove_first x l = l.
Proof.
  induction l as [|y l IH]; [done|]. intros Hx. simpl.
  rewrite bool_decide_eq_false_2 by (intros ->; apply Hx; constructor).
  rewrite IH; [done|]. intros Hin. apply Hx. by constructor.
Qed.

Lemma remove_first_app_fresh (x : nat) (l : list nat) :
  x ∉ l → remove_first x (l ++ [x]) = l.
Proof.
  induction l as [|y l IH]; intros Hx; simpl.
  - by rewrite bool_decide_eq_true_2.
  - rewrite bool_decide_eq_false_2 by (intros ->; apply Hx; constructor).
    rewrite IH; [done|]. intros Hin. apply Hx. by constructor.
Qed.

Lemma remove_first_app_l (x : nat) (l k : list nat) :
  x ∈ l → remove_first x (l ++ k) = remove_first x l ++ k.
Proof.
  induction l as [|y l IH]; intros Hx.
  - by apply elem_of_nil in Hx.
  - simpl. case_bool_decide as E; [done|].
    apply elem_of_cons in Hx as [->|Hx]; [done|]. by rewrite IH.
Qed.

(** The occurrence dropped is the first one. *)
Lemma remove_first_split (x : nat) (l1 l2 : list nat) :
  x ∉ l1 → remove_first x (l1 ++ x :: l2) = l1 ++ l2.
Proof.
  induction l1 as [|y l1 IH]; intros Hx; simpl.
  - by rewrite bool_decide_eq_true_2.
  - rewrite bool_decide_eq_false_2 by (intros ->; apply Hx; constructor).
    rewrite IH; [done|]. intros Hin. apply Hx. by constructor.
Qed.

Lemma remove_first_perm (x : nat) (l : list nat) :
  x ∈ l → l ≡ₚ x :: remove_first x l.
Proof.
  induction l as [|y l IH]; intros Hx.
  - by apply elem_of_nil in Hx.
  - simpl. case_bool_decide as E; [by subst|].
    apply elem_of_cons in Hx as [->|Hx]; [done|].
    rewrite (IH Hx) at 1. apply Permutation_swap.
Qed.

Lemma reconnect_loop_connected (fuel : nat) (network : nat → option nat)
    (self : t) :
  connected self = true → reconnect_loop fuel network self = Some self.
Proof. intros H. destruct fuel; simpl; by rewrite H. Qed.

Lemma reconnect_loop_S (fuel : nat) (network : nat → option nat) (self : t) :
  connected self = false →
  reconnect_loop (S fuel) network self
  = match network (connect_calls self) with
    | Some ws => Some (connect network self).2
    | None =>
      reconnect_loop fuel network (sleep RECONNECT_DELAY (connect network self).2)
    end.
Proof.
  intros H. simpl. rewrite H. unfold connect.
  by destruct (network (connect_calls self)).
Qed.

(** [k] failed attempts followed by a successful one. *)
Lemma reconnect_loop_succeeds (k fuel : nat) (network : nat → option nat)
    (self : t) (ws : nat) :
  connected self = false →
  (∀ i, i < k → network (connect_calls self + i) = None) →
  network (connect_calls self + k) = Some ws →
  ∃ self',
    reconnect_loop (S k + fuel) network self = Some self' ∧
    connected self' = true ∧
    websocket self' = Some ws ∧
    connect_calls self' = connect_calls self + S k ∧
    slept self' = slept self ++ replicate k RECONNECT_DELAY ∧
    message_handlers self' = message_handlers self ∧
    closed self' = closed self.
Proof.
  revert self. induction k as [|k IH]; intros self Hc Hfail Hok.
  - rewrite Nat.add_0_r in Hok. change (1 + fuel) with (S fuel).
    rewrite reconnect_loop_S, Hok by done.
    eexists. split; [reflexivity|]. unfold connect. rewrite Hok. simpl.
    rewrite app_nil_r. repeat split. lia.
  - change (S (S k) + fuel) with (S (S k + fuel)).
    rewrite reconnect_loop_S by done.
    assert (network (connect_calls self) = None) as Hn.
    { rewrite <- (Nat.add_0_r (connect_calls self)). apply Hfail. lia. }
    rewrite Hn.
    set (self1 := sleep RECONNECT_DELAY (connect network self).2).
    assert (connected self1 = false ∧
            connect_calls self1 = S (connect_calls self) ∧
            slept self1 = slept self ++ [RECONNECT_DELAY] ∧
            message_handlers self1 = message_handlers self ∧
            closed self1 = closed self) as (E1 & E2 & E3 & E4 & E5).
    { unfold self1, connect. by rewrite Hn. }
    destruct (IH self1) as (self' & -> & F1 & F2 & F3 & F4 & F5 & F6).
    + done.
    + intros i Hi. rewrite E2.
      replace (S (connect_calls self) + i) with (connect_calls self + S i)
        by lia.
      apply Hfail. lia.
    + rewrite E2.
      by replace (S (connect_calls self) + k) with (connect_calls self + S k)
        by lia.
    + exists self'. split; [done|].
      rewrite F3, F4, F5, F6, E2, E3, E4, E5, <- app_assoc.
      repeat split; [done|done|lia].
Qed.



End ConnectionFacts.

(** X12.  [disconnect] is idempotent: a second call changes nothing, and in
    particular closes nothing; the socket a client held is closed once. *)
Theorem disconnect_idempotent (self : Connection.t) :
  Connection.disconnect (Connection.disconnect self)
    = Connection.disconnect self ∧
  Connection.closed (Connection.disconnect self)
    = Connection.closed self ++ option_list (Connection.websocket self).
Proof.
  unfold Connection.disconnect. simpl. split; [done|].
  destruct (Connection.websocket self); simpl; by rewrite ?app_nil_r.
Qed.

(** X13.  A client that reports itself connected holds a socket: this is
    true of a new client and is kept by [connect] (whether it succeeds or
    not), [disconnect], the handler registry, a finished [reconnect_loop]
    and [receive_messages]. *)
Theorem connected_implies_socket (self : Connection.t)
    (network : nat → option nat) (handler fuel : nat)
    (behaviour : nat → value → Connection.call_end)
    (frames : list Connection.frame) (ending : Connection.stream_end) :
  socket_when_connected self →
  socket_when_connected (Connection.connect network self).2 ∧
  socket_when_connected (Connection.disconnect self) ∧
  socket_when_connected (Connection.add_message_handler self handler) ∧
  socket_when_connected (Connection.remove_message_handler self handler) ∧
  (∀ self', Connection.reconnect_loop fuel network self = Some self' →
            socket_when_connected self') ∧
  (∀ self', Connection.receive_messages behaviour frames ending self
              = Connection.Finished self' →
            socket_when_connected self').
Proof.
  intros Hinv.
  assert (∀ s, socket_when_connected (Connection.connect network s).2)
    as Hconnect.
  { intros s. unfold Connection.connect, socket_when_connected.
    destruct (network _); simpl; [by eexists|done]. }
  split; [apply Hconnect|].
  split; [done|].
  split; [exact Hinv|].
  split.
  { unfold Connection.remove_message_handler.
    by case_bool_decide. }
  split.
  - revert self Hinv. induction fuel as [|fuel IH]; intros self Hinv self'.
    + simpl. destruct (Connection.connected self) eqn:E; [|done].
      by intros [= <-].
    + destruct (Connection.connected self) eqn:E.
      * rewrite reconnect_loop_connected by done. by intros [= <-].
      * rewrite reconnect_loop_S by done.
        destruct (network (Connection.connect_calls self)) eqn:En.
        -- intros [= <-]. apply Hconnect.
        -- apply IH. specialize (Hconnect self).
           unfold Connection.connect in *. rewrite En in *. done.
  - revert self Hinv.
    assert (∀ data handlers s s' e,
              socket_when_connected s →
              Connection.dispatch behaviour data handlers s = (e, s') →
              socket_when_connected s') as Hdispatch.
    { intros data handlers.
      induction handlers as [|h handlers IH]; intros s s' e Hs; simpl.
      - by intros [= _ <-].
      - destruct (behaviour h data); [by apply IH|by intros [= _ <-]..]. }
    assert (∀ self, socket_when_connected self →
              ∀ self', Connection.receive_loop behaviour frames ending self
                         = Connection.Finished self' →
                       socket_when_connected self') as Hloop.
    { induction frames as [|[data|] frames IH]; intros self Hinv self'; simpl.
      + destruct ending; intros [= <-]; [done|]. by intros ?.
      + destruct (Connection.dispatch behaviour data _ self) as [e s] eqn:Ed.
        apply Hdispatch in Ed; [|done]. destruct e; [by apply IH..|done].
      + by apply IH. }
    intros self Hinv self'. unfold Connection.receive_messages.
    destruct (Connection.websocket self); [by apply Hloop|done].
Qed.

Lemma connected_implies_socket_witness :
  socket_when_connected
    (Connection.connect (λ _, Some 7) (Connection.init "localhost" None)).2.
Proof.
  refine (proj1 (connected_implies_socket (Connection.init "localhost" None)
           (λ _, Some 7) 0 0 (λ _ _, Connection.Returns) []
           Connection.EndOfStream _)).
  intros H. discriminate H.
Defined.

(** X14.  The handler registry.  Removing a handler that is not registered
    changes nothing; removing a registered one drops exactly one
    registration, the earliest: the handlers before it and those behind it,
    later registrations of the same handler among them, stay as they are and
    in their order.  So a handler added twice is still registered after one
    removal; and adding a handler that was not registered and removing it
    again gives the client back. *)
Theorem handler_registry (self : Connection.t) (handler : nat) :
  (handler ∉ Connection.message_handlers self →
   Connection.remove_message_handler self handler = self ∧
   Connection.remove_message_handler
     (Connection.add_message_handler self handler) handler = self) ∧
  (handler ∈ Connection.message_handlers self →
   Connection.message_handlers self
     ≡ₚ handler :: Connection.message_handlers
                     (Connection.remove_message_handler self handler)) ∧
  (∀ before behind,
     Connection.message_handlers self = before ++ handler :: behind →
     handler ∉ before →
     Connection.remove_message_handler self handler
     = Connection.set_handlers self (before ++ behind)) ∧
  handler ∈ Connection.message_handlers
              (Connection.remove_message_handler
                 (Connection.add_message_handler
                    (Connection.add_message_handler self handler) handler)
                 handler).
Proof.
  split; [|split; [|split]].
  - intros Hout. unfold Connection.remove_message_handler.
    rewrite bool_decide_eq_false_2 by done. split; [done|].
    rewrite bool_decide_eq_true_2
      by (simpl; apply elem_of_app; right; constructor).
    unfold Connection.add_message_handler, Connection.set_handlers. simpl.
    rewrite remove_first_app_fresh by done. by destruct self.
  - intros Hin. unfold Connection.remove_message_handler.
    rewrite bool_decide_eq_true_2 by done. simpl.
    by apply remove_first_perm.
  - intros before behind Hsplit Hfirst.
    unfold Connection.remove_message_handler.
    rewrite bool_decide_eq_true_2
      by (rewrite Hsplit; apply elem_of_app; right; constructor).
    by rewrite Hsplit, remove_first_split.
  - unfold Connection.remove_message_handler.
    rewrite bool_decide_eq_true_2
      by (simpl; apply elem_of_app; right; constructor).
    simpl. rewrite remove_first_app_l
      by (apply elem_of_app; right; constructor).
    apply elem_of_app. right. constructor.
Qed.

Lemma handler_registry_witness :
  Connection.remove_message_handler
    (Connection.set_handlers (Connection.init "localhost" None)
       [10; 20; 30; 20])
    20
  = Connection.set_handlers
      (Connection.set_handlers (Connection.init "localhost" None)
         [10; 20; 30; 20])
      ([10] ++ [30; 20]).
Proof.
  refine (proj1 (proj2 (proj2
            (handler_registry
               (Connection.set_handlers (Connection.init "localhost" None)
                  [10; 20; 30; 20])
               20)))
            [10] [30; 20] _ _).
  - reflexivity.
  - apply not_elem_of_cons. split; [discriminate|apply not_elem_of_nil].
Defined.

(** X15.  [reconnect_loop] on a client that is not connected, when the
    first [k] connection attempts fail and the next one succeeds: the loop
    ends after [k + 1] attempts and [k] sleeps of 2.0 seconds each, with the
    client connected on the new socket; handlers are kept and nothing is
    closed.  On a connected client it returns at once without an attempt. *)
Theorem reconnect_loop_until_connected (k fuel : nat)
    (network : nat → option nat) (self : Connection.t) (ws : nat) :
  Connection.connected self = false →
  (∀ i, i < k → network (Connection.connect_calls self + i) = None) →
  network (Connection.connect_calls self + k) = Some ws →
  (∃ self',
     Connection.reconnect_loop (S k + fuel) network self = Some self' ∧
     Connection.connected self' = true ∧
     Connection.websocket self' = Some ws ∧
     Connection.connect_calls self' = Connection.connect_calls self + S k ∧
     Connection.slept self'
       = Connection.slept self ++ replicate k Connection.RECONNECT_DELAY ∧
     Connection.message_handlers self' = Connection.message_handlers self ∧
     Connection.closed self' = Connection.closed self) ∧
  (∀ self', Connection.reconnect_loop (S k + fuel) network self = Some self' →
            Connection.reconnect_loop fuel network self' = Some self').
Proof.
  intros Hc Hfail Hok.
  destruct (reconnect_loop_succeeds k fuel network self ws Hc Hfail Hok)
    as (self' & Hrun & Hconn & Hrest).
  split; [by exists self'|].
  intros self'' Hrun'. rewrite Hrun in Hrun'. injection Hrun' as <-.
  by apply reconnect_loop_connected.
Qed.

Lemma reconnect_loop_until_connected_witness :
  ∃ self',
    Connection.reconnect_loop (S 2 + 0)
      (λ n, if bool_decide (n < 2) then None else Some 41)
      (Connection.init "localhost" (Some 0%Z)) = Some self' ∧
    Connection.connected self' = true ∧
    Connection.websocket self' = Some 41 ∧
    Connection.connect_calls self' = 0 + 3 ∧
    Connection.slept self' = [] ++ replicate 2 Connection.RECONNECT_DELAY ∧
    Connection.message_handlers self' = [] ∧
    Connection.closed self' = [].
Proof.
  refine (proj1 (reconnect_loop_until_connected 2 0
                   (λ n, if bool_decide (n < 2) then None else Some 41)
                   (Connection.init "localhost" (Some 0%Z)) 41 _ _ _)).
  - reflexivity.
  - intros i Hi. simpl. by rewrite bool_decide_eq_true_2.
  - reflexivity.
Defined.

(** X16.  [reconnect_loop] has no attempt limit: while every connection
    attempt fails, a client that is not connected is still in the loop
    after any number of attempts. *)
Theorem reconnect_loop_never_gives_up (fuel : nat)
    (network : nat → option nat) (self : Connection.t) :
  Connection.connected self = false →
  (∀ n, network n = None) →
  Connection.reconnect_loop fuel network self = None.
Proof.
  intros Hc Hfail. revert self Hc.
  induction fuel as [|fuel IH]; intros self Hc.
  - simpl. by rewrite Hc.
  - rewrite reconnect_loop_S, Hfail by done. apply IH.
    unfold Connection.connect. by rewrite Hfail.
Qed.

Lemma reconnect_loop_never_gives_up_witness :
  Connection.reconnect_loop 1000 (λ _, None)
    (Connection.init "localhost" None) = None.
Proof.
  apply (reconnect_loop_never_gives_up 1000 (λ _, None)
           (Connection.init "localhost" None)); reflexivity.
Defined.




(** * More on the dispatcher *)

Section LoopMore.
Import AICommandDispatcher.
Variable w : World.
Variable request_id : string.
Variable command : Command.t.

Lemma loop_success_state (fuel attempts : nat) (self : t) (r : Response.t) :
  GodotAIClient.send_command (exchanges w (length (sent self))) = Some r →
  Response.is_success r = true →
  command_loop (S fuel) w request_id command attempts self
  = Returned r (after_success w request_id command r (attempts + 1) self).
Proof.
  intros Hs Hst. rewrite command_loop_S, Hs. cbv zeta. by rewrite Hst.
Qed.

Lemma after_success_frame (r : Response.t) (attempts : nat) (self : t) :
  let self' := after_success w request_id command r attempts self in
  sent self' = sent self ++ [command] ∧
  slept self' = slept self ∧
  pending_commands self' = pending_commands self ∧
  RetryEngine.count (retry_engine self') request_id = 0 ∧
  last (command_history self')
    = Some {| h_command := Command.to_dict command;
              h_response := Response.to_dict r;
              h_attempts := attempts;
              h_timestamp := now w (S (clock_reads self)) |}.
Proof.
  cbv zeta. unfold after_success. cbv zeta.
  pose proof (_log_command_last w command r attempts
                (after_reply w request_id command r self)) as Hlast.
  pose proof (_log_command_frame w command r attempts
                (after_reply w request_id command r self)) as Hlog.
  cbv zeta in Hlog. revert Hlast Hlog.
  generalize (_log_command w command r attempts
                (after_reply w request_id command r self)).
  intros logged Hlast (_ & Hp & Hs & Hsl & _).
  destruct (after_reply_frame w request_id command r self)
    as (E1 & E2 & E3 & _ & E5 & _).
  cbn [set_retry_engine sent slept pending_commands retry_engine
       command_history].
  rewrite Hs, Hsl, Hp, Hlast, E1, E2, E3.
  unfold logged_entry. rewrite E5.
  repeat split. apply count_reset_eq.
Qed.

(** An unclassified reply: recorded, then the loop goes round at once. *)
Lemma loop_unclassified (fuel attempts : nat) (self : t) (r : Response.t) :
  GodotAIClient.send_command (exchanges w (length (sent self))) = Some r →
  Response.is_success r = false →
  Response.is_error r = false →
  command_loop (S fuel) w request_id command attempts self
  = command_loop fuel w request_id command (attempts + 1)
      (after_reply w request_id command r self).
Proof.
  intros Hs H1 H2. rewrite command_loop_S, Hs. cbv zeta. by rewrite H1, H2.
Qed.

(** [k] retryable errors, then a success. *)
Lemma errors_then_success (k fuel attempts : nat) (self : t) (r : Response.t) :
  RetryEngine.count (retry_engine self) request_id + k < 5 →
  (∀ i, i < k → ∃ e,
     GodotAIClient.send_command (exchanges w (length (sent self) + i))
       = Some e ∧
     Response.status e = VStr "error" ∧
     (Response.error_type e = VStr "compile"
      ∨ Response.error_type e = VStr "runtime")) →
  GodotAIClient.send_command (exchanges w (length (sent self) + k)) = Some r →
  Response.is_success r = true →
  ∃ self',
    command_loop (S k + fuel) w request_id command attempts self
      = Returned r self' ∧
    sent self' = sent self ++ replicate (S k) command ∧
    slept self' = slept self ++
      map backoff
        (seq (RetryEngine.count (retry_engine self) request_id + 1) k) ∧
    pending_commands self' = pending_commands self ∧
    RetryEngine.count (retry_engine self') request_id = 0 ∧
    (∃ e, last (command_history self') = Some e ∧
          h_response e = Response.to_dict r ∧
          h_command e = Command.to_dict command ∧
          h_attempts e = attempts + S k).
Proof.
  revert attempts self. induction k as [|k IH]; intros attempts self Hc He Hs Hr.
  - rewrite Nat.add_0_r in Hs. change (1 + fuel) with (S fuel).
    rewrite (loop_success_state fuel attempts self r Hs Hr).
    destruct (after_success_frame r (attempts + 1) self)
      as (F1 & F2 & F3 & F4 & F5).
    eexists. split; [reflexivity|].
    rewrite F1, F2, F3, F4, F5. simpl. rewrite app_nil_r.
    repeat split. by eexists.
  - destruct (He 0) as (e & Hse & Hst & Hty); [lia|].
    rewrite Nat.add_0_r in Hse.
    destruct (after_reply_frame w request_id command e self)
      as (E1 & E2 & E3 & _ & _ & E6).
    set (c := RetryEngine.count (retry_engine self) request_id) in *.
    change (S (S k) + fuel) with (S (S k + fuel)).
    rewrite (loop_retry w request_id command (S k + fuel) attempts self e
               (backoff (c + 1)) Hse Hst Hty).
    2:{ unfold RetryEngine.should_retry. apply bool_decide_eq_true_2.
        rewrite E6. unfold RetryEngine.MAX_RETRIES. lia. }
    2:{ apply get_retry_delay_small; [exact E6|lia]. }
    set (self1 := sleep (backoff (c + 1))
                    (after_reply w request_id command e self)).
    assert (retry_engine self1
              = retry_engine (after_reply w request_id command e self) ∧
            sent self1 = sent self ++ [command] ∧
            slept self1 = slept self ++ [backoff (c + 1)] ∧
            pending_commands self1 = pending_commands self)
      as (G0 & G1 & G2 & G3).
    { unfold self1.
      split; [done|]. split; [exact E1|].
      split; [by rewrite <- E2|exact E3]. }
    destruct (IH (attempts + 1) self1)
      as (self' & -> & Hsent & Hslept & Hpend & Hcount & Hlast).
    + rewrite G0, E6. lia.
    + intros i Hi. rewrite G1, length_app. simpl.
      replace (length (sent self) + 1 + i) with (length (sent self) + S i)
        by lia.
      apply He. lia.
    + rewrite G1, length_app. simpl.
      by replace (length (sent self) + 1 + k) with (length (sent self) + S k)
        by lia.
    + done.
    + exists self'. split; [done|].
      rewrite Hsent, Hslept, Hpend, Hcount, G0, G1, G2, G3, E6.
      rewrite <- !app_assoc.
      replace (c + 1 + 1) with (S (c + 1)) by lia.
      repeat split.
      destruct Hlast as (en & H1 & H2 & H3 & H4).
      exists en. repeat split; try done. lia.
Qed.

(** Replies that are neither a success nor an error keep the loop going
    without a pause for as long as they come. *)
Lemma unclassified_loop_runs_out (fuel attempts : nat) (self : t) :
  (∀ n, ∃ r,
     GodotAIClient.send_command (exchanges w n) = Some r ∧
     Response.is_success r = false ∧ Response.is_error r = false) →
  ∃ self',
    command_loop fuel w request_id command attempts self = OutOfFuel self' ∧
    sent self' = sent self ++ replicate fuel command ∧
    slept self' = slept self ∧
    command_history self' = command_history self ∧
    RetryEngine.count (retry_engine self') request_id
      = RetryEngine.count (retry_engine self) request_id + fuel.
Proof.
  intros Hall. revert attempts self.
  induction fuel as [|fuel IH]; intros attempts self.
  { exists self. simpl. rewrite app_nil_r. repeat split. lia. }
  destruct (Hall (length (sent self))) as (r & Hs & H1 & H2).
  rewrite (loop_unclassified fuel attempts self r Hs H1 H2).
  destruct (after_reply_frame w request_id command r self)
    as (E1 & E2 & _ & E4 & _ & E6).
  destruct (IH (attempts + 1) (after_reply w request_id command r self))
    as (self' & -> & F1 & F2 & F3 & F4).
  exists self'. split; [done|].
  rewrite F1, F2, F3, F4, E1, E2, E4, E6, <- app_assoc.
  repeat split. lia.
Qed.

(** Every send of a loop hands over the same command object, and a loop
    that returns has sent at least once; the reply it returns is the reply
    to its last send, or the synthesized error if that send got none. *)
Lemma command_loop_sends (fuel attempts : nat) (self : t) :
  ∃ n,
    n ≤ fuel ∧
    sent (outcome_state (command_loop fuel w request_id command attempts self))
    = sent self ++ replicate n command ∧
    ids_drawn
      (outcome_state (command_loop fuel w request_id command attempts self))
    = ids_drawn self ∧
    ∀ r self',
      command_loop fuel w request_id command attempts self = Returned r self' →
      1 ≤ n ∧
      match GodotAIClient.send_command
              (exchanges w (length (sent self) + n - 1)) with
      | Some reply => r = reply
      | None =>
        r = Response.make "error" "Failed to communicate with Godot Editor"
              "communication"
      end.
Proof.
  revert attempts self. induction fuel as [|fuel IH]; intros attempts self.
  { exists 0. simpl. rewrite app_nil_r.
    split; [lia|]. split; [done|]. split; [done|]. discriminate. }
  rewrite command_loop_S.
  assert (∀ s, sent s = sent self ++ [command] →
               ids_drawn s = ids_drawn self →
               ∀ a, ∃ n, n ≤ S fuel ∧
                 sent (outcome_state
                         (command_loop fuel w request_id command a s))
                 = sent self ++ replicate n command ∧
                 ids_drawn (outcome_state
                              (command_loop fuel w request_id command a s))
                 = ids_drawn self ∧
                 ∀ r self',
                   command_loop fuel w request_id command a s
                     = Returned r self' →
                   1 ≤ n ∧
                   match GodotAIClient.send_command
                           (exchanges w (length (sent self) + n - 1)) with
                   | Some reply => r = reply
                   | None =>
                     r = Response.make "error"
                           "Failed to communicate with Godot Editor"
                           "communication"
                   end) as Hnext.
  { intros s Hs Hi a. destruct (IH a s) as (n & Hn & E1 & E2 & E3).
    exists (S n). split; [lia|]. rewrite E1, E2, Hs, Hi, <- app_assoc.
    split; [done|]. split; [done|]. intros r self' Hrun.
    destruct (E3 r self' Hrun) as [Hn1 Hr]. split; [lia|].
    rewrite Hs, length_app in Hr. simpl in Hr.
    by replace (length (sent self) + S n - 1)
         with (length (sent self) + 1 + n - 1) by lia. }
  assert (∀ r s, sent s = sent self ++ [command] →
                 ids_drawn s = ids_drawn self →
                 (∀ r', r' = r →
                   match GodotAIClient.send_command
                           (exchanges w (length (sent self) + 1 - 1)) with
                   | Some reply => r' = reply
                   | None =>
                     r' = Response.make "error"
                            "Failed to communicate with Godot Editor"
                            "communication"
                   end) →
                 ∃ n, n ≤ S fuel ∧
                   sent (outcome_state (Returned r s))
                   = sent self ++ replicate n command ∧
                   ids_drawn (outcome_state (Returned r s)) = ids_drawn self ∧
                   ∀ r' self',
                     Returned r s = Returned r' self' →
                     1 ≤ n ∧
                     match GodotAIClient.send_command
                             (exchanges w (length (sent self) + n - 1)) with
                     | Some reply => r' = reply
                     | None =>
                       r' = Response.make "error"
                              "Failed to communicate with Godot Editor"
                              "communication"
                     end) as Hdone.
  { intros r s Hs Hi Hr. exists 1. split; [lia|]. simpl.
    split; [done|]. split; [done|]. intros r' self' [= <- <-].
    split; [lia|]. by apply Hr. }
  replace (length (sent self) + 1 - 1) with (length (sent self)) in Hdone
    by lia.
  destruct (GodotAIClient.send_command (exchanges w (length (sent self))))
    as [r|] eqn:Hsend; cbv zeta.
  - destruct (after_reply_frame w request_id command r self)
      as (E1 & _ & _ & _ & _ & _).
    assert (ids_drawn (after_reply w request_id command r self)
            = ids_drawn self) as Ei by reflexivity.
    pose proof (_log_command_frame w command r (attempts + 1)
                  (after_reply w request_id command r self)) as Hlog.
    cbv zeta in Hlog. revert Hlog.
    generalize (_log_command w command r (attempts + 1)
                  (after_reply w request_id command r self)).
    intros logged (_ & _ & Hs & _ & Hi & _).
    rewrite E1 in Hs. rewrite Ei in Hi.
    destruct (Response.is_success r).
    { apply Hdone; [exact Hs|exact Hi|by intros ? ->]. }
    destruct (Response.is_error r); [|by apply Hnext].
    destruct (_ && _).
    + destruct (RetryEngine.get_retry_delay _ _).
      * by apply Hnext.
      * exists 1. split; [lia|]. simpl. split; [done|]. split; [done|].
        discriminate.
    + apply Hdone; [exact Hs|exact Hi|by intros ? ->].
  - destruct (RetryEngine.can_continue _ _).
    + destruct (RetryEngine.get_retry_delay _ _).
      * by apply Hnext.
      * exists 1. split; [lia|]. simpl. split; [done|]. split; [done|].
        discriminate.
    + apply Hdone; [done|done|by intros ? ->].
Qed.

Lemma _log_command_length (r : Response.t) (attempts : nat) (self : t) :
  length (command_history (_log_command w command r attempts self)) ≤ 1000.
Proof.
  rewrite _log_command_history. cbv zeta.
  case_bool_decide as Hbig; [|lia].
  rewrite last_1000_length. lia.
Qed.

(** The loop keeps the history within its bound. *)
Lemma command_loop_history_bound (fuel attempts : nat) (self : t) :
  length (command_history self) ≤ 1000 →
  length (command_history
            (outcome_state
               (command_loop fuel w request_id command attempts self)))
  ≤ 1000.
Proof.
  revert attempts self. induction fuel as [|fuel IH]; intros attempts self Hb.
  { done. }
  rewrite command_loop_S.
  destruct (GodotAIClient.send_command _) as [r|]; cbv zeta.
  - assert (command_history (after_reply w request_id command r self)
            = command_history self) as Eh by apply after_reply_frame.
    pose proof (_log_command_length r (attempts + 1)
                  (after_reply w request_id command r self)) as Hlog.
    revert Hlog.
    generalize (_log_command w command r (attempts + 1)
                  (after_reply w request_id command r self)).
    intros logged Hlog.
    destruct (Response.is_success r); [exact Hlog|].
    destruct (Response.is_error r).
    + destruct (_ && _); [|exact Hlog].
      destruct (RetryEngine.get_retry_delay _ _);
        [apply IH|cbn [outcome_state]]; by rewrite ?Eh.
    + apply IH. by rewrite Eh.
  - destruct (RetryEngine.can_continue _ _); [|done].
    destruct (RetryEngine.get_retry_delay _ _); [by apply IH|done].
Qed.

End LoopMore.

(** X18.  Retryable errors followed by a success.  When the id has fewer
    than [5 - k] recorded attempts, the first [k] replies are errors of type
    [compile] or [runtime] and the next reply is a success,
    [execute_command] sends [k + 1] times, sleeps the backoff delays in
    between, and returns the success; the outcome is the newest history
    entry, with [k + 1] attempts, and the id's retry counter is reset. *)
Theorem errors_then_success_returns (k fuel : nat) (w : World)
    (command : Command.t) (self : AICommandDispatcher.t) (r : Response.t) :
  RetryEngine.count (AICommandDispatcher.retry_engine self)
    (request_id_of w command self) + k < 5 →
  (∀ i, i < k → ∃ e,
     GodotAIClient.send_command
       (exchanges w (length (AICommandDispatcher.sent self) + i)) = Some e ∧
     Response.status e = VStr "error" ∧
     (Response.error_type e = VStr "compile"
      ∨ Response.error_type e = VStr "runtime")) →
  GodotAIClient.send_command
    (exchanges w (length (AICommandDispatcher.sent self) + k)) = Some r →
  Response.is_success r = true →
  ∃ self',
    AICommandDispatcher.execute_command (S k + fuel) w command self
      = AICommandDispatcher.Returned r self' ∧
    AICommandDispatcher.sent self'
      = AICommandDispatcher.sent self
          ++ replicate (S k) (command_of w command self) ∧
    AICommandDispatcher.slept self'
      = AICommandDispatcher.slept self ++
        map backoff
          (seq (RetryEngine.count (AICommandDispatcher.retry_engine self)
                  (request_id_of w command self) + 1) k) ∧
    RetryEngine.count (AICommandDispatcher.retry_engine self')
      (request_id_of w command self) = 0 ∧
    (∃ e, last (AICommandDispatcher.command_history self') = Some e ∧
          AICommandDispatcher.h_response e = Response.to_dict r ∧
          AICommandDispatcher.h_attempts e = S k).
Proof.
  intros Hc He Hs Hr. rewrite execute_command_unfold.
  destruct (entered_frame w command self) as (Ee & Es & Esl & _).
  rewrite <- Ee in Hc. rewrite <- Es in He, Hs.
  destruct (errors_then_success w (request_id_of w command self)
              (command_of w command self) k fuel 0 (entered w command self) r
              Hc He Hs Hr)
    as (self' & -> & F1 & F2 & _ & F4 & (e & G1 & G2 & _ & G4)).
  exists self'. split; [done|].
  rewrite F1, F2, F4, Es, Esl, Ee. repeat split. by exists e.
Qed.

Lemma errors_then_success_returns_witness :
  ∃ self',
    AICommandDispatcher.execute_command (S 2 + 0)
      (scripted [compile_error_reply; runtime_error_reply; success_reply])
      sample_add_node AICommandDispatcher.init
      = AICommandDispatcher.Returned
          (Response.from_dict {["status" := VStr "success"]}) self' ∧
    AICommandDispatcher.sent self' = [] ++ replicate 3 sample_add_node ∧
    AICommandDispatcher.slept self' = [] ++ map backoff (seq (0 + 1) 2) ∧
    RetryEngine.count (AICommandDispatcher.retry_engine self') "req_1" = 0 ∧
    (∃ e, last (AICommandDispatcher.command_history self') = Some e ∧
          AICommandDispatcher.h_response e
            = Response.to_dict
                (Response.from_dict {["status" := VStr "success"]}) ∧
          AICommandDispatcher.h_attempts e = 3).
Proof.
  apply (errors_then_success_returns 2 0
           (scripted [compile_error_reply; runtime_error_reply; success_reply])
           sample_add_node AICommandDispatcher.init
           (Response.from_dict {["status" := VStr "success"]})).
  - vm_compute. lia.
  - intros [|[|i]] Hi; [| |lia]; eexists;
      (split; [reflexivity|]); split; [reflexivity| |reflexivity|];
      [by left|by right].
  - reflexivity.
  - reflexivity.
Defined.

(** X19.  Replies that are neither a success nor an error (any status other
    than ["success"] and ["error"], a missing one included) make
    [execute_command] resend at once: no sleep, no limit.  While they keep
    coming the call is still looping after any number of sends; each reply
    is recorded as an attempt and nothing is logged. *)
Theorem unclassified_replies_spin (fuel : nat) (w : World)
    (command : Command.t) (self : AICommandDispatcher.t) :
  (∀ n, ∃ r,
     GodotAIClient.send_command (exchanges w n) = Some r ∧
     Response.is_success r = false ∧ Response.is_error r = false) →
  ∃ self',
    AICommandDispatcher.execute_command fuel w command self
      = AICommandDispatcher.OutOfFuel self' ∧
    AICommandDispatcher.sent self'
      = AICommandDispatcher.sent self
          ++ replicate fuel (command_of w command self) ∧
    AICommandDispatcher.slept self' = AICommandDispatcher.slept self ∧
    AICommandDispatcher.command_history self'
      = AICommandDispatcher.command_history self ∧
    RetryEngine.count (AICommandDispatcher.retry_engine self')
      (request_id_of w command self)
    = RetryEngine.count (AICommandDispatcher.retry_engine self)
        (request_id_of w command self) + fuel.
Proof.
  intros Hall. rewrite execute_command_unfold.
  destruct (entered_frame w command self) as (Ee & Es & Esl & Eh & _).
  destruct (unclassified_loop_runs_out w (request_id_of w command self)
              (command_of w command self) fuel 0 (entered w command self)
              Hall)
    as (self' & -> & F1 & F2 & F3 & F4).
  exists self'. split; [done|].
  by rewrite F1, F2, F3, F4, Ee, Es, Esl, Eh.
Qed.

Lemma unclassified_replies_spin_witness :
  ∃ self',
    AICommandDispatcher.execute_command 50 (replying pending_reply)
      sample_add_node AICommandDispatcher.init
      = AICommandDispatcher.OutOfFuel self' ∧
    AICommandDispatcher.sent self' = [] ++ replicate 50 sample_add_node ∧
    AICommandDispatcher.slept self' = [] ∧
    AICommandDispatcher.command_history self' = [] ∧
    RetryEngine.count (AICommandDispatcher.retry_engine self') "req_1"
    = 0 + 50.
Proof.
  apply (unclassified_replies_spin 50 (replying pending_reply)
           sample_add_node AICommandDispatcher.init).
  intros n. eexists. split; [reflexivity|]. split; reflexivity.
Defined.

(** X20.  A command whose id already has five or more recorded attempts
    gets exactly one send.  If that send gets no response, the synthesized
    communication error is returned, and nothing is slept, logged or
    recorded; if it gets an error reply of any type, that reply is returned
    without a sleep. *)
Theorem exhausted_id_single_attempt (fuel : nat) (w : World)
    (command : Command.t) (self : AICommandDispatcher.t) :
  5 ≤ RetryEngine.count (AICommandDispatcher.retry_engine self)
        (request_id_of w command self) →
  match GodotAIClient.send_command
          (exchanges w (length (AICommandDispatcher.sent self))) with
  | None =>
    ∃ self',
      AICommandDispatcher.execute_command (S fuel) w command self
        = AICommandDispatcher.Returned
            (Response.make "error" "Failed to communicate with Godot Editor"
               "communication") self' ∧
      AICommandDispatcher.sent self'
        = AICommandDispatcher.sent self ++ [command_of w command self] ∧
      AICommandDispatcher.slept self' = AICommandDispatcher.slept self ∧
      AICommandDispatcher.command_history self'
        = AICommandDispatcher.command_history self ∧
      AICommandDispatcher.retry_engine self'
        = AICommandDispatcher.retry_engine self
  | Some r =>
    Response.status r = VStr "error" →
    ∃ self',
      AICommandDispatcher.execute_command (S fuel) w command self
        = AICommandDispatcher.Returned r self' ∧
      AICommandDispatcher.sent self'
        = AICommandDispatcher.sent self ++ [command_of w command self] ∧
      AICommandDispatcher.slept self' = AICommandDispatcher.slept self
  end.
Proof.
  intros Hc. rewrite execute_command_unfold.
  destruct (entered_frame w command self) as (Ee & Es & Esl & Eh & _).
  rewrite <- Ee in Hc.
  destruct (GodotAIClient.send_command _) as [r|] eqn:Hs;
    rewrite <- Es in Hs.
  - intros Hst.
    destruct (after_reply_frame w (request_id_of w command self)
                (command_of w command self) r (entered w command self))
      as (_ & _ & _ & _ & _ & E6).
    rewrite (loop_terminal_error w (request_id_of w command self)
               (command_of w command self) fuel 0 (entered w command self) r
               Hs Hst).
    2:{ right. unfold RetryEngine.should_retry.
        apply bool_decide_eq_false_2. rewrite E6.
        unfold RetryEngine.MAX_RETRIES. lia. }
    destruct (terminal_error_frame w (request_id_of w command self)
                (command_of w command self) r (0 + 1)
                (entered w command self))
      as (F1 & F2 & _).
    eexists. split; [reflexivity|]. by rewrite F1, F2, Es, Esl.
  - rewrite (loop_silence_refused w (request_id_of w command self)
               (command_of w command self) fuel 0 (entered w command self) Hs).
    2:{ unfold RetryEngine.should_retry. apply bool_decide_eq_false_2.
        unfold RetryEngine.MAX_RETRIES. lia. }
    eexists. split; [reflexivity|].
    unfold AICommandDispatcher.send.
    cbn [snd AICommandDispatcher.sent AICommandDispatcher.slept
         AICommandDispatcher.command_history
         AICommandDispatcher.retry_engine].
    by rewrite Es, Esl, Eh, Ee.
Qed.

Lemma exhausted_id_single_attempt_witness :
  ∃ self',
    AICommandDispatcher.execute_command 1 (replying GodotAIClient.Timeout)
      sample_add_node exhausted_dispatcher
      = AICommandDispatcher.Returned
          (Response.make "error" "Failed to communicate with Godot Editor"
             "communication") self' ∧
    AICommandDispatcher.sent self' = [] ++ [sample_add_node] ∧
    AICommandDispatcher.slept self' = [] ∧
    AICommandDispatcher.command_history self' = [] ∧
    AICommandDispatcher.retry_engine self'
      = engine_after 5 "req_1" sample_add_node sample_syntax_error.
Proof.
  apply (exhausted_id_single_attempt 0 (replying GodotAIClient.Timeout)
           sample_add_node exhausted_dispatcher).
  vm_compute. lia.
Defined.

(** X21.  One call, one id.  Every send of a call of [execute_command]
    hands over the same command, carrying the command's own id when it has
    one and otherwise an id generated once, at the start of the call; a call
    makes at most one send per iteration. *)
Theorem one_id_per_call (fuel : nat) (w : World) (command : Command.t)
    (self : AICommandDispatcher.t) :
  let self' :=
    outcome_state (AICommandDispatcher.execute_command fuel w command self) in
  let fresh := String.eqb (Command.request_id command) "" in
  Command.request_id (command_of w command self)
    = (if fresh then fresh_id w (AICommandDispatcher.ids_drawn self)
       else Command.request_id command) ∧
  AICommandDispatcher.ids_drawn self'
    = AICommandDispatcher.ids_drawn self + (if fresh then 1 else 0) ∧
  ∃ n, n ≤ fuel ∧
       AICommandDispatcher.sent self'
       = AICommandDispatcher.sent self
           ++ replicate n (command_of w command self).
Proof.
  cbv zeta. rewrite execute_command_unfold.
  destruct (command_loop_sends w (request_id_of w command self)
              (command_of w command self) fuel 0 (entered w command self))
    as (n & Hn & Hs & Hi & _).
  rewrite Hs, Hi.
  destruct (entered_frame w command self) as (_ & -> & _).
  assert (Command.request_id (command_of w command self)
          = request_id_of w command self) as -> by reflexivity.
  unfold entered, request_id_of, AICommandDispatcher.assign_request_id,
    AICommandDispatcher._generate_request_id.
  destruct (String.eqb_spec (Command.request_id command) ""); simpl.
  - split; [done|]. split; [lia|]. by exists n.
  - split; [done|]. split; [lia|]. by exists n.
Qed.

(** X22.  What [execute_command] returns is the reply to its last send, or
    the synthesized communication error if that send got no response; and
    it has sent at least once. *)
Theorem returned_reply_is_last (fuel : nat) (w : World)
    (command : Command.t) (self : AICommandDispatcher.t) (r : Response.t)
    (self' : AICommandDispatcher.t) :
  AICommandDispatcher.execute_command fuel w command self
    = AICommandDispatcher.Returned r self' →
  length (AICommandDispatcher.sent self)
    < length (AICommandDispatcher.sent self') ∧
  match GodotAIClient.send_command
          (exchanges w (length (AICommandDispatcher.sent self') - 1)) with
  | Some reply => r = reply
  | None =>
    r = Response.make "error" "Failed to communicate with Godot Editor"
          "communication"
  end.
Proof.
  rewrite execute_command_unfold. intros Hrun.
  destruct (command_loop_sends w (request_id_of w command self)
              (command_of w command self) fuel 0 (entered w command self))
    as (n & _ & Hs & _ & Hr).
  rewrite Hrun in Hs. cbn [outcome_state] in Hs.
  destruct (Hr r self' Hrun) as [Hn Hlast].
  destruct (entered_frame w command self) as (_ & Es & _).
  rewrite Es in Hs, Hlast.
  rewrite Hs, length_app, length_replicate. split; [lia|]. exact Hlast.
Qed.

Lemma returned_reply_is_last_witness :
  length (AICommandDispatcher.sent AICommandDispatcher.init)
    < length
        (AICommandDispatcher.sent
           (outcome_state
              (AICommandDispatcher.execute_command 1
                 (replying syntax_error_reply) sample_add_node
                 AICommandDispatcher.init))).
Proof.
  refine (proj1 (returned_reply_is_last 1 (replying syntax_error_reply)
                   sample_add_node AICommandDispatcher.init
                   sample_syntax_error _ _)).
  vm_compute. reflexivity.
Defined.


(** * Batches and the game builder *)

(** Reading the allocated objects back gives the list. *)
Lemma allocated_seq (commands : list Command.t) :
  allocated commands <$> seq 0 (length commands) = commands.
Proof.
  apply list_eq. intros i. rewrite list_lookup_fmap.
  destruct (commands !! i) as [c|] eqn:E.
  - rewrite lookup_seq_lt by (by eapply lookup_lt_Some). simpl.
    unfold allocated. by rewrite E.
  - rewrite lookup_seq_ge by (by apply lookup_ge_None). done.
Qed.

Section BatchMore.
Import AICommandDispatcher.
Variable fuel : nat.
Variable w : World.

Lemma runs_length (commands : list nat) (objects : store) (self : t)
    (rs : list Response.t) (objects' : store) (self' : t) :
  runs fuel w commands objects self rs objects' self' →
  length rs = length commands.
Proof. induction 1; simpl; congruence. Qed.

Lemma execute_command_history_bound (command : Command.t) (self : t) :
  length (command_history self) ≤ 1000 →
  length (command_history (outcome_state (execute_command fuel w command self)))
  ≤ 1000.
Proof.
  intros Hb. rewrite execute_command_unfold.
  apply command_loop_history_bound.
  destruct (entered_frame w command self) as (_ & _ & _ & -> & _). done.
Qed.

Lemma batch_loop_history_bound (commands : list nat)
    (results : list Response.t) (objects : store) (self : t) :
  length (command_history self) ≤ 1000 →
  length (command_history
            (outcome_state (batch_loop fuel w commands results objects self).1))
  ≤ 1000.
Proof.
  revert results objects self.
  induction commands as [|c cs IH]; intros results objects self Hb; [done|].
  cbn [batch_loop]. cbv zeta.
  pose proof (execute_command_history_bound (objects c) self Hb) as Hc.
  destruct (execute_command fuel w (objects c) self) as [r s| |]; [|done..].
  destruct (Response.is_error r); [done|]. by apply IH.
Qed.

(** [create_game] drives the dispatcher as [execute_batch] does on a list of
    distinct objects. *)
Lemma create_loop_batch (refs : list nat) :
  ∀ (objects : store) (result : GameBuilder.creation)
    (results : list Response.t) (self : t),
    NoDup refs →
    match GameBuilder.create_loop fuel w (objects <$> refs) result self,
          (batch_loop fuel w refs results objects self).1 with
    | Returned res s1, Returned rs s2 =>
      s1 = s2 ∧
      ∃ rs',
        rs = results ++ rs' ∧
        map snd (GameBuilder.actions res)
          = map snd (GameBuilder.actions result) ++ map Response.to_dict rs' ∧
        map snd (GameBuilder.errors res)
          = map snd (GameBuilder.errors result) ++
            map Response.error (filter (λ r, Response.is_error r = true) rs') ∧
        length (filter (λ r, Response.is_error r = true) rs') ≤ 1 ∧
        GameBuilder.c_description res = GameBuilder.c_description result
    | Raised e1 s1, Raised e2 s2 => e1 = e2 ∧ s1 = s2
    | OutOfFuel s1, OutOfFuel s2 => s1 = s2
    | _, _ => False
    end.
Proof.
  induction refs as [|c cs IH]; intros objects result results self Hnd.
  - simpl. split; [done|]. exists []. simpl. rewrite !app_nil_r.
    repeat split. lia.
  - apply NoDup_cons in Hnd as [Hc Hnd].
    cbn [GameBuilder.create_loop batch_loop fmap list_fmap]. cbv zeta.
    destruct (execute_command fuel w (objects c) self) as [r s| |]; [|done..].
    destruct (Response.is_error r) eqn:He.
    + split; [done|]. exists [r]. simpl.
      rewrite filter_cons_True, filter_nil by done.
      rewrite !map_app. simpl. repeat split; lia.
    + specialize (IH
        (<[c := stamped w (objects c) self]> objects)
        {| GameBuilder.c_description := GameBuilder.c_description result;
           GameBuilder.success := GameBuilder.success result;
           GameBuilder.actions := GameBuilder.actions result ++
             [(Command.to_dict (command_of w (objects c) self),
               Response.to_dict r)];
           GameBuilder.errors := GameBuilder.errors result |}
        (results ++ [r]) s Hnd).
      assert (<[c := stamped w (objects c) self]> objects <$> cs
              = objects <$> cs) as Esame.
      { apply list_fmap_ext. intros i x Hx.
        apply fn_lookup_insert_ne. intros <-.
        apply Hc. by eapply list_elem_of_lookup_2. }
      rewrite Esame in IH.
      destruct (GameBuilder.create_loop fuel w (objects <$> cs) _ s)
        as [res s1| |];
        destruct (batch_loop fuel w cs (results ++ [r]) _ s).1
          as [rs s2| |];
        try done.
      destruct IH as (-> & rs' & -> & Ha & Herr & Hlen & Hd).
      split; [done|]. exists (r :: rs').
      rewrite <- app_assoc. split; [done|].
      simpl in Ha, Herr, Hd. rewrite map_app in Ha. simpl in Ha.
      rewrite <- app_assoc in Ha.
      rewrite filter_cons_False by (rewrite He; done).
      done.
Qed.

End BatchMore.

(** X23.  The size of a batch result: [execute_batch] returns at most one
    response per command and at least one if there is a command; when none
    of the responses is an error there is one for every command; and when
    there are fewer, the last one is an error. *)
Theorem execute_batch_lengths (fuel : nat) (w : World)
    (commands : list nat) (objects : AICommandDispatcher.store)
    (self : AICommandDispatcher.t) (rs : list Response.t)
    (objects' : AICommandDispatcher.store) (self' : AICommandDispatcher.t) :
  AICommandDispatcher.execute_batch fuel w commands objects self
    = (AICommandDispatcher.Returned rs self', objects') →
  length rs ≤ length commands ∧
  (commands ≠ [] → rs ≠ []) ∧
  (length rs < length commands →
   ∃ r, last rs = Some r ∧ Response.is_error r = true) ∧
  (Forall (λ r, Response.is_error r = false) rs →
   length rs = length commands).
Proof.
  intros Hrun.
  destruct (batch_loop_sound fuel w commands [] objects self rs objects' self'
              Hrun)
    as (pre & post & rs' & -> & -> & Hr & _ & Hs).
  simpl. apply runs_length in Hr as Hlen. rewrite length_app, Hlen.
  split; [lia|]. split; [|split].
  - intros Hne ->. simpl in Hlen. destruct pre; [|done]. simpl in Hne.
    destruct Hs as [->|(r & Hl & _)]; done.
  - intros Hlt. destruct Hs as [->|Hs]; [simpl in Hlt; lia|done].
  - intros Hall. destruct Hs as [->|(r & Hl & He)]; [simpl; lia|].
    apply last_Some_elem_of in Hl.
    rewrite Forall_forall in Hall. rewrite (Hall r Hl) in He. done.
Qed.

Lemma execute_batch_lengths_witness :
  length [sample_syntax_error] ≤ length [0; 1].
Proof.
  refine (proj1 (execute_batch_lengths 1 (replying syntax_error_reply)
                   [0; 1] sample_objects AICommandDispatcher.init
                   [sample_syntax_error] _ _ _)).
  vm_compute. reflexivity.
Defined.

(** X24.  The history bound holds across the whole interface: from a
    history of at most 1000 entries, [execute_command], [execute_batch] and
    [create_game] leave a history of at most 1000 entries, however they
    end. *)
Theorem history_bound_kept (fuel : nat) (w : World)
    (lower : string → string) (command : Command.t)
    (commands : list nat) (objects : AICommandDispatcher.store)
    (description : string) (self : AICommandDispatcher.t) :
  length (AICommandDispatcher.command_history self) ≤ 1000 →
  length (AICommandDispatcher.command_history
            (outcome_state
               (AICommandDispatcher.execute_command fuel w command self)))
    ≤ 1000 ∧
  length (AICommandDispatcher.command_history
            (outcome_state
               (AICommandDispatcher.execute_batch fuel w commands objects
                  self).1))
    ≤ 1000 ∧
  length (AICommandDispatcher.command_history
            (outcome_state
               (GameBuilder.create_game lower fuel w description self)))
    ≤ 1000.
Proof.
  intros Hb. split; [by apply execute_command_history_bound|].
  split; [by apply batch_loop_history_bound|].
  set (parsed := GameBuilder._parse_game_description lower description).
  pose proof (batch_loop_history_bound fuel w (seq 0 (length parsed)) []
                (allocated parsed) self Hb) as Hbatch.
  pose proof (create_loop_batch fuel w (seq 0 (length parsed))
                (allocated parsed)
                {| GameBuilder.c_description := description;
                   GameBuilder.success := false;
                   GameBuilder.actions := []; GameBuilder.errors := [] |}
                [] self (NoDup_seq 0 _)) as Hrel.
  rewrite allocated_seq in Hrel.
  unfold GameBuilder.create_game. fold parsed.
  destruct (GameBuilder.create_loop fuel w _ _ self) as [res s1|e1 s1|s1];
    destruct (AICommandDispatcher.batch_loop fuel w _ [] _ self).1
      as [rs s2|e2 s2|s2]; try done.
  - by destruct Hrel as [-> _].
  - by destruct Hrel as [_ ->].
  - by subst.
Qed.

Lemma history_bound_kept_witness :
  length (AICommandDispatcher.command_history
            (outcome_state
               (AICommandDispatcher.execute_command 3
                  (replying syntax_error_reply) sample_add_node
                  AICommandDispatcher.init)))
    ≤ 1000.
Proof.
  refine (proj1 (history_bound_kept 3 (replying syntax_error_reply) id
                   sample_add_node [] sample_objects ""
                   AICommandDispatcher.init _)).
  simpl. lia.
Defined.

(** X25.  What [_parse_game_description] produces.  The list has five
    commands when the lowered description contains both ["third-person"] and
    ["survival"] and a single one otherwise (["survival"] alone adds
    nothing); the last command is always [run_scene]; and every command has
    an empty request id and survives the wire round trip. *)
Theorem parse_game_description_shape (lower : string → string)
    (description : string) :
  let commands := GameBuilder._parse_game_description lower description in
  length commands
    = (if PerformanceAnalyzer.contains "third-person" (lower description)
          && PerformanceAnalyzer.contains "survival" (lower description)
       then 5 else 1) ∧
  Command.action <$> last commands = Some "run_scene" ∧
  Forall (λ c, Command.request_id c = "" ∧
               Command.from_dict (Command.to_dict c) = Command.as_decoded c)
    commands.
Proof.
  cbv zeta. unfold GameBuilder._parse_game_description.
  destruct (PerformanceAnalyzer.contains "third-person" (lower description));
    destruct (PerformanceAnalyzer.contains "survival" (lower description));
    simpl; (split; [done|]); (split; [done|]);
    repeat (apply Forall_cons; split;
            [split; [reflexivity|vm_compute; reflexivity]|]);
    by apply Forall_nil.
Qed.

(** X26.  [create_game] drives the dispatcher exactly as [execute_batch]
    does on the parsed commands, each of them an object of its own: the two
    end the same way and in the same state.  When they return, the actions
    carry the wire forms of the batch responses in order, the errors carry
    the error texts of the responses that are errors, of which there is at
    most one, the description is handed back as given, and [success] says
    that no response is an error. *)
Theorem create_game_runs_batch (lower : string → string) (fuel : nat)
    (w : World) (description : string) (self : AICommandDispatcher.t)
    (refs : list nat) (objects : AICommandDispatcher.store) :
  NoDup refs →
  objects <$> refs = GameBuilder._parse_game_description lower description →
  match GameBuilder.create_game lower fuel w description self,
        (AICommandDispatcher.execute_batch fuel w refs objects self).1 with
  | AICommandDispatcher.Returned res s1, AICommandDispatcher.Returned rs s2 =>
    s1 = s2 ∧
    map snd (GameBuilder.actions res) = map Response.to_dict rs ∧
    map snd (GameBuilder.errors res)
      = map Response.error (filter (λ r, Response.is_error r = true) rs) ∧
    length (GameBuilder.errors res) ≤ 1 ∧
    GameBuilder.c_description res = description ∧
    (GameBuilder.success res = true
     ↔ Forall (λ r, Response.is_error r = false) rs)
  | AICommandDispatcher.Raised e1 s1, AICommandDispatcher.Raised e2 s2 =>
    e1 = e2 ∧ s1 = s2
  | AICommandDispatcher.OutOfFuel s1, AICommandDispatcher.OutOfFuel s2 =>
    s1 = s2
  | _, _ => False
  end.
Proof.
  intros Hnd Hparsed.
  pose proof (create_loop_batch fuel w refs objects
                {| GameBuilder.c_description := description;
                   GameBuilder.success := false;
                   GameBuilder.actions := []; GameBuilder.errors := [] |}
                [] self Hnd) as Hrel.
  rewrite Hparsed in Hrel.
  unfold GameBuilder.create_game, AICommandDispatcher.execute_batch.
  destruct (GameBuilder.create_loop fuel w _ _ self) as [res s1|e1 s1|s1];
    destruct (AICommandDispatcher.batch_loop fuel w _ [] _ self).1
      as [rs s2|e2 s2|s2]; try done.
  destruct Hrel as (-> & rs' & -> & Ha & He & Hlen & Hd).
  simpl in *. split; [done|]. split; [done|]. split; [done|].
  assert (length (GameBuilder.errors res)
          = length (filter (λ r, Response.is_error r = true) rs')) as Hl.
  { by rewrite <- (length_map snd), He, length_map. }
  split; [lia|]. split; [done|].
  rewrite bool_decide_eq_true, Hl, length_zero_iff_nil.
  split.
  - intros Hnil. apply Forall_forall. intros r Hr.
    destruct (Response.is_error r) eqn:E; [|done].
    assert (r ∈ filter (λ r, Response.is_error r = true) rs') as Hin
      by (by apply list_elem_of_filter).
    rewrite Hnil in Hin. by apply elem_of_nil in Hin.
  - intros Hall. destruct (filter _ rs') as [|r l] eqn:E; [done|].
    assert (r ∈ filter (λ r, Response.is_error r = true) rs') as Hin
      by (rewrite E; constructor).
    apply list_elem_of_filter in Hin as [He' Hin].
    rewrite Forall_forall in Hall. rewrite (Hall r Hin) in He'. done.
Qed.

Lemma create_game_runs_batch_witness :
  match GameBuilder.create_game id 1 (replying success_reply)
          "a third-person survival game" AICommandDispatcher.init,
        (AICommandDispatcher.execute_batch 1 (replying success_reply)
           [0; 1; 2; 3; 4]
           (allocated
              (GameBuilder._parse_game_description id
                 "a third-person survival game"))
           AICommandDispatcher.init).1 with
  | AICommandDispatcher.Returned res s1, AICommandDispatcher.Returned rs s2 =>
    s1 = s2 ∧
    map snd (GameBuilder.actions res) = map Response.to_dict rs ∧
    map snd (GameBuilder.errors res)
      = map Response.error (filter (λ r, Response.is_error r = true) rs) ∧
    length (GameBuilder.errors res) ≤ 1 ∧
    GameBuilder.c_description res = "a third-person survival game" ∧
    (GameBuilder.success res = true
     ↔ Forall (λ r, Response.is_error r = false) rs)
  | AICommandDispatcher.Raised e1 s1, AICommandDispatcher.Raised e2 s2 =>
    e1 = e2 ∧ s1 = s2
  | AICommandDispatcher.OutOfFuel s1, AICommandDispatcher.OutOfFuel s2 =>
    s1 = s2
  | _, _ => False
  end.
Proof.
  apply (create_game_runs_batch id 1 (replying success_reply)
           "a third-person survival game" AICommandDispatcher.init
           [0; 1; 2; 3; 4]
           (allocated
              (GameBuilder._parse_game_description id
                 "a third-person survival game"))).
  - apply (NoDup_seq 0 5).
  - vm_compute. reflexivity.
Defined.

Section Query.
Import AICommandDispatcher.

Lemma send_command_decoded (x : GodotAIClient.exchange) (r : Response.t) :
  GodotAIClient.send_command x = Some r → ∃ d, r = Response.from_dict d.
Proof.
  destruct x as [| | |[| | | | | |d]]; simpl; try discriminate.
  intros [= <-]. by exists d.
Qed.

End Query.

(** X27.  [get_scene_snapshot] and [get_performance_report] hand back the
    data of the reply to the last send when that reply is a success, and an
    empty mapping in every other case, the reason for the failure being
    dropped.  What they return never contains one of the keys [status],
    [action], [error], [type], [error_details]. *)
Theorem query_returns_data (action : string) (fuel : nat) (w : World)
    (self : AICommandDispatcher.t) (m : gmap string value)
    (self' : AICommandDispatcher.t) :
  GameBuilder.query action fuel w self
    = AICommandDispatcher.Returned m self' →
  m = match GodotAIClient.send_command
              (exchanges w (length (AICommandDispatcher.sent self') - 1)) with
      | Some reply =>
        if Response.is_success reply then Response.data reply else ∅
      | None => ∅
      end ∧
  (∀ k, k ∈ Response.reserved → m !! k = None).
Proof.
  unfold GameBuilder.query. rewrite execute_command_unfold.
  set (command := Command.mk action ∅ false "").
  destruct (command_loop_sends w (request_id_of w command self)
              (command_of w command self) fuel 0 (entered w command self))
    as (n & _ & Hs & _ & Hr).
  destruct (AICommandDispatcher.command_loop _ _ _ _ _ _)
    as [r s| |] eqn:Hrun; [|discriminate..].
  intros [= <- <-]. cbn [outcome_state] in Hs.
  destruct (Hr r s eq_refl) as [Hn Hlast].
  assert (length (AICommandDispatcher.sent s) - 1
          = length (AICommandDispatcher.sent (entered w command self)) + n - 1)
    as -> by (rewrite Hs, length_app, length_replicate; lia).
  destruct (GodotAIClient.send_command _) as [reply|] eqn:Hsend.
  - subst r. split; [done|]. intros k Hk.
    destruct (Response.is_success reply); cbv iota; [|apply lookup_empty].
    destruct (send_command_decoded _ _ Hsend) as [d ->].
    cbn [Response.data Response.from_dict].
    rewrite without_keys_lookup. by rewrite bool_decide_eq_true_2.
  - subst r. split; [done|]. intros k _. apply lookup_empty.
Qed.

Lemma query_returns_data_witness :
  ({["nodes" := VInt 3]} : gmap string value) !! "status" = None.
Proof.
  refine (proj2 (query_returns_data "get_snapshot" 1
                   (replying snapshot_reply) AICommandDispatcher.init
                   {["nodes" := VInt 3]} _ _) "status" _).
  - vm_compute. reflexivity.
  - unfold Response.reserved. constructor.
Defined.
